(** * ytpriv: comment aggregation service

  A shallow embedding of the pure parts of the Python sources
  ([utils/helpers.py], [utils/file_utils.py], [services/ai_service.py],
  [services/youtube_service.py], [services/database.py],
  [services/reddit_service.py], [services/comment_fetcher.py],
  [routes/search_routes.py], [routes/database_routes.py]) and the
  properties proved about them.

  Layout: the embedding comes first, one module per source file; the
  lemmas and theorems follow. *)

From Stdlib Require Import Ascii String List ZArith QArith Lia Bool Arith Permutation.
Import ListNotations.

Set Implicit Arguments.

(** ** Python [str] values

  A Python string is a sequence of code points.  The embedding covers the
  code points U+0000..U+00FF: a character is an [ascii] (eight bits) and a
  string is a [list ascii].  On that range the classification tables below
  are those of CPython's [str.isspace], [str.isdigit], [str.isalnum] and
  [str.lower]; [str.lower] maps the range into itself. *)
Module PyStr.

Definition str := list ascii.

(** A literal of the source. *)
Definition py (s : string) : str := list_ascii_of_string s.

Definition ord (c : ascii) : nat := nat_of_ascii c.

Definition between (lo hi n : nat) : bool := (lo <=? n) && (n <=? hi).

(** [c.isspace()]: TAB..CR, FS..US, SPACE, NEL, NBSP. *)
Definition isspace (c : ascii) : bool :=
  let n := ord c in
  between 9 13 n || between 28 32 n || (n =? 133) || (n =? 160).

(** [c.isdigit()]: 0-9 and the superscripts 2, 3, 1. *)
Definition isdigit (c : ascii) : bool :=
  let n := ord c in
  between 48 57 n || (n =? 178) || (n =? 179) || (n =? 185).

(** [c.isalnum()]: letters, decimal digits, and the characters with
    a digit or numeric value. *)
Definition isalnum (c : ascii) : bool :=
  let n := ord c in
  between 48 57 n || between 65 90 n || between 97 122 n
  || (n =? 170) || (n =? 178) || (n =? 179) || (n =? 181)
  || (n =? 185) || (n =? 186) || between 188 190 n
  || between 192 214 n || between 216 246 n || between 248 255 n.

(** The 7-bit range. *)
Definition isascii (c : ascii) : bool := ord c <? 128.

(** [c.lower()] *)
Definition lower_char (c : ascii) : ascii :=
  let n := ord c in
  if between 65 90 n || between 192 214 n || between 216 222 n
  then ascii_of_nat (n + 32) else c.

(** [s.lower()] *)
Definition lower (s : str) : str := map lower_char s.

(** Truth value of a string: [not s] holds for the empty string only. *)
Definition is_empty (s : str) : bool :=
  match s with [] => true | _ :: _ => false end.

(** [len(s)] as a Python integer. *)
Definition len (s : str) : Z := Z.of_nat (length s).

(** [s.lstrip(chars)], the set [chars] given as a predicate. *)
Fixpoint lstrip_by (p : ascii -> bool) (s : str) : str :=
  match s with
  | [] => []
  | c :: t => if p c then lstrip_by p t else s
  end.

(** [s.rstrip(chars)] *)
Fixpoint rstrip_by (p : ascii -> bool) (s : str) : str :=
  match s with
  | [] => []
  | c :: t =>
      match rstrip_by p t with
      | [] => if p c then [] else [c]
      | t' => c :: t'
      end
  end.

(** [s.strip()] *)
Definition strip (s : str) : str := rstrip_by isspace (lstrip_by isspace s).

(** [s[:n]] for a Python integer [n]; a negative [n] counts from the end. *)
Definition slice_to (A : Type) (n : Z) (l : list A) : list A :=
  if (0 <=? n)%Z then firstn (Z.to_nat n) l
  else firstn (length l - Z.to_nat (- n)) l.

(** [s.startswith(p)] *)
Fixpoint startswith (p s : str) : bool :=
  match p, s with
  | [], _ => true
  | _ :: _, [] => false
  | a :: p', b :: s' => Ascii.eqb a b && startswith p' s'
  end.

(** [p in s] *)
Fixpoint contains (p s : str) : bool :=
  startswith p s ||
  match s with
  | [] => false
  | _ :: t => contains p t
  end.

(** [s.replace(old, new)] for a non-empty [old]: occurrences are replaced
    left to right and do not overlap.  [skip] counts the characters of the
    occurrence just replaced that are still to be passed over. *)
Fixpoint replace_from (old new : str) (skip : nat) (s : str) : str :=
  match s with
  | [] => []
  | c :: t =>
      match skip with
      | S k => replace_from old new k t
      | O =>
          if startswith old s
          then new ++ replace_from old new (length old - 1) t
          else c :: replace_from old new 0 t
      end
  end.

Definition replace (old new s : str) : str := replace_from old new 0 s.

(** [s.split()]: the maximal runs of non-whitespace characters.  [cur]
    holds the current run, reversed. *)
Fixpoint split_ws_from (cur : str) (s : str) : list str :=
  match s with
  | [] => match cur with [] => [] | _ => [rev cur] end
  | c :: t =>
      if isspace c
      then match cur with
           | [] => split_ws_from [] t
           | _ => rev cur :: split_ws_from [] t
           end
      else split_ws_from (c :: cur) t
  end.

Definition split_ws (s : str) : list str := split_ws_from [] s.

(** [s.split(sep)] for a one-character separator: always at least one
    piece. *)
Fixpoint split_on_from (sep : ascii) (cur : str) (s : str) : list str :=
  match s with
  | [] => [rev cur]
  | c :: t =>
      if Ascii.eqb c sep
      then rev cur :: split_on_from sep [] t
      else split_on_from sep (c :: cur) t
  end.

Definition split_on (sep : ascii) (s : str) : list str :=
  split_on_from sep [] s.

(** [s.split(sep, 1)[-1]]: what follows the first [sep], or all of [s]
    when [sep] does not occur. *)
Fixpoint after_first (sep : ascii) (s : str) : option str :=
  match s with
  | [] => None
  | c :: t => if Ascii.eqb c sep then Some t else after_first sep t
  end.

Definition split1_last (sep : ascii) (s : str) : str :=
  match after_first sep s with
  | Some t => t
  | None => s
  end.

(** Equality of strings, as [==] and as dictionary-key equality. *)
Definition str_eq_dec : forall a b : str, {a = b} + {a <> b} :=
  list_eq_dec ascii_dec.

Definition str_eqb (a b : str) : bool :=
  if str_eq_dec a b then true else false.

(** [l[i:j]] for Python integers: a negative bound counts from the end, and
    both bounds are cut to the length. *)
Definition clamp (n : nat) (i : Z) : nat :=
  if (i <? 0)%Z then Z.to_nat (Z.max 0 (i + Z.of_nat n))
  else Nat.min (Z.to_nat i) n.

Definition slice (A : Type) (i j : Z) (l : list A) : list A :=
  let a := clamp (length l) i in
  let b := clamp (length l) j in
  firstn (b - a) (skipn a l).

(** [list(range(start, stop, step))]; [None] is the [ValueError] of a zero
    step.  The number of elements is computed as CPython does. *)
Definition py_range (start stop step : Z) : option (list Z) :=
  if (step =? 0)%Z then None
  else
    let count :=
      if (0 <? step)%Z
      then if (start <? stop)%Z then ((stop - start - 1) / step + 1)%Z else 0%Z
      else if (stop <? start)%Z then ((start - stop - 1) / (- step) + 1)%Z else 0%Z in
    Some (map (fun i => (start + Z.of_nat i * step)%Z) (seq 0 (Z.to_nat count))).

(** [sep.join(parts)] *)
Fixpoint join (sep : str) (parts : list str) : str :=
  match parts with
  | [] => []
  | p :: rest =>
      match rest with
      | [] => p
      | _ :: _ => p ++ sep ++ join sep rest
      end
  end.

End PyStr.

Import PyStr.

(** ** utils/helpers.py *)
Module Helpers.

(** The character class of the pattern given to [re.search]: less-than,
    greater-than, double quote (code 34), single quote, ampersand. *)
Definition invalid_char (c : ascii) : bool :=
  (c =? "<")%char || (c =? ">")%char || (c =? "034")%char
  || (c =? "'")%char || (c =? "&")%char.

Definition validate_query (query : str) : bool * str :=
  if is_empty query || is_empty (strip query) then
    (false, py "Query cannot be empty")
  else
    let query := strip query in
    if (len query <? 2)%Z then
      (false, py "Query must be at least 2 characters long")
    else if (len query >? 500)%Z then
      (false, py "Query must be less than 500 characters")
    else if existsb invalid_char query then
      (false, py "Query contains invalid characters")
    else
      (true, py "Query is valid").

(** [text] is a string; [max_length] is [None] or an integer. *)
Definition clean_text (text : str) (max_length : option Z) : str :=
  if is_empty text then []
  else
    let text := join (py " ") (split_ws text) in
    let text :=
      replace ["009"%char] (py " ")
        (replace ["013"%char] (py " ")
           (replace ["010"%char] (py " ") text)) in
    let text :=
      match max_length with
      | Some m =>
          if negb (m =? 0)%Z && (len text >? m)%Z
          then slice_to (m - 3) text ++ py "..."
          else text
      | None => text
      end in
    strip text.

(** [None] is the [ValueError] that [range] raises for a step of zero. *)
Definition chunk_list (A : Type) (lst : list A) (chunk_size : Z)
  : option (list (list A)) :=
  match py_range 0 (Z.of_nat (length lst)) chunk_size with
  | None => None
  | Some starts => Some (map (fun i => slice i (i + chunk_size) lst) starts)
  end.

(** A dictionary with string keys: the bindings in insertion order, each key
    once. *)
Definition pydict (V : Type) : Type := list (str * V).

(** [d.get(key)] *)
Fixpoint dict_get (V : Type) (key : str) (d : pydict V) : option V :=
  match d with
  | [] => None
  | (k, v) :: rest => if str_eqb key k then Some v else dict_get key rest
  end.

(** [d[key] = value]: a key that is present keeps its place. *)
Fixpoint dict_set (V : Type) (key : str) (value : V) (d : pydict V) : pydict V :=
  match d with
  | [] => [(key, value)]
  | (k, v) :: rest =>
      if str_eqb key k then (k, value) :: rest
      else (k, v) :: dict_set key value rest
  end.

(** [result.update(d)] *)
Definition dict_update (V : Type) (result d : pydict V) : pydict V :=
  fold_left (fun acc kv => dict_set (fst kv) (snd kv) acc) d result.

(** An argument is a dictionary or, for [None] here, a value that
    [isinstance(d, dict)] refuses. *)
Definition merge_dictionaries (V : Type) (dicts : list (option (pydict V)))
  : pydict V :=
  fold_left
    (fun result d =>
       match d with
       | Some d => dict_update result d
       | None => result
       end)
    dicts [].

(** The characters the pattern of [re.sub] in [sanitize_for_api] keeps: word
    characters, whitespace, and hyphen, underscore, period, comma,
    exclamation mark, question mark. *)
Definition api_char (c : ascii) : bool :=
  isalnum c || (c =? "_")%char || isspace c
  || (c =? "-")%char || (c =? ".")%char || (c =? ",")%char
  || (c =? "!")%char || (c =? "?")%char.

(** Code 34 is the double quote, code 92 the backslash. *)
Definition sanitize_for_api (text : str) : str :=
  if is_empty text then []
  else
    let text := replace ["034"%char] ["092"; "034"]%char text in
    let text := replace ["'"%char] ["092"; "'"]%char text in
    let text := filter api_char text in
    strip text.

(** What one call of the wrapped function does: it returns, raises an
    exception of one of the classes in [exceptions], or raises another
    exception. *)
Inductive call_outcome (A E : Type) : Type :=
| CallReturns (a : A)
| CallRaises (e : E)
| CallRaisesOther (e : E).
Arguments CallReturns {A E} a.
Arguments CallRaises {A E} e.
Arguments CallRaisesOther {A E} e.

(** What the wrapper does: it returns a value or raises. *)
Inductive wrapper_outcome (A E : Type) : Type :=
| WrapperReturns (a : A)
| WrapperRaises (e : E).
Arguments WrapperReturns {A E} a.
Arguments WrapperRaises {A E} e.

(** The loop [for attempt in range(max_retries + 1)] of the wrapper from
    the pass numbered [attempt] on, with [remaining] passes to go.  [A] is
    the type of the values of the function, Python's [None] among them as
    [none]; [func] gives the outcome of the call made in each pass.  The
    wrapper returns the value of a call as it is, and [none] after the
    loop.  The result comes with the number of calls made; the pauses
    between the calls are left out. *)
Fixpoint retry_from (A E : Type) (none : A) (func : nat -> call_outcome A E)
    (max_retries : Z) (remaining attempt : nat)
  : wrapper_outcome A E * nat :=
  match remaining with
  | O => (WrapperReturns none, 0%nat)
  | S remaining' =>
      match func attempt with
      | CallReturns a => (WrapperReturns a, 1%nat)
      | CallRaisesOther e => (WrapperRaises e, 1%nat)
      | CallRaises e =>
          if (Z.of_nat attempt =? max_retries)%Z then (WrapperRaises e, 1%nat)
          else
            let '(result, calls) :=
              retry_from none func max_retries remaining' (S attempt) in
            (result, S calls)
      end
  end.

(** A call of the function [retry_on_failure(func, max_retries)] returns. *)
Definition retry_on_failure (A E : Type) (none : A)
    (func : nat -> call_outcome A E) (max_retries : Z)
  : wrapper_outcome A E * nat :=
  retry_from none func max_retries (Z.to_nat (max_retries + 1)) 0.

End Helpers.

(** ** utils/file_utils.py *)
Module FileUtils.

(** [c.isalnum() or c in '_-'] *)
Definition keep_char (c : ascii) : bool :=
  isalnum c || contains [c] (py "_-").

(** The loop
    [while '__' in sanitized: sanitized = sanitized.replace('__', '_')].
    [fuel] bounds the number of iterations; [collapse_loop_done] below
    shows that [length s] iterations always reach the exit. *)
Fixpoint collapse_loop (fuel : nat) (s : str) : str :=
  match fuel with
  | O => s
  | S k =>
      if contains (py "__") s
      then collapse_loop k (replace (py "__") (py "_") s)
      else s
  end.

(** [max_length] is [Config.MAX_FILENAME_LENGTH], an integer read from the
    environment (50 when unset). *)
Definition sanitize_filename (max_length : Z) (filename : str) : str :=
  if is_empty filename || is_empty (strip filename) then
    py "unknown_file"
  else
    let sanitized := replace (py " ") (py "_") (strip filename) in
    let sanitized := filter keep_char sanitized in
    let sanitized := collapse_loop (length sanitized) sanitized in
    let sanitized :=
      if (len sanitized >? max_length)%Z
      then slice_to max_length sanitized else sanitized in
    let sanitized := rstrip_by (fun c => (c =? "_")%char) sanitized in
    let sanitized := if is_empty sanitized then py "file" else sanitized in
    lower sanitized.

(** The default of [Config.MAX_FILENAME_LENGTH]. *)
Definition default_max_filename_length : Z := 50.

End FileUtils.

(** ** services/youtube_service.py *)
Module YouTubeService.

(** [sanitize_query_for_filename(query)]; [max_filename_length] is
    [Config.MAX_FILENAME_LENGTH]. *)
Definition sanitize_query_for_filename (max_filename_length : Z)
    (query : str) : str :=
  let sanitized := replace (py " ") (py "_") query in
  let sanitized :=
    filter (fun c => isalnum c || contains [c] (py "_-")) sanitized in
  let sanitized :=
    if (len sanitized >? max_filename_length)%Z
    then slice_to max_filename_length sanitized else sanitized in
  let sanitized := rstrip_by (fun c => (c =? "_")%char) sanitized in
  lower sanitized.

End YouTubeService.

(** ** services/ai_service.py *)
Module AIService.

(** What [self.model.generate_content(prompt)] followed by [response.text]
    does: it raises, or it yields the text of the reply. *)
Inductive generation : Type :=
| Raises
| Text (t : str).

(** One line of the reply: [Some variation] when the line is appended to
    [variations], [None] when it is passed over. *)
Definition parse_line (line : str) : option str :=
  let line := strip line in
  if negb (is_empty line) && existsb isdigit (slice_to 3 line) then
    let variation := strip (split1_last "." line) in
    if negb (is_empty variation) then Some variation else None
  else None.

Fixpoint parse_lines (lines : list str) : list str :=
  match lines with
  | [] => []
  | line :: rest =>
      match parse_line line with
      | Some variation => variation :: parse_lines rest
      | None => parse_lines rest
      end
  end.

(** [model] is [None] when no API key is configured ([is_available()] is
    false); otherwise it holds the outcome of the generation call.
    [config_num] is [Config.NUM_QUERY_VARIATIONS]. *)
Definition generate_query_variations
    (config_num : Z) (model : option generation)
    (original_query : str) (num_variations : option Z) : list str :=
  match model with
  | None => [original_query]
  | Some outcome =>
      let num_variations :=
        match num_variations with
        | None => config_num
        | Some n => n
        end in
      match outcome with
      | Raises => [original_query]
      | Text response_text =>
          let variations_text := strip response_text in
          let variations := parse_lines (split_on "010" variations_text) in
          match variations with
          | [] => [original_query]
          | _ => slice_to num_variations variations
          end
      end
  end.

(** [suggest_related_queries(original_query, num_suggestions)] for an
    integer [num_suggestions]; [model] as above. *)
Definition suggest_related_queries (model : option generation)
    (original_query : str) (num_suggestions : Z) : list str :=
  match model with
  | None => []
  | Some Raises => []
  | Some (Text response_text) =>
      let suggestions_text := strip response_text in
      let suggestions := parse_lines (split_on "010" suggestions_text) in
      slice_to num_suggestions suggestions
  end.

End AIService.

(** ** Content items

  The dictionaries the fetch services build and the aggregation reads.  A
  key read with [d['k']] is a field; a key read with [d.get('k', default)]
  is an optional field. *)
Module Content.

(** A reply as fetched. *)
Record reply : Type := {
  reply_author : str;
  reply_text : str;
  reply_likes : option Z;
  reply_published_at : str;
  reply_author_profile : option str
}.

(** A top-level comment as fetched. *)
Record comment : Type := {
  comment_author : str;
  comment_text : str;
  comment_likes : option Z;
  comment_published_at : str;
  comment_author_profile : option str;
  comment_replies : option (list reply)
}.

(** A content item: a video or a discussion post with its comments.
    [video_title] is [video_info.title], [post_title] and [post_subreddit]
    are [post_info.title] and [post_info.subreddit]. *)
Record video : Type := {
  video_source : option str;
  video_title : option str;
  post_title : option str;
  post_subreddit : option str;
  video_comments : list comment
}.

(** A reply as stored under a unique comment. *)
Record unique_reply : Type := {
  ur_author : str;
  ur_text : str;
  ur_likes : Z;
  ur_published_at : str;
  ur_author_profile : str;
  ur_source : str
}.

(** An entry of the unique-comment dictionary. *)
Record unique_comment : Type := {
  uc_author : str;
  uc_text : str;
  uc_likes : Z;
  uc_published_at : str;
  uc_author_profile : str;
  uc_source : str;
  uc_video_title : str;
  uc_subreddit : str;
  uc_replies : list unique_reply
}.

(** [d.get(k, default)] *)
Definition get_or (A : Type) (field : option A) (default : A) : A :=
  match field with
  | Some v => v
  | None => default
  end.

End Content.

Import Content.

(** ** services/database.py *)
Module Database.

(** Values stored in a document. *)
#[warnings="-register-all"]
Inductive value : Type :=
| VNone
| VBool (b : bool)
| VInt (z : Z)
| VRatio (num den : Z)
| VStr (s : str)
| VStrs (l : list str)
| VVideos (l : list video)
| VUnique (l : list unique_comment)
| VDict (d : list (str * value)).

(** A document is a dictionary with string keys, in insertion order. *)
Definition document : Type := list (str * value).

(** [d.get(key)] *)
Fixpoint get (key : str) (d : document) : value :=
  match d with
  | [] => VNone
  | (k, v) :: rest => if str_eqb key k then v else get key rest
  end.

(** [d.get(key, default)] *)
Fixpoint get_default (key : str) (default : value) (d : document) : value :=
  match d with
  | [] => default
  | (k, v) :: rest => if str_eqb key k then v else get_default key default rest
  end.

(** [insert_one] returns the identifier of the inserted document or raises
    an exception, of which the code reads [str(e)]. *)
Inductive insert_outcome : Type :=
| Inserted (id : nat)
| InsertRaises (message : str).

(** The database as seen from [save_search_result]: whether [connect()]
    succeeds, and for a collection state and a document the message of the
    exception the insert raises, if it raises. *)
Record server : Type := {
  connect : bool;
  rejects : list document -> document -> option str
}.

(** [collection.insert_one(doc)] on the collection [coll]; the identifier
    of an inserted document is its position. *)
Definition insert_one (srv : server) (coll : list document) (doc : document)
  : list document * insert_outcome :=
  match rejects srv coll doc with
  | Some message => (coll, InsertRaises message)
  | None => (coll ++ [doc], Inserted (length coll))
  end.

Definition minimal_data (data : document) : document :=
  [ (py "batch_id", get (py "batch_id") data);
    (py "query", get (py "query") data);
    (py "timestamp", get (py "timestamp") data);
    (py "total_comments", get (py "total_comments") data);
    (py "unique_comments", get (py "unique_comments") data);
    (py "error", VStr (py "Data too large for MongoDB"));
    (py "data_storage",
      VDict [ (py "full_data_saved_to_files", VBool true);
              (py "note",
                VStr (py "Full data available in JSON files due to size constraints")) ]) ].

(** Returns the collection after the call and the identifier, [None] for
    Python's [None]. *)
Definition save_search_result (srv : server) (coll : list document)
    (data : document) : list document * option nat :=
  if negb (connect srv) then (coll, None)
  else
    match insert_one srv coll data with
    | (coll1, Inserted id) => (coll1, Some id)
    | (coll1, InsertRaises e) =>
        if contains (py "DocumentTooLarge") e then
          match insert_one srv coll1 (minimal_data data) with
          | (coll2, Inserted id) => (coll2, Some id)
          | (coll2, InsertRaises _) => (coll2, None)
          end
        else (coll1, None)
    end.

End Database.

(** ** services/database.py: the service object *)
Module DatabaseService.

Import Database.

(** The attributes [client] and [db] of the service: whether each is set
    (is not [None]). *)
Record handles : Type := {
  client : bool;
  db : bool
}.

(** The service as constructed. *)
Definition initial : handles := {| client := false; db := false |}.

(** What happens when [connect] tries to open a connection: no URI is
    configured, the construction of the client raises, the client is
    constructed and the ping raises, or the ping succeeds. *)
Inductive opening : Type :=
| NoUri
| ClientRaises
| PingRaises
| Opens.

(** [connect()]: the value returned and the attributes after the call.
    The client is assigned before the ping is sent. *)
Definition connect (o : opening) (h : handles) : bool * handles :=
  if client h then (true, h)
  else
    match o with
    | NoUri => (false, h)
    | ClientRaises => (false, h)
    | PingRaises => (false, {| client := true; db := db h |})
    | Opens => (true, {| client := true; db := true |})
    end.

(** [close_connection()] *)
Definition close_connection (h : handles) : handles :=
  if client h then initial else h.

(** [save_search_result(data)] on the service.  With [db] unset the
    subscript [self.db['search_results']] raises a [TypeError], whose text
    does not mention [DocumentTooLarge], and the handler returns [None].
    With [db] set the inserts go as in [Database.save_search_result]. *)
Definition save_search_result (o : opening)
    (rejects : list document -> document -> option str)
    (h : handles) (coll : list document) (data : document)
  : handles * list document * option nat :=
  let '(ok, h') := connect o h in
  if negb ok then (h', coll, None)
  else if negb (db h') then (h', coll, None)
  else
    let '(coll', result) :=
      Database.save_search_result
        {| Database.connect := true; Database.rejects := rejects |} coll data in
    (h', coll', result).

(** The filter [{'batch_id': batch_id}]. *)
Definition has_batch_id (batch_id : str) (doc : document) : bool :=
  match get (py "batch_id") doc with
  | VStr s => str_eqb s batch_id
  | _ => false
  end.

(** [collection.find_one({'batch_id': batch_id})]: the first document of
    the collection that matches, with its identifier. *)
Fixpoint find_from (batch_id : str) (id : nat) (coll : list document)
  : option (nat * document) :=
  match coll with
  | [] => None
  | doc :: rest =>
      if has_batch_id batch_id doc then Some (id, doc)
      else find_from batch_id (S id) rest
  end.

Definition find_one (batch_id : str) (coll : list document)
  : option (nat * document) := find_from batch_id 0 coll.

(** [get_search_result(batch_id)].  [id_text] renders an identifier as
    text, [find_raises] tells whether the query raises.  The document
    returned carries its identifier as text under [_id]. *)
Definition get_search_result (id_text : nat -> str) (find_raises : bool)
    (o : opening) (h : handles) (coll : list document) (batch_id : str)
  : handles * option document :=
  let '(ok, h') := connect o h in
  if negb ok then (h', None)
  else if negb (db h') then (h', None)
  else if find_raises then (h', None)
  else
    match find_one batch_id coll with
    | None => (h', None)
    | Some (id, doc) => (h', Some ((py "_id", VStr (id_text id)) :: doc))
    end.

End DatabaseService.

(** ** routes/database_routes.py *)
Module DatabaseRoutes.

Import Database DatabaseService.

(** [GET /batch/<batch_id>/summary]: the attributes of the database service
    after the request and the summary, [None] for the answer 404. *)
Definition get_batch_summary (id_text : nat -> str) (find_raises : bool)
    (o : opening) (h : handles) (coll : list document) (batch_id : str)
  : handles * option document :=
  match get_search_result id_text find_raises o h coll batch_id with
  | (h', None) => (h', None)
  | (h', Some batch_data) =>
      (h',
       Some
         [ (py "batch_id", get (py "batch_id") batch_data);
           (py "query", get (py "query") batch_data);
           (py "timestamp", get (py "timestamp") batch_data);
           (py "sources", get_default (py "sources") (VStrs []) batch_data);
           (py "total_youtube_videos",
             get_default (py "total_youtube_videos") (VInt 0) batch_data);
           (py "total_reddit_posts",
             get_default (py "total_reddit_posts") (VInt 0) batch_data);
           (py "total_comments",
             get_default (py "total_comments") (VInt 0) batch_data);
           (py "total_replies",
             get_default (py "total_replies") (VInt 0) batch_data);
           (py "grand_total",
             get_default (py "grand_total") (VInt 0) batch_data);
           (py "unique_comments",
             get_default (py "unique_comments") (VInt 0) batch_data);
           (py "processing_info",
             get_default (py "processing_info") (VDict []) batch_data);
           (py "data_available", VBool true) ])
  end.

(** [record[key]]: [None] for the [KeyError] of a missing key. *)
Fixpoint lookup (key : str) (d : document) : option value :=
  match d with
  | [] => None
  | (k, v) :: rest => if str_eqb key k then Some v else lookup key rest
  end.

(** [[record['batch_id'] for record in records]] *)
Fixpoint batch_ids (records : list document) : option (list value) :=
  match records with
  | [] => Some []
  | record :: rest =>
      match lookup (py "batch_id") record, batch_ids rest with
      | Some v, Some vs => Some (v :: vs)
      | _, _ => None
      end
  end.

(** [db_service.get_database()]: whether a database is returned, and the
    attributes of the service after the call. *)
Definition get_database (o : opening) (h : handles) : bool * handles :=
  let '(ok, h') := connect o h in
  if negb ok then (false, h') else (db h', h').

(** The answers of the cleanup: no connection (500), the exception handler
    (500), no cleanup needed, and cleanup completed. *)
Inductive cleanup_response : Type :=
| CleanupNoConnection
| CleanupCrashed
| CleanupNotNeeded (total_records keep_latest : Z)
| CleanupCompleted (deleted_count remaining_records : Z).

(** [POST /database/cleanup] for queries that do not raise.
    [sorted] is the order in which the server returns the records for
    [find({}).sort('timestamp', 1)]; [selected ids doc] tells whether the
    server selects [doc] for the filter [{'batch_id': {'$in': ids}}];
    [keep_latest] is the integer of the request body, if any.  The result
    holds the attributes of the service, the answer, and the collection
    after the request. *)
Definition cleanup_database (sorted : list document -> list document)
    (selected : list value -> document -> bool)
    (o : opening) (h : handles) (coll : list document)
    (keep_latest : option Z)
  : handles * cleanup_response * list document :=
  let keep_latest := get_or keep_latest 100%Z in
  let '(has_db, h') := get_database o h in
  if negb has_db then (h', CleanupNoConnection, coll)
  else
    let all_records := sorted coll in
    let total_records := Z.of_nat (length all_records) in
    if (total_records <=? keep_latest)%Z
    then (h', CleanupNotNeeded total_records keep_latest, coll)
    else
      let records_to_delete := slice_to (- keep_latest) all_records in
      match batch_ids records_to_delete with
      | None => (h', CleanupCrashed, coll)
      | Some batch_ids_to_delete =>
          let remaining :=
            filter (fun doc => negb (selected batch_ids_to_delete doc)) coll in
          let deleted_count :=
            Z.of_nat (length coll - length remaining) in
          (h',
           CleanupCompleted deleted_count (total_records - deleted_count),
           remaining)
      end.

End DatabaseRoutes.

(** ** services/reddit_service.py *)
Module RedditService.

Definition relevant_subreddits : list str :=
  map py
    [ "all"; "AskReddit"; "todayilearned"; "news"; "worldnews";
      "technology"; "science"; "politics"; "gaming"; "movies";
      "music"; "books"; "sports"; "food"; "travel"; "history";
      "personalfinance"; "investing"; "explainlikeimfive"; "askscience" ]%string.

(** The sixteen names of the older list in [app.py]. *)
Definition general_purpose_names : list str :=
  map py
    [ "all"; "AskReddit"; "todayilearned"; "news"; "worldnews";
      "technology"; "science"; "politics"; "gaming"; "movies";
      "music"; "books"; "sports"; "food"; "travel"; "history" ]%string.

(** The words of the query appended to the candidates. *)
Definition query_candidates (query : str) : list str :=
  filter (fun word => (len word >? 3)%Z) (split_ws (lower query)).

(** [probe name] tells whether reading the display name of the forum
    [name] succeeds.  [query] is [None] for a value that is not a string,
    on which [query.lower()] raises; [limit] is a Python integer. *)
Definition search_subreddits (probe : str -> bool)
    (query : option str) (limit : Z) : list str :=
  match query with
  | None => [py "all"; py "AskReddit"]
  | Some query =>
      let candidates := relevant_subreddits ++ query_candidates query in
      let filtered_subreddits := filter probe candidates in
      slice_to limit filtered_subreddits
  end.

(** [sum(1 for term in query_terms if term in comment_lower)] *)
Definition count_matching (comment_lower : str) (query_terms : list str) : Z :=
  Z.of_nat (length (filter (fun term => contains term comment_lower) query_terms)).

(** [len(query_terms)] *)
Definition term_count (query_terms : list str) : Z :=
  Z.of_nat (length query_terms).

(** The value of [matching_terms] when the verdict is computed: an integer
    to which one half may have been added, kept as a rational. *)
Definition matching_terms (comment_text : str) (query_terms : list str) : Q :=
  let comment_lower := lower comment_text in
  let matching_terms := inject_Z (count_matching comment_lower query_terms) in
  if (term_count query_terms =? 1)%Z && (len (hd [] query_terms) >? 3)%Z then
    let partial_term := slice_to 4 (hd [] query_terms) in
    if contains partial_term comment_lower
    then (matching_terms + (1 # 2))%Q
    else matching_terms
  else matching_terms.

Definition filter_comment_relevance (comment_text : str)
    (query_terms : list str) : bool :=
  let matching_terms := matching_terms comment_text query_terms in
  if (term_count query_terms >? 1)%Z then
    Qle_bool (inject_Z (Z.max 1 (term_count query_terms / 2))) matching_terms
  else
    negb (Qle_bool matching_terms 0).

(** The match count in the words of the specification: the number of
    terms found in the lowercased comment, plus one half for a query of
    one term whose first four characters are found. *)
Definition spec_match_count (comment_text : str) (query_terms : list str) : Q :=
  let comment_lower := lower comment_text in
  let found := inject_Z (count_matching comment_lower query_terms) in
  match query_terms with
  | [term] =>
      if contains (slice_to 4 term) comment_lower
      then (found + (1 # 2))%Q else found
  | _ => found
  end.

(** [set(words)]: the distinct words.  Python does not specify the order in
    which a set is iterated; the list keeps each word once, and the verdict
    of [filter_comment_relevance] is the same in any order. *)
Definition set_of (words : list str) : list str := nodup str_eq_dec words.

(** [s.add(x)] *)
Definition set_add (x : str) (s : list str) : list str :=
  if existsb (str_eqb x) s then s else s ++ [x].

(** The terms [get_comments_from_subreddit] prepares for the relevance
    filter. *)
Definition query_terms (query : str) : list str :=
  let query_terms := set_of (split_ws (lower query)) in
  if (term_count query_terms =? 1)%Z && (len (hd [] query_terms) >? 3)%Z
  then set_add (slice_to 4 (hd [] query_terms)) query_terms
  else query_terms.

End RedditService.

(** ** services/comment_fetcher.py *)
Module CommentFetcher.

(** *** Dictionaries keyed by comment text

    [unique_comments] and [all_unique_comments] are dictionaries from the
    trimmed text to the entry; [list(d.values())] lists the entries in the
    order of insertion, so the dictionary is kept as a list of bindings in
    that order. *)
Definition unique_dict : Type := list (str * unique_comment).

(** [x in l] for a list of strings. *)
Definition mem (x : str) (l : list str) : bool := existsb (str_eqb x) l.

(** [key in d] *)
Definition has_key (key : str) (d : unique_dict) : bool :=
  mem key (map fst d).

(** [d[key]] *)
Fixpoint lookup (key : str) (d : unique_dict) : option unique_comment :=
  match d with
  | [] => None
  | (k, entry) :: rest => if str_eqb key k then Some entry else lookup key rest
  end.

(** [d[key] = entry] for a key that is not in [d]. *)
Definition add_entry (key : str) (entry : unique_comment) (d : unique_dict)
  : unique_dict := d ++ [(key, entry)].

Definition with_reply (entry : unique_comment) (r : unique_reply) : unique_comment :=
  {| uc_author := uc_author entry;
     uc_text := uc_text entry;
     uc_likes := uc_likes entry;
     uc_published_at := uc_published_at entry;
     uc_author_profile := uc_author_profile entry;
     uc_source := uc_source entry;
     uc_video_title := uc_video_title entry;
     uc_subreddit := uc_subreddit entry;
     uc_replies := uc_replies entry ++ [r] |}.

(** [d[key]['replies'].append(r)]: the reply list of the entry is updated
    in place. *)
Fixpoint append_reply (key : str) (r : unique_reply) (d : unique_dict)
  : unique_dict :=
  match d with
  | [] => []
  | (k, entry) :: rest =>
      if str_eqb key k then (k, with_reply entry r) :: rest
      else (k, entry) :: append_reply key r rest
  end.

(** *** get_unique_comments_unified *)

(** The three locals the loops update. *)
Record unique_state : Type := {
  unique_comments : unique_dict;
  total_comments : Z;
  total_replies : Z
}.

Definition new_entry (source : str) (v : video) (comment : comment)
    (comment_text : str) : unique_comment :=
  {| uc_author := comment_author comment;
     uc_text := comment_text;
     uc_likes := get_or (comment_likes comment) 0%Z;
     uc_published_at := comment_published_at comment;
     uc_author_profile := get_or (comment_author_profile comment) [];
     uc_source := source;
     uc_video_title :=
       get_or (video_title v) (get_or (post_title v) (py "Unknown"));
     uc_subreddit := get_or (post_subreddit v) [];
     uc_replies := [] |}.

Definition new_reply (source : str) (reply : reply) (reply_text : str)
  : unique_reply :=
  {| ur_author := reply_author reply;
     ur_text := reply_text;
     ur_likes := get_or (reply_likes reply) 0%Z;
     ur_published_at := reply_published_at reply;
     ur_author_profile := get_or (reply_author_profile reply) [];
     ur_source := source |}.

(** The loop [for reply in comment.get('replies', [])].
    [existing_replies] is computed once, before the loop, and is not
    updated by it. *)
Fixpoint add_replies (source comment_text : str) (existing_replies : list str)
    (replies : list reply) (st : unique_state) : unique_state :=
  match replies with
  | [] => st
  | reply :: rest =>
      let reply_text := strip (reply_text reply) in
      let st' :=
        if negb (is_empty reply_text)
           && negb (mem reply_text existing_replies)
           && (len reply_text >? 3)%Z
        then {| unique_comments :=
                  append_reply comment_text
                    (new_reply source reply reply_text) (unique_comments st);
                total_comments := total_comments st;
                total_replies := (total_replies st + 1)%Z |}
        else st in
      add_replies source comment_text existing_replies rest st'
  end.

(** The body of [for comment in video['comments']]. *)
Definition add_comment (source : str) (v : video) (comment : comment)
    (st : unique_state) : unique_state :=
  let comment_text := strip (comment_text comment) in
  if is_empty comment_text || (len comment_text <? 3)%Z then st
  else
    let st1 :=
      if negb (has_key comment_text (unique_comments st))
      then {| unique_comments :=
                add_entry comment_text
                  (new_entry source v comment comment_text)
                  (unique_comments st);
              total_comments := (total_comments st + 1)%Z;
              total_replies := total_replies st |}
      else st in
    let existing_replies :=
      match lookup comment_text (unique_comments st1) with
      | Some entry => map ur_text (uc_replies entry)
      | None => []
      end in
    add_replies source comment_text existing_replies
      (get_or (comment_replies comment) []) st1.

(** The body of [for video in videos_data]. *)
Definition add_video (v : video) (st : unique_state) : unique_state :=
  let source := get_or (video_source v) (py "unknown") in
  fold_left (fun st comment => add_comment source v comment st)
    (video_comments v) st.

Definition initial_unique_state : unique_state :=
  {| unique_comments := []; total_comments := 0; total_replies := 0 |}.

Definition get_unique_comments_unified (videos_data : list video)
  : list unique_comment * Z * Z :=
  let st := fold_left (fun st v => add_video v st) videos_data
              initial_unique_state in
  (map snd (unique_comments st), total_comments st, total_replies st).

(** *** fetch_all_comments_parallel *)

(** A call into a fetch service returns a value or raises; of an exception
    the code keeps [str(e)]. *)
Inductive outcome (A : Type) : Type :=
| Raised (message : str)
| Returned (a : A).
Arguments Raised {A} message.
Arguments Returned {A} a.

(** A discussion comment as [get_comments_parallel] returns it: the comment
    with the title of its post and the name of its forum. *)
Record reddit_comment : Type := {
  rc_comment : comment;
  rc_post_title : str;
  rc_subreddit : str
}.

(** The two fetch services: [search_and_get_comments query max_videos
    max_comments_per_video] and [get_comments_parallel query limit].  A
    future that times out counts as a call that raised. *)
Record services : Type := {
  search_and_get_comments : str -> Z -> Z -> outcome (list video);
  get_comments_parallel : str -> Z -> outcome (list reddit_comment)
}.

(** The dictionary a fetch returns when it succeeds. *)
Record source_result : Type := {
  sr_videos : list video;
  sr_total_comments : Z
}.

(** [sum(len(v['comments']) for v in videos)] *)
Definition sum_comments (videos : list video) : Z :=
  fold_right (fun v acc => (Z.of_nat (length (video_comments v)) + acc)%Z)
    0%Z videos.

(** [fetch_youtube()] in attempt [attempt]; an error dictionary is
    [Raised] with its message. *)
Definition fetch_youtube (svc : services) (query : str) (attempt : Z)
  : outcome source_result :=
  let video_count := (20 + (attempt - 1) * 10)%Z in
  let comments_per_video := (150 + (attempt - 1) * 30)%Z in
  match search_and_get_comments svc query video_count comments_per_video with
  | Raised e => Raised e
  | Returned [] => Raised (py "No YouTube videos found")
  | Returned videos_with_comments =>
      Returned {| sr_videos := videos_with_comments;
                  sr_total_comments := sum_comments videos_with_comments |}
  end.

Definition reddit_post (rc : reddit_comment) : video :=
  {| video_source := Some (py "reddit");
     video_title := None;
     post_title := Some (rc_post_title rc);
     post_subreddit := Some (rc_subreddit rc);
     video_comments := [rc_comment rc] |}.

(** [fetch_reddit()] in attempt [attempt]. *)
Definition fetch_reddit (svc : services) (query : str) (attempt : Z)
  : outcome source_result :=
  let reddit_limit := (3000 + (attempt - 1) * 1000)%Z in
  match get_comments_parallel svc query reddit_limit with
  | Raised e => Raised e
  | Returned reddit_comments =>
      Returned {| sr_videos := map reddit_post reddit_comments;
                  sr_total_comments := Z.of_nat (length reddit_comments) |}
  end.

(** The replies counted in one attempt:
    [len(comment.get('replies', []))] over the comments of the videos. *)
Definition count_replies (videos : list video) : Z :=
  fold_right
    (fun v acc =>
       fold_right
         (fun c acc' =>
            (Z.of_nat (length (get_or (comment_replies c) [])) + acc')%Z)
         acc (video_comments v))
    0%Z videos.

(** The locals of the retry loop.  [ls_errors] is [None] while the name
    [errors] is unbound, that is before the first pass.  [ls_passes] is not
    a variable of the source: it counts the passes through the loop body. *)
Record loop_state : Type := {
  ls_all_videos : list video;
  ls_total_comments : Z;
  ls_total_replies : Z;
  ls_attempt : Z;
  ls_sources_used : list str;
  ls_errors : option (list (str * str));
  ls_passes : nat
}.

Definition initial_loop_state : loop_state :=
  {| ls_all_videos := [];
     ls_total_comments := 0;
     ls_total_replies := 0;
     ls_attempt := 1;
     ls_sources_used := [];
     ls_errors := None;
     ls_passes := 0 |}.

Definition result_videos (r : outcome source_result) : list video :=
  match r with Returned sr => sr_videos sr | Raised _ => [] end.

Definition result_total (r : outcome source_result) : Z :=
  match r with Returned sr => sr_total_comments sr | Raised _ => 0%Z end.

Definition result_source (name : str) (r : outcome source_result) : list str :=
  match r with Returned _ => [name] | Raised _ => [] end.

Definition result_error (name : str) (r : outcome source_result)
  : list (str * str) :=
  match r with Returned _ => [] | Raised e => [(name, e)] end.

(** One pass through the loop body up to the test of the target: the state
    with the results of the attempt added, [attempt] unchanged. *)
Definition attempt_once (svc : services) (query : str) (st : loop_state)
  : loop_state :=
  let yt_result := fetch_youtube svc query (ls_attempt st) in
  let reddit_result := fetch_reddit svc query (ls_attempt st) in
  let attempt_videos := result_videos yt_result ++ result_videos reddit_result in
  let attempt_comments := (result_total yt_result + result_total reddit_result)%Z in
  let attempt_replies := count_replies attempt_videos in
  {| ls_all_videos := ls_all_videos st ++ attempt_videos;
     ls_total_comments := (ls_total_comments st + attempt_comments)%Z;
     ls_total_replies := (ls_total_replies st + attempt_replies)%Z;
     ls_attempt := ls_attempt st;
     ls_sources_used :=
       ls_sources_used st ++ result_source (py "youtube") yt_result
                          ++ result_source (py "reddit") reddit_result;
     ls_errors :=
       Some (result_error (py "youtube") yt_result
             ++ result_error (py "reddit") reddit_result);
     ls_passes := S (ls_passes st) |}.

Definition next_attempt (st : loop_state) : loop_state :=
  {| ls_all_videos := ls_all_videos st;
     ls_total_comments := ls_total_comments st;
     ls_total_replies := ls_total_replies st;
     ls_attempt := (ls_attempt st + 1)%Z;
     ls_sources_used := ls_sources_used st;
     ls_errors := ls_errors st;
     ls_passes := ls_passes st |}.

(** The loop [while total_comments + total_replies < min_total_comments
    and attempt <= max_retries].  [fuel] bounds the number of passes; the
    result is [None] when the fuel runs out before the loop exits. *)
Fixpoint retry_loop (svc : services) (query : str)
    (min_total_comments max_retries : Z) (fuel : nat) (st : loop_state)
  : option loop_state :=
  if ((ls_total_comments st + ls_total_replies st <? min_total_comments)%Z
      && (ls_attempt st <=? max_retries)%Z)
  then
    match fuel with
    | O => None
    | S fuel' =>
        let st' := attempt_once svc query st in
        let current_total := (ls_total_comments st' + ls_total_replies st')%Z in
        if (current_total >=? min_total_comments)%Z
        then Some st'
        else retry_loop svc query min_total_comments max_retries fuel'
               (next_attempt st')
    end
  else Some st.

(** The dictionary [fetch_all_comments_parallel] returns. *)
Record fetch_result : Type := {
  fr_videos : list video;
  fr_total_comments : Z;
  fr_total_replies : Z;
  fr_grand_total : Z;
  fr_sources : list str;
  fr_errors : list (str * str);
  fr_target_achieved : bool;
  fr_attempts_made : Z
}.

(** The final state of the loop, with the defaults of the configuration
    ([Config.TARGET_TOTAL_COMMENTS], [Config.MAX_RETRY_ATTEMPTS]) applied to
    absent arguments.  The loop makes at most [max_retries] passes, which
    is the fuel it is given. *)
Definition run_retry_loop (config_target config_retries : Z)
    (svc : services) (query : str)
    (min_total_comments max_retries : option Z) : option loop_state :=
  let min_total_comments := get_or min_total_comments config_target in
  let max_retries := get_or max_retries config_retries in
  retry_loop svc query min_total_comments max_retries
    (Z.to_nat max_retries) initial_loop_state.

(** [None] stands for an exception: when the loop body never ran, the
    name [errors] is unbound where the result is built. *)
Definition fetch_all_comments_parallel (config_target config_retries : Z)
    (svc : services) (query : str)
    (min_total_comments max_retries : option Z) : option fetch_result :=
  match run_retry_loop config_target config_retries svc query
          min_total_comments max_retries with
  | None => None
  | Some st =>
      match ls_errors st with
      | None => None
      | Some errors =>
          Some {| fr_videos := ls_all_videos st;
                  fr_total_comments := ls_total_comments st;
                  fr_total_replies := ls_total_replies st;
                  fr_grand_total := (ls_total_comments st + ls_total_replies st)%Z;
                  fr_sources := ls_sources_used st;
                  fr_errors := errors;
                  fr_target_achieved :=
                    (ls_total_comments st + ls_total_replies st
                     >=? get_or min_total_comments config_target)%Z;
                  fr_attempts_made := (ls_attempt st - 1)%Z |}
      end
  end.

(** The number of passes the loop body made in that call. *)
Definition passes_made (config_target config_retries : Z)
    (svc : services) (query : str)
    (min_total_comments max_retries : option Z) : option nat :=
  option_map ls_passes
    (run_retry_loop config_target config_retries svc query
       min_total_comments max_retries).

(** *** fetch_multiple_queries_aggregated *)

(** An entry of [query_results]. *)
Inductive query_report : Type :=
| QuerySuccess (query : str) (total_comments total_replies : Z)
    (unique_comments new_unique_comments : Z) (sources : list str)
    (attempts : Z)
| QueryFailed (query : str)
| QueryError (query : str).

(** The locals of the loop over the queries. *)
Record agg_state : Type := {
  all_unique_comments : unique_dict;
  all_videos_data : list video;
  total_processed_comments : Z;
  total_processed_replies : Z;
  successful_queries : Z;
  failed_queries : Z;
  query_results : list query_report
}.

Definition initial_agg_state : agg_state :=
  {| all_unique_comments := [];
     all_videos_data := [];
     total_processed_comments := 0;
     total_processed_replies := 0;
     successful_queries := 0;
     failed_queries := 0;
     query_results := [] |}.

(** The loop [for comment in query_unique]: the dictionary and
    [new_unique_count] after it. *)
Fixpoint merge_unique (query_unique : list unique_comment)
    (d : unique_dict) (new_unique_count : Z) : unique_dict * Z :=
  match query_unique with
  | [] => (d, new_unique_count)
  | comment :: rest =>
      let comment_text := strip (uc_text comment) in
      if negb (has_key comment_text d)
      then merge_unique rest (add_entry comment_text comment d)
             (new_unique_count + 1)%Z
      else merge_unique rest d new_unique_count
  end.

Definition with_failure (report : query_report) (st : agg_state) : agg_state :=
  {| all_unique_comments := all_unique_comments st;
     all_videos_data := all_videos_data st;
     total_processed_comments := total_processed_comments st;
     total_processed_replies := total_processed_replies st;
     successful_queries := successful_queries st;
     failed_queries := (failed_queries st + 1)%Z;
     query_results := query_results st ++ [report] |}.

(** The loop [for i, query in enumerate(queries, 1)] over the queries that
    remain; [query_count] is [len(queries)] of the whole list.  The loop
    stops at the [break] once the target is reached. *)
Fixpoint aggregate_queries (config_target config_retries : Z)
    (svc : services) (target_total_comments query_count : Z)
    (queries : list str) (st : agg_state) : agg_state :=
  match queries with
  | [] => st
  | query :: rest =>
      match fetch_all_comments_parallel config_target config_retries svc query
              (Some (Z.max 5000 (target_total_comments / query_count)))
              (Some 2%Z) with
      | None =>
          aggregate_queries config_target config_retries svc
            target_total_comments query_count rest
            (with_failure (QueryError query) st)
      | Some query_result =>
          match fr_videos query_result with
          | [] =>
              aggregate_queries config_target config_retries svc
                target_total_comments query_count rest
                (with_failure (QueryFailed query) st)
          | _ =>
              let '(query_unique, query_unique_count, _) :=
                get_unique_comments_unified (fr_videos query_result) in
              let '(merged, new_unique_count) :=
                merge_unique query_unique (all_unique_comments st) 0%Z in
              let st' :=
                {| all_unique_comments := merged;
                   all_videos_data :=
                     all_videos_data st ++ fr_videos query_result;
                   total_processed_comments :=
                     (total_processed_comments st
                      + fr_total_comments query_result)%Z;
                   total_processed_replies :=
                     (total_processed_replies st
                      + fr_total_replies query_result)%Z;
                   successful_queries := (successful_queries st + 1)%Z;
                   failed_queries := failed_queries st;
                   query_results :=
                     query_results st ++
                     [QuerySuccess query
                        (fr_total_comments query_result)
                        (fr_total_replies query_result)
                        query_unique_count new_unique_count
                        (fr_sources query_result)
                        (fr_attempts_made query_result)] |} in
              let current_unique_total := Z.of_nat (length merged) in
              if (current_unique_total >=? target_total_comments)%Z
              then st'
              else aggregate_queries config_target config_retries svc
                     target_total_comments query_count rest st'
          end
      end
  end.

(** The dictionary [fetch_multiple_queries_aggregated] returns. *)
Record aggregation : Type := {
  ag_videos : list video;
  ag_unique_comments : list unique_comment;
  ag_unique_count : Z;
  ag_total_processed_comments : Z;
  ag_total_processed_replies : Z;
  ag_grand_total : Z;
  ag_successful_queries : Z;
  ag_failed_queries : Z;
  ag_query_results : list query_report;
  ag_target_achieved : bool;
  ag_original_queries : list str
}.

Definition fetch_multiple_queries_aggregated (config_target config_retries : Z)
    (svc : services) (queries : list str)
    (target_total_comments : option Z) : aggregation :=
  let target_total_comments := get_or target_total_comments config_target in
  let st := aggregate_queries config_target config_retries svc
              target_total_comments (Z.of_nat (length queries)) queries
              initial_agg_state in
  let final_unique_comments := map snd (all_unique_comments st) in
  let final_unique_count := Z.of_nat (length final_unique_comments) in
  {| ag_videos := all_videos_data st;
     ag_unique_comments := final_unique_comments;
     ag_unique_count := final_unique_count;
     ag_total_processed_comments := total_processed_comments st;
     ag_total_processed_replies := total_processed_replies st;
     ag_grand_total :=
       (total_processed_comments st + total_processed_replies st)%Z;
     ag_successful_queries := successful_queries st;
     ag_failed_queries := failed_queries st;
     ag_query_results := query_results st;
     ag_target_achieved := (final_unique_count >=? target_total_comments)%Z;
     ag_original_queries := queries |}.

(** *** save_unified_data *)

(** What the call reads from its environment: the first eight characters
    of a fresh UUID and the clock, read once for [timestamp] and once for
    [processed_at]. *)
Record stamp : Type := {
  batch_id : str;
  timestamp : str;
  processed_at : str
}.

(** [v.get('source') == name] *)
Definition from_source (name : str) (v : video) : bool :=
  match video_source v with
  | Some s => str_eqb s name
  | None => false
  end.

(** [sum(...) / len(items) if items else 0] *)
Definition average (items : list video) : Database.value :=
  match items with
  | [] => Database.VInt 0
  | _ => Database.VRatio (sum_comments items) (Z.of_nat (length items))
  end.

Definition combined_data (st : stamp) (query : str) (videos_data : list video)
    (unique_comments : list unique_comment) (unique_count : Z)
    (total_replies total_comments : Z) (sources : list str)
  : Database.document :=
  let youtube_videos := filter (from_source (py "youtube")) videos_data in
  let reddit_posts := filter (from_source (py "reddit")) videos_data in
  [ (py "batch_id", Database.VStr (batch_id st));
    (py "query", Database.VStr query);
    (py "timestamp", Database.VStr (timestamp st));
    (py "sources", Database.VStrs sources);
    (py "total_youtube_videos", Database.VInt (Z.of_nat (length youtube_videos)));
    (py "total_reddit_posts", Database.VInt (Z.of_nat (length reddit_posts)));
    (py "total_comments", Database.VInt total_comments);
    (py "total_replies", Database.VInt total_replies);
    (py "grand_total", Database.VInt (total_comments + total_replies));
    (py "unique_comments", Database.VInt unique_count);
    (py "youtube_data", Database.VVideos youtube_videos);
    (py "reddit_data", Database.VVideos reddit_posts);
    (py "unique_comments_data", Database.VUnique unique_comments);
    (py "processing_info",
      Database.VDict
        [ (py "processed_at", Database.VStr (processed_at st));
          (py "duplicates_removed", Database.VInt (total_comments - unique_count));
          (py "youtube_comments", Database.VInt (sum_comments youtube_videos));
          (py "reddit_comments", Database.VInt (sum_comments reddit_posts));
          (py "comments_per_source_avg",
            Database.VDict
              [ (py "youtube", average youtube_videos);
                (py "reddit", average reddit_posts) ]) ]) ].

(** The first component of the result: [mongodb:<id>] or [files_only]. *)
Inductive saved_to : Type :=
| SavedMongodb (id : nat)
| FilesOnly.

(** The result pair and the collection after the call.  The two JSON files
    written as a backup do not enter the result. *)
Definition save_unified_data (srv : Database.server)
    (coll : list Database.document) (st : stamp) (query : str)
    (videos_data : list video) (unique_comments : list unique_comment)
    (unique_count total_replies total_comments : Z) (sources : list str)
  : saved_to * Database.document * list Database.document :=
  let data := combined_data st query videos_data unique_comments
                unique_count total_replies total_comments sources in
  match Database.save_search_result srv coll data with
  | (coll', Some id) => (SavedMongodb id, data, coll')
  | (coll', None) => (FilesOnly, data, coll')
  end.

End CommentFetcher.

(** ** services/reddit_service.py: fetching the comments *)
Module RedditComments.

Import RedditService CommentFetcher.

(** A reply as the Reddit client presents it.  [rr_body] is [None] for an
    object without the attribute [body]; [rr_author] is [str(reply.author)],
    [None] for an author that is false; [rr_created] is the ISO text of
    [created_utc]. *)
Record raw_reply : Type := {
  rr_body : option str;
  rr_author : option str;
  rr_score : Z;
  rr_created : str
}.

(** A comment of a post; [raw_replies] is [comment.replies.list()], empty
    also when the attribute is missing or false. *)
Record raw_comment : Type := {
  raw_body : option str;
  raw_author : option str;
  raw_score : Z;
  raw_created : str;
  raw_replies : list raw_reply
}.

(** A post found by the search; [sub_comments] is [post.comments.list()]
    after [replace_more], [None] when reading the comments raises. *)
Record submission : Type := {
  sub_title : str;
  sub_comments : option (list raw_comment)
}.

(** [body in ['[deleted]', '[removed]']] *)
Definition deleted (body : str) : bool :=
  str_eqb body (py "[deleted]") || str_eqb body (py "[removed]").

Definition reply_data (r : raw_reply) (body : str) : reply :=
  {| reply_author := get_or (rr_author r) (py "Anonymous");
     reply_text := body;
     reply_likes := Some (rr_score r);
     reply_published_at := rr_created r;
     reply_author_profile := Some [] |}.

(** The loop over the replies of a comment; [replies_so_far] is
    [comment_data['replies']]. *)
Fixpoint collect_replies (query_terms : list str) (replies : list raw_reply)
    (replies_so_far : list reply) : list reply :=
  match replies with
  | [] => replies_so_far
  | r :: rest =>
      if (5 <=? Z.of_nat (length replies_so_far))%Z then replies_so_far
      else
        match rr_body r with
        | None => collect_replies query_terms rest replies_so_far
        | Some body =>
            if deleted body
            then collect_replies query_terms rest replies_so_far
            else if filter_comment_relevance body query_terms
            then collect_replies query_terms rest
                   (replies_so_far ++ [reply_data r body])
            else collect_replies query_terms rest replies_so_far
        end
  end.

Definition comment_data (subreddit_name : str) (title : str)
    (query_terms : list str) (c : raw_comment) (body : str) : reddit_comment :=
  {| rc_comment :=
       {| comment_author := get_or (raw_author c) (py "Anonymous");
          comment_text := body;
          comment_likes := Some (raw_score c);
          comment_published_at := raw_created c;
          comment_author_profile := Some [];
          comment_replies :=
            Some (collect_replies query_terms (raw_replies c) []) |};
     rc_post_title := title;
     rc_subreddit := subreddit_name |}.

(** The loop over the comments of one post. *)
Fixpoint collect_comments (subreddit_name : str) (title : str)
    (query_terms : list str) (limit : Z) (comments : list raw_comment)
    (comments_data : list reddit_comment) : list reddit_comment :=
  match comments with
  | [] => comments_data
  | c :: rest =>
      if (limit <=? Z.of_nat (length comments_data))%Z then comments_data
      else
        match raw_body c with
        | None =>
            collect_comments subreddit_name title query_terms limit rest
              comments_data
        | Some body =>
            if deleted body
            then collect_comments subreddit_name title query_terms limit rest
                   comments_data
            else if negb (filter_comment_relevance body query_terms)
            then collect_comments subreddit_name title query_terms limit rest
                   comments_data
            else collect_comments subreddit_name title query_terms limit rest
                   (comments_data
                    ++ [comment_data subreddit_name title query_terms c body])
        end
  end.

(** The loop over the posts: a post whose comments cannot be read is passed
    over, and the loop is left once [limit] comments are collected. *)
Fixpoint collect_posts (subreddit_name : str) (query_terms : list str)
    (limit : Z) (posts : list submission)
    (comments_data : list reddit_comment) : list reddit_comment :=
  match posts with
  | [] => comments_data
  | post :: rest =>
      match sub_comments post with
      | None => collect_posts subreddit_name query_terms limit rest comments_data
      | Some comments =>
          let comments_data :=
            collect_comments subreddit_name (sub_title post) query_terms limit
              comments comments_data in
          if (limit <=? Z.of_nat (length comments_data))%Z then comments_data
          else collect_posts subreddit_name query_terms limit rest comments_data
      end
  end.

(** [get_comments_from_subreddit(subreddit_name, query, limit)].
    [search subreddit_name query n] is the list of posts that the search of
    the forum yields for at most [n] posts, [None] when the search or the
    iteration over its results raises; [max_reddit_comments] is
    [Config.MAX_REDDIT_COMMENTS]. *)
Definition get_comments_from_subreddit
    (search : str -> str -> Z -> option (list submission))
    (max_reddit_comments : Z)
    (subreddit_name : str) (query : str) (limit : option Z)
  : list reddit_comment :=
  let limit :=
    match limit with
    | None => (max_reddit_comments / 8)%Z
    | Some limit => limit
    end in
  match search subreddit_name query (Z.min (limit / 10) 50) with
  | None => []
  | Some search_results =>
      collect_posts subreddit_name (query_terms query) limit search_results []
  end.

(** [get_comments_parallel(query, total_limit)].  [completion] gives the
    order in which the futures complete; [max_workers] is
    [Config.MAX_WORKERS].  With no forum the division raises, with no
    worker the executor raises, and the handler returns the empty list. *)
Definition get_comments_parallel (probe : str -> bool)
    (search : str -> str -> Z -> option (list submission))
    (completion : list str -> list str)
    (max_reddit_comments max_workers : Z)
    (query : str) (total_limit : option Z) : list reddit_comment :=
  let total_limit :=
    match total_limit with
    | None => max_reddit_comments
    | Some total_limit => total_limit
    end in
  let subreddits := search_subreddits probe (Some query) 8 in
  if (Z.of_nat (length subreddits) =? 0)%Z then []
  else
    let comments_per_subreddit :=
      Z.max 100 (total_limit / Z.of_nat (length subreddits)) in
    if (Z.min (Z.of_nat (length subreddits)) max_workers <=? 0)%Z then []
    else
      flat_map
        (fun subreddit_name =>
           get_comments_from_subreddit search max_reddit_comments
             subreddit_name query (Some comments_per_subreddit))
        (completion subreddits).

End RedditComments.

(** ** routes/search_routes.py *)
Module SearchRoutes.

Import CommentFetcher.

(** The JSON body of the request. *)
Record request : Type := {
  req_query : option str;
  req_num_variations : option Z;
  req_target_comments : option Z
}.

(** What the handler runs against. *)
Record environment : Type := {
  env_config_target : Z;
  env_config_retries : Z;
  env_config_num_variations : Z;
  env_model : option AIService.generation;
  env_services : services;
  env_server : Database.server;
  env_collection : list Database.document;
  env_stamp : stamp
}.

(** The counts of the JSON body of a successful response. *)
Record search_body : Type := {
  body_query_variations_generated : Z;
  body_total_comments : Z;
  body_total_replies : Z;
  body_grand_total : Z;
  body_unique_comments : Z;
  body_saved_to : saved_to
}.

Inductive response : Type :=
| Failure (status : Z) (message : str)
| Success (body : search_body).

(** The response, the document handed to the database service (when the
    handler got that far) and the collection after the request. *)
Record search_outcome : Type := {
  so_response : response;
  so_combined_data : option Database.document;
  so_collection : list Database.document
}.

Definition stopped (env : environment) (status : Z) (message : str)
  : search_outcome :=
  {| so_response := Failure status message;
     so_combined_data := None;
     so_collection := env_collection env |}.

(** [POST /search] *)
Definition search (env : environment) (data : request) : search_outcome :=
  let original_query := strip (get_or (req_query data) []) in
  let '(is_valid, validation_message) := Helpers.validate_query original_query in
  if negb is_valid then stopped env 400 validation_message
  else
    let query_variations :=
      AIService.generate_query_variations (env_config_num_variations env)
        (env_model env) original_query
        (Some (get_or (req_num_variations data) 20%Z)) in
    match query_variations with
    | [] => stopped env 500 (py "Failed to generate query variations!")
    | _ =>
        let target_comments := get_or (req_target_comments data) 50000%Z in
        let aggregation_result :=
          fetch_multiple_queries_aggregated (env_config_target env)
            (env_config_retries env) (env_services env)
            query_variations (Some target_comments) in
        match ag_videos aggregation_result with
        | [] => stopped env 404 (py "No content found from any query variation!")
        | _ =>
            let total_comments := ag_total_processed_comments aggregation_result in
            let total_replies := ag_total_processed_replies aggregation_result in
            let grand_total := ag_grand_total aggregation_result in
            let unique_count := ag_unique_count aggregation_result in
            let unique_comments := ag_unique_comments aggregation_result in
            let '(save_result, combined, coll') :=
              save_unified_data (env_server env) (env_collection env)
                (env_stamp env) original_query
                (ag_videos aggregation_result)
                unique_comments unique_count total_replies grand_total
                [py "youtube"; py "reddit"] in
            {| so_response :=
                 Success
                   {| body_query_variations_generated :=
                        Z.of_nat (length query_variations);
                      body_total_comments := total_comments;
                      body_total_replies := total_replies;
                      body_grand_total := grand_total;
                      body_unique_comments := unique_count;
                      body_saved_to := save_result |};
               so_combined_data := Some combined;
               so_collection := coll' |}
        end
    end.

(** The JSON body of a request to [POST /search/simple]. *)
Record simple_request : Type := {
  sreq_query : option str;
  sreq_target_comments : option Z;
  sreq_max_retries : option Z
}.

(** The counts and flags of the JSON body of a successful answer. *)
Record simple_body : Type := {
  sbody_sources : list str;
  sbody_total_comments : Z;
  sbody_total_replies : Z;
  sbody_grand_total : Z;
  sbody_unique_comments : Z;
  sbody_saved_to : saved_to;
  sbody_target_achieved : bool;
  sbody_attempts_made : Z
}.

(** An answer with an error status and a fixed message, the answer 500 of
    the exception handler (its message holds the text of the exception), or
    a successful answer. *)
Inductive simple_response : Type :=
| SimpleFailure (status : Z) (message : str)
| SimpleCrashed
| SimpleSuccess (body : simple_body).

Record simple_outcome : Type := {
  sim_response : simple_response;
  sim_combined_data : option Database.document;
  sim_collection : list Database.document
}.

Definition simple_stopped (env : environment) (r : simple_response)
  : simple_outcome :=
  {| sim_response := r;
     sim_combined_data := None;
     sim_collection := env_collection env |}.

(** [POST /search/simple] *)
Definition simple_search (env : environment) (data : simple_request)
  : simple_outcome :=
  let query := strip (get_or (sreq_query data) []) in
  let '(is_valid, validation_message) := Helpers.validate_query query in
  if negb is_valid then simple_stopped env (SimpleFailure 400 validation_message)
  else
    match fetch_all_comments_parallel (env_config_target env)
            (env_config_retries env) (env_services env) query
            (Some (get_or (sreq_target_comments data) 10000%Z))
            (Some (get_or (sreq_max_retries data) 2%Z)) with
    | None => simple_stopped env SimpleCrashed
    | Some result =>
        match fr_videos result with
        | [] => simple_stopped env (SimpleFailure 404 (py "No content found!"))
        | _ =>
            let '(unique_comments, unique_count, total_replies) :=
              get_unique_comments_unified (fr_videos result) in
            let '(save_result, combined, coll') :=
              save_unified_data (env_server env) (env_collection env)
                (env_stamp env) query (fr_videos result)
                unique_comments unique_count total_replies
                (fr_total_comments result) (fr_sources result) in
            {| sim_response :=
                 SimpleSuccess
                   {| sbody_sources := fr_sources result;
                      sbody_total_comments := fr_total_comments result;
                      sbody_total_replies := fr_total_replies result;
                      sbody_grand_total := fr_grand_total result;
                      sbody_unique_comments := unique_count;
                      sbody_saved_to := save_result;
                      sbody_target_achieved := fr_target_achieved result;
                      sbody_attempts_made := fr_attempts_made result |};
               sim_combined_data := Some combined;
               sim_collection := coll' |}
        end
    end.

(** The JSON body of a request to [POST /search/suggestions]. *)
Record suggestions_request : Type := {
  sug_query : option str;
  sug_num_suggestions : option Z
}.

(** An answer 400 with its message, or the answer 200 with the query, the
    suggestions and their count. *)
Inductive suggestions_response : Type :=
| SuggestionsRefused (message : str)
| Suggestions (original_query : str) (suggestions : list str) (count : Z).

(** [POST /search/suggestions] *)
Definition get_search_suggestions (model : option AIService.generation)
    (data : suggestions_request) : suggestions_response :=
  let query := strip (get_or (sug_query data) []) in
  if is_empty query then SuggestionsRefused (py "Query is required")
  else
    let '(is_valid, validation_message) := Helpers.validate_query query in
    if negb is_valid then SuggestionsRefused validation_message
    else
      let suggestions :=
        AIService.suggest_related_queries model query
          (get_or (sug_num_suggestions data) 5%Z) in
      Suggestions query suggestions (Z.of_nat (length suggestions)).

(** The answer 404, or the answer 200 with the stored document. *)
Inductive status_response : Type :=
| StatusNotFound
| StatusCompleted (batch_id : str) (result : Database.document).

(** [GET /search/status/<batch_id>]: the attributes of the database service
    after the request and the answer. *)
Definition get_search_status (id_text : nat -> str) (find_raises : bool)
    (o : DatabaseService.opening) (h : DatabaseService.handles)
    (coll : list Database.document) (batch_id : str)
  : DatabaseService.handles * status_response :=
  match DatabaseService.get_search_result id_text find_raises o h coll
          batch_id with
  | (h', None) => (h', StatusNotFound)
  | (h', Some result) => (h', StatusCompleted batch_id result)
  end.

End SearchRoutes.

(** ** Sample values

    Concrete inputs on which the properties below are instantiated. *)
Module Samples.

Import Database CommentFetcher SearchRoutes.

(** A string of [n] letters a. *)
Definition letters (n : nat) : str := repeat "a"%char n.

(** The text of the exception that the driver raises for a document over
    the size limit, which is not part of these sources: pymongo's
    [DocumentTooLarge] reads [BSON document too large (n bytes) - the
    connected server supports BSON document sizes up to m bytes.], the two
    sizes written in digits. *)
Definition driver_size_message (doc_size max_size : str) : str :=
  py "BSON document too large (" ++ doc_size
  ++ py " bytes) - the connected server supports BSON document sizes up to "
  ++ max_size ++ py " bytes.".

(** A server that refuses any document with more than eight keys as the
    driver refuses a document over the size limit. *)
Definition driver_server : server :=
  {| connect := true;
     rejects := fun _ doc =>
       if (8 <? length doc)%nat
       then Some (driver_size_message (py "17825869") (py "16793598"))
       else None |}.

(** A server that refuses any document with more than eight keys, with a
    text that names [DocumentTooLarge], the word the handler looks for. *)
Definition small_server : server :=
  {| connect := true;
     rejects := fun _ doc =>
       if (8 <? length doc)%nat
       then Some (py "DocumentTooLarge: BSON document too large")
       else None |}.

(** A document of nine keys. *)
Definition big_document : document :=
  [ (py "batch_id", VStr (py "1a2b3c4d"));
    (py "query", VStr (py "cats"));
    (py "timestamp", VStr (py "2025-09-04T12:00:00"));
    (py "sources", VStrs [py "youtube"; py "reddit"]);
    (py "total_comments", VInt 7);
    (py "total_replies", VInt 2);
    (py "grand_total", VInt 9);
    (py "unique_comments", VInt 5);
    (py "youtube_data", VVideos []) ].

(** A probe that fails for the forum [news] only. *)
Definition all_but_news (name : str) : bool := negb (str_eqb name (py "news")).

(** A reply, a comment and a video with the given texts. *)
Definition sample_reply (author text : string) : reply :=
  {| reply_author := py author;
     reply_text := py text;
     reply_likes := Some 1%Z;
     reply_published_at := py "2025-09-04T12:05:00Z";
     reply_author_profile := None |}.

Definition sample_comment (author text : string) (replies : list reply)
  : comment :=
  {| comment_author := py author;
     comment_text := py text;
     comment_likes := Some 3%Z;
     comment_published_at := py "2025-09-04T12:00:00Z";
     comment_author_profile := None;
     comment_replies := Some replies |}.

Definition sample_video (cs : list comment) : video :=
  {| video_source := Some (py "youtube");
     video_title := Some (py "Cats");
     post_title := None;
     post_subreddit := None;
     video_comments := cs |}.

(** A video service that finds one video with one comment, and a discussion
    service that raises. *)
Definition one_comment_services : services :=
  {| search_and_get_comments := fun _ _ _ =>
       Returned
         [sample_video
            [sample_comment "ann" "Great video" []]];
     get_comments_parallel := fun _ _ => Raised (py "timed out") |}.

(** A video service that finds one video with one comment and one reply,
    and a discussion service that raises. *)
Definition sample_services : services :=
  {| search_and_get_comments := fun _ _ _ =>
       Returned
         [sample_video
            [sample_comment "ann" "Great video"
               [sample_reply "bob" "thanks!"]]];
     get_comments_parallel := fun _ _ => Raised (py "timed out") |}.

(** An environment without an AI model and without a database connection. *)
Definition sample_environment : environment :=
  {| env_config_target := 50000;
     env_config_retries := 3;
     env_config_num_variations := 20;
     env_model := None;
     env_services := sample_services;
     env_server := {| connect := false; rejects := fun _ _ => None |};
     env_collection := [];
     env_stamp := {| batch_id := py "1a2b3c4d";
                     timestamp := py "2025-09-04T12:00:00";
                     processed_at := py "2025-09-04T12:00:01" |} |}.

(** A request for [cats] with the default numbers. *)
Definition sample_request : request :=
  {| req_query := Some (py "cats");
     req_num_variations := None;
     req_target_comments := None |}.

(** The document built for the sample request. *)
Definition sample_document : document :=
  match so_combined_data (search sample_environment sample_request) with
  | Some doc => doc
  | None => []
  end.

(** A function that raises a caught exception twice and then returns 7. *)
Definition third_time_lucky (i : nat) : Helpers.call_outcome value str :=
  if (i <? 2)%nat then Helpers.CallRaises (py "timed out")
  else Helpers.CallReturns (VInt 7).

(** A function that returns [None] when it is called. *)
Definition returns_none (i : nat) : Helpers.call_outcome value str :=
  Helpers.CallReturns VNone.

(** A comment of a post with the given body and replies, and a reply. *)
Definition sample_raw_reply (body : string) : RedditComments.raw_reply :=
  {| RedditComments.rr_body := Some (py body);
     RedditComments.rr_author := None;
     RedditComments.rr_score := 1;
     RedditComments.rr_created := py "2025-09-04T12:05:00" |}.

Definition sample_raw_comment (body : string)
    (replies : list RedditComments.raw_reply) : RedditComments.raw_comment :=
  {| RedditComments.raw_body := Some (py body);
     RedditComments.raw_author := Some (py "ann");
     RedditComments.raw_score := 3;
     RedditComments.raw_created := py "2025-09-04T12:00:00";
     RedditComments.raw_replies := replies |}.

(** A search that finds the same two posts in every forum: one whose
    comments cannot be read, and one with three comments. *)
Definition sample_search (subreddit_name query : str) (n : Z)
  : option (list RedditComments.submission) :=
  Some
    [ {| RedditComments.sub_title := py "Broken";
         RedditComments.sub_comments := None |};
      {| RedditComments.sub_title := py "Cats";
         RedditComments.sub_comments :=
           Some [ sample_raw_comment "I love cats"
                    [sample_raw_reply "cats are great";
                     sample_raw_reply "[deleted]"];
                  sample_raw_comment "dogs only" [];
                  sample_raw_comment "Cats rule" [] ] |} ].

(** The sample environment with a connection to the small server. *)
Definition stored_environment : environment :=
  {| env_config_target := env_config_target sample_environment;
     env_config_retries := env_config_retries sample_environment;
     env_config_num_variations := env_config_num_variations sample_environment;
     env_model := env_model sample_environment;
     env_services := env_services sample_environment;
     env_server := small_server;
     env_collection := env_collection sample_environment;
     env_stamp := env_stamp sample_environment |}.

(** A simple search for [cats] with a target of one comment. *)
Definition sample_simple_request : simple_request :=
  {| sreq_query := Some (py "cats");
     sreq_target_comments := Some 1%Z;
     sreq_max_retries := None |}.

(** The counts that the simple search answers in the stored environment. *)
Definition sample_simple_body : simple_body :=
  {| sbody_sources := [py "youtube"];
     sbody_total_comments := 1;
     sbody_total_replies := 1;
     sbody_grand_total := 2;
     sbody_unique_comments := 1;
     sbody_saved_to := SavedMongodb 0;
     sbody_target_achieved := true;
     sbody_attempts_made := 0 |}.

(** A server that selects the documents whose batch identifier is a string
    of the list. *)
Definition selected_by_text (ids : list value) (doc : document) : bool :=
  existsb
    (fun id =>
       match id, get (py "batch_id") doc with
       | VStr a, VStr b => str_eqb a b
       | _, _ => false
       end) ids.

End Samples.

(** ** Notions used in the statements

    Predicates, invariants and abbreviations of sub-expressions of the code
    in which the properties below are stated. *)
Module Notions.

Import FileUtils AIService Database RedditService CommentFetcher SearchRoutes.
Import Samples.

(** The five characters the validation refuses. *)
Definition refused : list ascii :=
  ["<"; ">"; "034"; "'"; "&"]%char.

(** The set of [rstrip('_')]. *)
Definition is_us (c : ascii) : bool := (c =? "_")%char.

(** [sanitized.replace('__', '_')] *)
Definition squeeze (s : str) : str := replace (py "__") (py "_") s.

(** ['__' in sanitized] *)
Definition has_uu (s : str) : bool := contains (py "__") s.

(** [filename.strip().replace(' ', '_')] maps over the characters. *)
Definition space_to_us (c : ascii) : ascii :=
  if (" " =? c)%char then "_"%char else c.

(** The string before the truncation. *)
Definition collapsed (x : str) : str :=
  let kept := filter keep_char (replace (py " ") (py "_") (strip x)) in
  collapse_loop (length kept) kept.

(** The cut to the maximal length. *)
Definition truncate (max_length : Z) (s : str) : str :=
  if (len s >? max_length)%Z then slice_to max_length s else s.

(** The fallback for an empty name. *)
Definition or_file (s : str) : str :=
  if is_empty s then py "file" else s.

(** From the truncation on. *)
Definition finish (max_length : Z) (s : str) : str :=
  lower (or_file (rstrip_by is_us (truncate max_length s))).

(** A character of the class [a-z0-9_-]. *)
Definition plain (c : ascii) : bool :=
  between 97 122 (ord c) || between 48 57 (ord c)
  || (c =? "_")%char || (c =? "-")%char.

(** What a returned name satisfies. *)
Record clean (max_length : Z) (s : str) : Prop := {
  clean_nonempty : s <> [];
  clean_chars : Forall (fun c => keep_char c = true /\ lower_char c = c) s;
  clean_no_uu : has_uu s = false;
  clean_end : rstrip_by is_us s = s;
  clean_len : (len s <= max_length)%Z
}.

(** The variations parsed from the text of a reply. *)
Definition parsed (response_text : str) : list str :=
  parse_lines (split_on "010" (strip response_text)).

(** The test of the handler, whether [DocumentTooLarge] occurs in
    [str(e)]: whether the text of the exception holds the name of the
    driver's exception class.  It says nothing about the size of the
    document. *)
Definition names_too_large (message : str) : bool :=
  contains (py "DocumentTooLarge") message.

(** The four names of the candidate list beyond the sixteen general ones. *)
Definition further_names : list str :=
  map py ["personalfinance"; "investing"; "explainlikeimfive"; "askscience"]%string.

(** The number of replies stored in a dictionary. *)
Definition sum_replies (d : unique_dict) : nat :=
  fold_right (fun ke acc => (length (uc_replies (snd ke)) + acc)%nat) 0%nat d.

(** What holds of every binding: the key is the stored text, of at least 3
    characters, and every stored reply has more than 3 characters. *)
Definition entry_ok (ke : str * unique_comment) : Prop :=
  uc_text (snd ke) = fst ke
  /\ (3 <= len (fst ke))%Z
  /\ Forall (fun r => (3 < len (ur_text r))%Z) (uc_replies (snd ke)).

(** The invariant of the loops of [get_unique_comments_unified]. *)
Record inv (st : unique_state) : Prop := {
  inv_keys : NoDup (map fst (unique_comments st));
  inv_entries : Forall entry_ok (unique_comments st);
  inv_comments : total_comments st = Z.of_nat (length (unique_comments st));
  inv_replies : total_replies st = Z.of_nat (sum_replies (unique_comments st))
}.

(** The state in which [get_unique_comments_unified] leaves its loops. *)
Definition final_state (videos_data : list video) : unique_state :=
  fold_left (fun st v => add_video v st) videos_data initial_unique_state.

(** The number of replies stored in a list of unique comments. *)
Definition count_stored_replies (unique : list unique_comment) : nat :=
  fold_right (fun e acc => (length (uc_replies e) + acc)%nat) 0%nat unique.

(** The unique comments of a run. *)
Definition unique_of (videos_data : list video) : list unique_comment :=
  fst (fst (get_unique_comments_unified videos_data)).

(** The result of a run on one video with the given comments. *)
Definition run_on (cs : list comment) : list unique_comment * Z * Z :=
  get_unique_comments_unified [sample_video cs].

(** [total_comments + total_replies] *)
Definition collected (st : loop_state) : Z :=
  (ls_total_comments st + ls_total_replies st)%Z.

(** What holds each time the loop test is reached: the target is not met,
    [attempt] is one more than the number of passes made, and the result
    dictionary [errors] is bound once a pass was made. *)
Record at_head (target retries : Z) (st : loop_state) : Prop := {
  head_short : (collected st < target)%Z;
  head_attempt : ls_attempt st = (1 + Z.of_nat (ls_passes st))%Z;
  head_bound : (ls_attempt st <= retries + 1)%Z;
  head_errors : (0 < ls_passes st)%nat -> ls_errors st <> None
}.

(** How the loop is left: by the [break], with [attempt] not incremented
    after the last pass, or by its test, all attempts used. *)
Definition at_exit (target retries : Z) (st : loop_state) : Prop :=
  ls_errors st <> None
  /\ (((target <= collected st)%Z
       /\ ls_attempt st = Z.of_nat (ls_passes st)
       /\ (1 <= ls_attempt st <= retries)%Z)
      \/ ((collected st < target)%Z
          /\ ls_attempt st = (retries + 1)%Z
          /\ Z.of_nat (ls_passes st) = retries)).

(** The query variations and the aggregation of a request that passed the
    validation. *)
Definition search_variations (env : environment) (data : request) : list str :=
  AIService.generate_query_variations (env_config_num_variations env)
    (env_model env) (strip (get_or (req_query data) []))
    (Some (get_or (req_num_variations data) 20%Z)).

Definition search_aggregation (env : environment) (data : request)
  : aggregation :=
  fetch_multiple_queries_aggregated (env_config_target env)
    (env_config_retries env) (env_services env)
    (search_variations env data)
    (Some (get_or (req_target_comments data) 50000%Z)).

(** The chunks in terms of [firstn] and [skipn]. *)
Definition pieces (A : Type) (k : nat) (l : list A) (m : nat) : list (list A) :=
  map (fun i => firstn k (skipn (i * k) l)) (seq 0 m).

(** The number of chunks for [n] elements in chunks of [k]. *)
Definition chunk_count (n k : nat) : nat :=
  match n with
  | O => O
  | S n' => S (n' / k)
  end.

(** A word as [str.split()] gives it: not empty and free of whitespace. *)
Definition is_word (w : str) : Prop :=
  w <> [] /\ forallb (fun c => negb (isspace c)) w = true.

(** The three characters the code of [sanitize_for_api] escapes or that the
    escape brings in: double quote, single quote, backslash. *)
Definition quote_or_backslash (c : ascii) : bool :=
  (c =? "034")%char || (c =? "'")%char || (c =? "092")%char.

(** The value of [key] in the last dictionary of [dicts] that holds it;
    arguments that are not dictionaries are passed over. *)
Fixpoint latest (V : Type) (key : str) (dicts : list (option (Helpers.pydict V)))
  : option V :=
  match dicts with
  | [] => None
  | d :: rest =>
      match latest key rest with
      | Some v => Some v
      | None =>
          match d with
          | Some d => Helpers.dict_get key d
          | None => None
          end
      end
  end.

(** A dictionary argument holds each key once. *)
Definition keys_once (V : Type) (d : option (Helpers.pydict V)) : Prop :=
  match d with
  | Some d => NoDup (map fst d)
  | None => True
  end.

(** The calls numbered below [i] raise an exception that the wrapper
    catches. *)
Definition fails_before (A E : Type) (func : nat -> Helpers.call_outcome A E)
    (i : nat) : Prop :=
  forall j, (j < i)%nat -> exists e, func j = Helpers.CallRaises e.

(** The comments of the content items in the order in which
    [get_unique_comments_unified] walks them, each with its item. *)
Definition items_of (videos_data : list video) : list (video * comment) :=
  flat_map (fun v => map (fun c => (v, c)) (video_comments v)) videos_data.

(** The source tag of an item. *)
Definition source_of (v : video) : str := get_or (video_source v) (py "unknown").

(** An entry without its replies. *)
Definition base (e : unique_comment) : unique_comment :=
  {| uc_author := uc_author e;
     uc_text := uc_text e;
     uc_likes := uc_likes e;
     uc_published_at := uc_published_at e;
     uc_author_profile := uc_author_profile e;
     uc_source := uc_source e;
     uc_video_title := uc_video_title e;
     uc_subreddit := uc_subreddit e;
     uc_replies := [] |}.

(** A comment text that is kept: at least 3 characters once trimmed. *)
Definition kept_text (comment_text : str) : bool :=
  negb (is_empty comment_text || (len comment_text <? 3)%Z).

(** The first occurrences: walking the comments in order, the entry made
    from each comment whose trimmed text is kept and was not seen before. *)
Fixpoint first_entries (seen : list str) (items : list (video * comment))
  : list unique_comment :=
  match items with
  | [] => []
  | (v, c) :: rest =>
      let comment_text := strip (comment_text c) in
      if kept_text comment_text && negb (mem comment_text seen)
      then new_entry (source_of v) v c comment_text
             :: first_entries (seen ++ [comment_text]) rest
      else first_entries seen rest
  end.

(** A reply that can be stored: more than 3 characters once trimmed. *)
Definition kept_reply (r : reply) : bool :=
  negb (is_empty (strip (reply_text r))) && (len (strip (reply_text r)) >? 3)%Z.

(** A comment adds nothing to a state: its trimmed text is not kept, or it
    has an entry that already holds the text of each of its replies that
    can be stored. *)
Definition absorbed (c : comment) (st : unique_state) : Prop :=
  kept_text (strip (comment_text c)) = true ->
  exists e,
    lookup (strip (comment_text c)) (unique_comments st) = Some e
    /\ forall r, In r (get_or (comment_replies c) []) -> kept_reply r = true ->
                 In (strip (reply_text r)) (map ur_text (uc_replies e)).

(** The number of comments of the content items. *)
Definition count_comments (videos_data : list video) : nat :=
  length (items_of videos_data).

(** The body of the two loops for one comment of one item. *)
Definition step (st : unique_state) (x : video * comment) : unique_state :=
  add_comment (source_of (fst x)) (fst x) (snd x) st.

(** The keys of a dictionary, its entries without their replies, and the
    reply texts of an entry. *)
Definition keys (d : unique_dict) : list str := map fst d.

Definition bases (d : unique_dict) : list unique_comment :=
  map (fun ke => base (snd ke)) d.

Definition texts (e : unique_comment) : list str := map ur_text (uc_replies e).

(** Every binding of the first state is still there in the second, with at
    least the same reply texts. *)
Definition grows (st st' : unique_state) : Prop :=
  forall k e,
    lookup k (unique_comments st) = Some e ->
    exists e', lookup k (unique_comments st') = Some e'
               /\ incl (texts e) (texts e').

(** The replies of the comments of the content items, counted. *)
Definition count_item_replies (items : list (video * comment)) : Z :=
  fold_right
    (fun x acc => (Z.of_nat (length (get_or (comment_replies (snd x)) [])) + acc)%Z)
    0%Z items.

(** The totals of a loop state count the comments and the replies of its
    videos, and [attempt] is at least 1. *)
Record counted (st : loop_state) : Prop := {
  counted_comments : ls_total_comments st = sum_comments (ls_all_videos st);
  counted_replies : ls_total_replies st = count_replies (ls_all_videos st);
  counted_sources :
    Forall (fun s => s = py "youtube" \/ s = py "reddit") (ls_sources_used st);
  counted_attempt : (1 <= ls_attempt st)%Z
}.

(** What the loop over the queries keeps: the keys of the global dictionary
    are distinct and are the texts of its entries, there are no more entries
    than processed comments, the processed totals count the comments and
    the replies of the collected items, and every query processed so far
    has one report. *)
Record agg_ok (st : agg_state) : Prop := {
  ok_keys : NoDup (keys (all_unique_comments st));
  ok_texts : Forall (fun ke => fst ke = uc_text (snd ke)) (all_unique_comments st);
  ok_unique :
    (Z.of_nat (length (all_unique_comments st)) <= total_processed_comments st)%Z;
  ok_comments : total_processed_comments st = sum_comments (all_videos_data st);
  ok_replies : total_processed_replies st = count_replies (all_videos_data st);
  ok_results :
    Z.of_nat (length (query_results st))
    = (successful_queries st + failed_queries st)%Z;
  ok_successful : (0 <= successful_queries st)%Z;
  ok_failed : (0 <= failed_queries st)%Z
}.

(** The target and the retries a simple search asks for. *)
Definition simple_target (data : simple_request) : Z :=
  get_or (sreq_target_comments data) 10000%Z.

Definition simple_retries (data : simple_request) : Z :=
  get_or (sreq_max_retries data) 2%Z.

(** The keys that the metadata-only document carries over. *)
Definition summary_keys : list str :=
  map py ["batch_id"; "query"; "timestamp"; "total_comments";
          "unique_comments"]%string.

(** Two documents agree on the carried-over keys. *)
Definition same_summary (a b : document) : Prop :=
  Forall (fun key => get key b = get key a) summary_keys.

(** No document of the collection has the batch identifier. *)
Definition unused (batch_id : str) (coll : list document) : Prop :=
  Forall (fun doc => DatabaseService.has_batch_id batch_id doc = false) coll.

(** Identifiers rendered as a string of that many letters. *)
Definition id_letters (id : nat) : str := letters id.

(** A text that the fetch keeps: not a deletion marker, and relevant to the
    terms. *)
Definition accepted (terms : list str) (text : str) : Prop :=
  RedditComments.deleted text = false
  /\ filter_comment_relevance text terms = true.

(** The body of a comment or reply that is kept. *)
Definition kept_body (terms : list str) (body : option str) : option str :=
  match body with
  | None => None
  | Some b =>
      if negb (RedditComments.deleted b) && filter_comment_relevance b terms
      then Some b else None
  end.

(** The replies of a comment that are kept, in order. *)
Definition relevant_replies (terms : list str)
    (replies : list RedditComments.raw_reply) : list reply :=
  flat_map
    (fun r =>
       match kept_body terms (RedditComments.rr_body r) with
       | Some b => [RedditComments.reply_data r b]
       | None => []
       end) replies.

(** The comments of one post that are kept, in order. *)
Definition relevant_in_post (name title : str) (terms : list str)
    (comments : list RedditComments.raw_comment) : list reddit_comment :=
  flat_map
    (fun c =>
       match kept_body terms (RedditComments.raw_body c) with
       | Some b => [RedditComments.comment_data name title terms c b]
       | None => []
       end) comments.

(** The comments that are kept of all posts whose comments can be read. *)
Definition relevant_comments (name : str) (terms : list str)
    (posts : list RedditComments.submission) : list reddit_comment :=
  flat_map
    (fun post =>
       match RedditComments.sub_comments post with
       | None => []
       | Some comments =>
           relevant_in_post name (RedditComments.sub_title post) terms comments
       end) posts.

(** The limit in force in [get_comments_from_subreddit]. *)
Definition limit_in_force (max_reddit_comments : Z) (limit : option Z) : Z :=
  get_or limit (max_reddit_comments / 8)%Z.

(** The replies of a fetched comment. *)
Definition replies_of (rc : reddit_comment) : list reply :=
  get_or (comment_replies (rc_comment rc)) [].

(** The fetch services with the discussion service of the embedding. *)
Definition with_reddit_service (svc : services) (probe : str -> bool)
    (search : str -> str -> Z -> option (list RedditComments.submission))
    (completion : list str -> list str) (max_reddit_comments max_workers : Z)
  : services :=
  {| search_and_get_comments := search_and_get_comments svc;
     get_comments_parallel := fun query limit =>
       Returned
         (RedditComments.get_comments_parallel probe search completion
            max_reddit_comments max_workers query (Some limit)) |}.

(** The characters of a query that the file-name functions keep, blanks
    turned into underscores. *)
Definition kept_chars (query : str) : str :=
  filter keep_char (replace (py " ") (py "_") query).

End Notions.

(** * Properties *)

(** ** Facts about the string operations *)
Module PyStrFacts.

(** Properties of the character tables are checked on all 256 characters. *)
Ltac all_chars c :=
  destruct c as [[] [] [] [] [] [] [] []]; vm_compute; try reflexivity;
  try discriminate; auto.

Section Strip.

Variable p : ascii -> bool.

Lemma forallb_lstrip_by (s : str) :
  forallb p (lstrip_by p s) = forallb p s.
Proof.
  induction s as [|c t IH]; simpl; [reflexivity|].
  destruct (p c) eqn:E; simpl; [assumption|].
  rewrite E. reflexivity.
Qed.

Lemma rstrip_by_forallb (s : str) :
  is_empty (rstrip_by p s) = forallb p s.
Proof.
  induction s as [|c t IH]; simpl; [reflexivity|].
  destruct (rstrip_by p t) eqn:E; simpl in *.
  - rewrite <- IH. destruct (p c); reflexivity.
  - rewrite <- IH. symmetry. apply andb_false_r.
Qed.

Lemma lstrip_by_id (s : str) :
  forallb (fun c => negb (p c)) s = true -> lstrip_by p s = s.
Proof.
  destruct s as [|c t]; simpl; [reflexivity|].
  destruct (p c); simpl; [discriminate|reflexivity].
Qed.

Lemma rstrip_by_id (s : str) :
  forallb (fun c => negb (p c)) s = true -> rstrip_by p s = s.
Proof.
  induction s as [|c t IH]; simpl; [reflexivity|].
  intros H. apply andb_true_iff in H. destruct H as [Hc Ht].
  rewrite (IH Ht). destruct t; [|reflexivity].
  destruct (p c); [discriminate|reflexivity].
Qed.

Lemma rstrip_by_idem (s : str) :
  rstrip_by p (rstrip_by p s) = rstrip_by p s.
Proof.
  induction s as [|c t IH]; simpl; [reflexivity|].
  destruct (rstrip_by p t) as [|d u] eqn:E.
  - destruct (p c) eqn:Ec; simpl; [reflexivity|]. rewrite Ec. reflexivity.
  - change (rstrip_by p (c :: d :: u)) with
      (match rstrip_by p (d :: u) with
       | [] => if p c then [] else [c]
       | t' => c :: t'
       end).
    rewrite IH. reflexivity.
Qed.

Lemma rstrip_by_snoc (s : str) (c : ascii) :
  p c = true -> rstrip_by p (s ++ [c]) = rstrip_by p s.
Proof.
  intros Hc. induction s as [|d t IH]; simpl.
  - rewrite Hc. reflexivity.
  - rewrite IH. reflexivity.
Qed.

Lemma rstrip_by_length (s : str) :
  (length (rstrip_by p s) <= length s)%nat.
Proof.
  induction s as [|c t IH]; simpl; [lia|].
  destruct (rstrip_by p t); simpl in *; [destruct (p c); simpl; lia | lia].
Qed.

(** A string that [rstrip] leaves alone does not end with a stripped
    character. *)
Lemma rstrip_by_fixed_end (s t : str) (c : ascii) :
  rstrip_by p s = s -> p c = true -> s <> t ++ [c].
Proof.
  intros Hfix Hc ->. rewrite rstrip_by_snoc in Hfix by assumption.
  pose proof (rstrip_by_length t) as Hl. rewrite Hfix in Hl.
  rewrite length_app in Hl. simpl in Hl. lia.
Qed.

Variable P : ascii -> Prop.

Lemma Forall_lstrip_by (s : str) : Forall P s -> Forall P (lstrip_by p s).
Proof.
  induction 1 as [|c t Hc Ht IH]; simpl; [constructor|].
  destruct (p c); [assumption | constructor; assumption].
Qed.

Lemma Forall_rstrip_by (s : str) : Forall P s -> Forall P (rstrip_by p s).
Proof.
  induction 1 as [|c t Hc Ht IH]; simpl; [constructor|].
  destruct (rstrip_by p t).
  - destruct (p c); constructor; auto.
  - constructor; assumption.
Qed.

End Strip.

Lemma strip_blank (s : str) : is_empty (strip s) = forallb isspace s.
Proof.
  unfold strip. rewrite rstrip_by_forallb. apply forallb_lstrip_by.
Qed.

Lemma Forall_strip (P : ascii -> Prop) (s : str) :
  Forall P s -> Forall P (strip s).
Proof. intros H. apply Forall_rstrip_by, Forall_lstrip_by, H. Qed.

Lemma strip_id (s : str) :
  forallb (fun c => negb (isspace c)) s = true -> strip s = s.
Proof.
  intros H. unfold strip. rewrite lstrip_by_id by assumption.
  apply rstrip_by_id, H.
Qed.

(** *** Slices and filters *)

Lemma Forall_firstn (A : Type) (P : A -> Prop) (n : nat) (l : list A) :
  Forall P l -> Forall P (firstn n l).
Proof.
  intros H. revert n. induction H as [|a l Ha Hl IH]; intros [|n]; simpl;
    constructor; auto.
Qed.

Lemma Forall_filter (A : Type) (P : A -> Prop) (f : A -> bool) (l : list A) :
  Forall P l -> Forall P (filter f l).
Proof.
  induction 1 as [|a l Ha Hl IH]; simpl; [constructor|].
  destruct (f a); [constructor|]; assumption.
Qed.

Lemma Forall_filter_true (A : Type) (f : A -> bool) (l : list A) :
  Forall (fun a => f a = true) (filter f l).
Proof.
  induction l as [|a l IH]; simpl; [constructor|].
  destruct (f a) eqn:E; [constructor|]; assumption.
Qed.

Lemma In_firstn (A : Type) (n : nat) (l : list A) (a : A) :
  In a (firstn n l) -> In a l.
Proof.
  revert n. induction l as [|b l IH]; intros [|n]; simpl; try tauto.
  intros [H|H]; [left; exact H | right; exact (IH n H)].
Qed.

Lemma slice_to_firstn (A : Type) (n : Z) (l : list A) :
  (0 <= n)%Z -> slice_to n l = firstn (Z.to_nat n) l.
Proof.
  intros H. unfold slice_to. apply Z.leb_le in H. rewrite H. reflexivity.
Qed.

Lemma slice_to_length (A : Type) (n : Z) (l : list A) :
  (0 <= n)%Z -> (Z.of_nat (length (slice_to n l)) <= n)%Z.
Proof.
  intros H. rewrite slice_to_firstn by assumption.
  pose proof (firstn_le_length (Z.to_nat n) l). lia.
Qed.

Lemma slice_to_nonempty (A : Type) (n : Z) (l : list A) :
  (1 <= n)%Z -> l <> [] -> slice_to n l <> [].
Proof.
  intros H Hl. rewrite slice_to_firstn by lia.
  destruct l as [|a l]; [contradiction Hl; reflexivity|].
  destruct (Z.to_nat n) eqn:E; [lia | discriminate].
Qed.

Lemma In_slice_to (A : Type) (n : Z) (l : list A) (a : A) :
  In a (slice_to n l) -> In a l.
Proof.
  unfold slice_to. destruct (0 <=? n)%Z; apply In_firstn.
Qed.

Lemma Forall_slice_to (A : Type) (P : A -> Prop) (n : Z) (l : list A) :
  Forall P l -> Forall P (slice_to n l).
Proof.
  intros H. unfold slice_to. destruct (0 <=? n)%Z; apply Forall_firstn, H.
Qed.

Lemma str_eqb_eq (a b : str) : str_eqb a b = true <-> a = b.
Proof.
  unfold str_eqb. destruct (str_eq_dec a b); split; congruence.
Qed.

End PyStrFacts.

Import PyStrFacts.

(** ** validate_query *)
Module ValidateQuery.

Import Samples Notions.
Import Helpers.

Lemma invalid_char_refused (c : ascii) :
  invalid_char c = true <-> In c refused.
Proof.
  unfold invalid_char, refused. simpl.
  rewrite !orb_true_iff, !Ascii.eqb_eq. intuition congruence.
Qed.

Lemma existsb_invalid (s : str) :
  existsb invalid_char s = true <-> exists c, In c s /\ In c refused.
Proof.
  rewrite existsb_exists. split; intros [c [H1 H2]]; exists c;
    (split; [assumption | apply invalid_char_refused; assumption]).
Qed.

(** C6. [validate_query] answers, in this order: a blank query (empty or
    whitespace only) is refused as empty; a query whose trimmed length is
    below 2 is refused as too short; one whose trimmed length exceeds 500
    is refused as too long; one whose trimmed text holds one of the
    characters [<], [>], double quote, single quote, [&] is refused for
    invalid characters; every other query is valid.  A query of 500
    characters is valid, one of 501 is not. *)
Theorem validate_query_cases (query : str) :
  (forallb isspace query = true ->
     validate_query query = (false, py "Query cannot be empty"))
  /\ (forallb isspace query = false -> (len (strip query) < 2)%Z ->
     validate_query query = (false, py "Query must be at least 2 characters long"))
  /\ ((len (strip query) > 500)%Z ->
     validate_query query = (false, py "Query must be less than 500 characters"))
  /\ ((2 <= len (strip query) <= 500)%Z ->
      (exists c, In c (strip query) /\ In c refused) ->
     validate_query query = (false, py "Query contains invalid characters"))
  /\ ((2 <= len (strip query) <= 500)%Z ->
      (forall c, In c (strip query) -> ~ In c refused) ->
     validate_query query = (true, py "Query is valid"))
  /\ validate_query (letters 500) = (true, py "Query is valid")
  /\ validate_query (letters 501)
     = (false, py "Query must be less than 500 characters").
Proof.
  assert (Hblank : is_empty query || is_empty (strip query)
                   = forallb isspace query).
  { rewrite strip_blank. destruct query; reflexivity. }
  assert (Hne : (2 <= len (strip query))%Z -> forallb isspace query = false).
  { intros H. rewrite <- strip_blank.
    destruct (strip query); [unfold len in H; simpl in H; lia | reflexivity]. }
  unfold validate_query. rewrite Hblank.
  split; [|split; [|split; [|split; [|split; [|split]]]]].
  - intros ->. reflexivity.
  - intros -> Hlt. apply Z.ltb_lt in Hlt. rewrite Hlt. reflexivity.
  - intros Hgt. rewrite Hne by lia.
    destruct (len (strip query) <? 2)%Z eqn:E1; [apply Z.ltb_lt in E1; lia|].
    destruct (len (strip query) >? 500)%Z eqn:E2; [reflexivity|].
    rewrite Z.gtb_ltb in E2. apply Z.ltb_ge in E2. lia.
  - intros Hlen Hex. rewrite Hne by lia.
    destruct (len (strip query) <? 2)%Z eqn:E1; [apply Z.ltb_lt in E1; lia|].
    destruct (len (strip query) >? 500)%Z eqn:E2;
      [rewrite Z.gtb_ltb in E2; apply Z.ltb_lt in E2; lia|].
    apply existsb_invalid in Hex. rewrite Hex. reflexivity.
  - intros Hlen Hall. rewrite Hne by lia.
    destruct (len (strip query) <? 2)%Z eqn:E1; [apply Z.ltb_lt in E1; lia|].
    destruct (len (strip query) >? 500)%Z eqn:E2;
      [rewrite Z.gtb_ltb in E2; apply Z.ltb_lt in E2; lia|].
    destruct (existsb invalid_char (strip query)) eqn:E3; [|reflexivity].
    apply existsb_invalid in E3. destruct E3 as [c [H1 H2]].
    exfalso. exact (Hall c H1 H2).
  - vm_compute. reflexivity.
  - vm_compute. reflexivity.
Qed.

(** The instances of C6 for a blank query, a query of one character, a
    query with an ampersand and a plain query. *)
Lemma validate_query_cases_witness :
  validate_query (py "   ") = (false, py "Query cannot be empty")
  /\ validate_query (py " a ")
     = (false, py "Query must be at least 2 characters long")
  /\ validate_query (py "cats & dogs")
     = (false, py "Query contains invalid characters")
  /\ validate_query (py "cats and dogs") = (true, py "Query is valid").
Proof.
  split; [|split; [|split]].
  - apply (proj1 (validate_query_cases (py "   "))). reflexivity.
  - apply (proj1 (proj2 (validate_query_cases (py " a ")))).
    + reflexivity.
    + vm_compute. reflexivity.
  - apply (proj1 (proj2 (proj2 (proj2 (validate_query_cases (py "cats & dogs")))))).
    + vm_compute. split; discriminate.
    + exists "&"%char. split; vm_compute; tauto.
  - apply (proj1 (proj2 (proj2 (proj2 (proj2
             (validate_query_cases (py "cats and dogs"))))))).
    + vm_compute. split; discriminate.
    + intros c Hc Hr. vm_compute in Hc, Hr.
      repeat (destruct Hr as [Hr|Hr];
              [subst c;
               repeat (destruct Hc as [Hc|Hc]; [discriminate Hc|]); exact Hc|]).
      exact Hr.
Defined.

End ValidateQuery.

(** ** sanitize_filename *)
Module SanitizeFilename.

Import Samples Notions.
Import FileUtils.

Local Arguments Ascii.eqb : simpl never.

Lemma has_uu_one (a : ascii) : has_uu [a] = false.
Proof.
  unfold has_uu, py. simpl. rewrite andb_false_r. reflexivity.
Qed.

Lemma has_uu_cons2 (a b : ascii) (t : str) :
  has_uu (a :: b :: t) = (is_us a && is_us b) || has_uu (b :: t).
Proof.
  unfold has_uu, py, is_us. simpl.
  rewrite (Ascii.eqb_sym a), (Ascii.eqb_sym b), andb_true_r. reflexivity.
Qed.

Lemma squeeze_one (a : ascii) : squeeze [a] = [a].
Proof.
  unfold squeeze, replace, py. simpl. rewrite andb_false_r. reflexivity.
Qed.

Lemma squeeze_cons2 (a b : ascii) (t : str) :
  squeeze (a :: b :: t)
  = if is_us a && is_us b then "_"%char :: squeeze t
    else a :: squeeze (b :: t).
Proof.
  unfold squeeze, replace, py, is_us. simpl.
  rewrite (Ascii.eqb_sym a), (Ascii.eqb_sym b), andb_true_r.
  destruct (("_" =? a)%char && ("_" =? b)%char); reflexivity.
Qed.

(** Induction over a string two characters at a time, as [squeeze] and
    [has_uu] read it. *)
Lemma str_ind2 (P : str -> Prop) :
  P [] -> (forall a, P [a]) ->
  (forall a b t, P t -> P (b :: t) -> P (a :: b :: t)) ->
  forall s, P s.
Proof.
  intros H0 H1 H2.
  assert (H : forall s, P s /\ forall a, P (a :: s)).
  { induction s as [|b t [IHt IHbt]]; split; auto. }
  intros s. apply H.
Qed.

Lemma squeeze_length (s : str) :
  (length (squeeze s) <= length s)%nat
  /\ (has_uu s = true -> (length (squeeze s) < length s)%nat).
Proof.
  induction s as [|a|a b t [IHt _] [IHbt IHbt']] using str_ind2.
  - split; [simpl; lia | discriminate].
  - rewrite squeeze_one, has_uu_one. split; [lia | discriminate].
  - rewrite squeeze_cons2, has_uu_cons2.
    destruct (is_us a && is_us b); simpl in *; split; intros; try lia.
    specialize (IHbt' H). lia.
Qed.

Lemma squeeze_fixed (s : str) : has_uu s = false -> squeeze s = s.
Proof.
  induction s as [|a|a b t _ IHbt] using str_ind2; intros H.
  - reflexivity.
  - apply squeeze_one.
  - rewrite has_uu_cons2 in H. apply orb_false_iff in H. destruct H as [H1 H2].
    rewrite squeeze_cons2, H1, (IHbt H2). reflexivity.
Qed.

Lemma Forall_squeeze (P : ascii -> Prop) (s : str) :
  Forall P s -> Forall P (squeeze s).
Proof.
  induction s as [|a|a b t IHt IHbt] using str_ind2; intros H.
  - constructor.
  - rewrite squeeze_one. assumption.
  - rewrite squeeze_cons2. inversion H as [|? ? Ha Hbt]; subst.
    destruct (is_us a && is_us b) eqn:E.
    + apply andb_true_iff in E. destruct E as [Ea _].
      apply Ascii.eqb_eq in Ea. subst a.
      constructor; [assumption|]. apply IHt. inversion Hbt; assumption.
    + constructor; [assumption | apply IHbt; assumption].
Qed.

Lemma collapse_loop_S (k : nat) (s : str) :
  collapse_loop (S k) s
  = if has_uu s then collapse_loop k (squeeze s) else s.
Proof. reflexivity. Qed.

(** The loop reaches its exit within [length s] passes: on return the
    string holds no double underscore. *)
Lemma collapse_loop_bounded (fuel : nat) (s : str) :
  (length s <= fuel)%nat -> has_uu (collapse_loop fuel s) = false.
Proof.
  revert s. induction fuel as [|k IH]; intros s Hlen.
  - destruct s; [reflexivity | simpl in Hlen; lia].
  - rewrite collapse_loop_S. destruct (has_uu s) eqn:E; [|exact E].
    apply IH. pose proof (proj2 (squeeze_length s) E). lia.
Qed.

Lemma collapse_loop_done (s : str) :
  has_uu (collapse_loop (length s) s) = false.
Proof. apply collapse_loop_bounded. lia. Qed.

Lemma collapse_loop_fixed (fuel : nat) (s : str) :
  has_uu s = false -> collapse_loop fuel s = s.
Proof.
  intros H. destruct fuel; [reflexivity|].
  rewrite collapse_loop_S, H. reflexivity.
Qed.

Lemma Forall_collapse_loop (P : ascii -> Prop) (fuel : nat) (s : str) :
  Forall P s -> Forall P (collapse_loop fuel s).
Proof.
  revert s. induction fuel as [|k IH]; intros s H; [assumption|].
  rewrite collapse_loop_S. destruct (has_uu s); [|assumption].
  apply IH. apply (Forall_squeeze H).
Qed.

(** *** The stages of [sanitize_filename] *)

Lemma replace_space_map (s : str) :
  replace (py " ") (py "_") s = map space_to_us s.
Proof.
  unfold replace, py. simpl list_ascii_of_string.
  induction s as [|c t IH]; [reflexivity|].
  cbn [replace_from startswith map length Nat.sub app].
  rewrite andb_true_r, IH. unfold space_to_us.
  destruct (" " =? c)%char; reflexivity.
Qed.

Lemma sanitize_filename_stages (max_length : Z) (x : str) :
  sanitize_filename max_length x
  = if forallb isspace x then py "unknown_file"
    else finish max_length (collapsed x).
Proof.
  unfold sanitize_filename. rewrite strip_blank.
  destruct x; reflexivity.
Qed.

(** *** Characters *)

Lemma keep_char_not_space (c : ascii) :
  keep_char c = true -> isspace c = false.
Proof. all_chars c. Qed.

Lemma keep_char_lower (c : ascii) :
  keep_char c = true -> keep_char (lower_char c) = true.
Proof. all_chars c. Qed.

Lemma lower_char_idem (c : ascii) :
  lower_char (lower_char c) = lower_char c.
Proof. all_chars c. Qed.

Lemma is_us_lower (c : ascii) : is_us (lower_char c) = is_us c.
Proof. all_chars c. Qed.

Lemma plain_lower (c : ascii) :
  isascii c = true -> keep_char c = true -> plain (lower_char c) = true.
Proof. all_chars c. Qed.

(** *** Lists *)

Lemma has_uu_firstn (n : nat) (s : str) :
  has_uu s = false -> has_uu (firstn n s) = false.
Proof.
  revert n. induction s as [|a|a b t _ IHbt] using str_ind2; intros n H.
  - destruct n; reflexivity.
  - destruct n as [|[|n]]; [reflexivity | apply has_uu_one | apply has_uu_one].
  - rewrite has_uu_cons2 in H. apply orb_false_iff in H. destruct H as [H1 H2].
    destruct n as [|[|n]]; [reflexivity | apply has_uu_one |].
    change (firstn (S (S n)) (a :: b :: t)) with (a :: b :: firstn n t).
    rewrite has_uu_cons2, H1. simpl orb.
    apply (IHbt (S n) H2).
Qed.

Lemma rstrip_by_prefix (p : ascii -> bool) (s : str) :
  rstrip_by p s = firstn (length (rstrip_by p s)) s.
Proof.
  induction s as [|c t IH]; [reflexivity|]. simpl.
  destruct (rstrip_by p t) as [|d u] eqn:E.
  - destruct (p c); reflexivity.
  - simpl in *. rewrite <- IH. reflexivity.
Qed.

Lemma has_uu_rstrip_by (p : ascii -> bool) (s : str) :
  has_uu s = false -> has_uu (rstrip_by p s) = false.
Proof. intros H. rewrite rstrip_by_prefix. apply has_uu_firstn, H. Qed.

Lemma has_uu_slice_to (n : Z) (s : str) :
  has_uu s = false -> has_uu (slice_to n s) = false.
Proof.
  intros H. unfold slice_to. destruct (0 <=? n)%Z; apply has_uu_firstn, H.
Qed.

Lemma has_uu_lower (s : str) : has_uu (lower s) = has_uu s.
Proof.
  induction s as [|a|a b t _ IHbt] using str_ind2.
  - reflexivity.
  - simpl. rewrite !has_uu_one. reflexivity.
  - change (lower (a :: b :: t)) with (lower_char a :: lower_char b :: lower t).
    rewrite !has_uu_cons2, !is_us_lower. f_equal. exact IHbt.
Qed.

Lemma rstrip_by_map (p : ascii -> bool) (f : ascii -> ascii) (s : str) :
  (forall c, p (f c) = p c) ->
  rstrip_by p (map f s) = map f (rstrip_by p s).
Proof.
  intros Hp. induction s as [|c t IH]; [reflexivity|].
  cbn [map rstrip_by]. rewrite IH, Hp.
  destruct (rstrip_by p t); [destruct (p c)|]; reflexivity.
Qed.

Lemma rstrip_by_lower (s : str) :
  rstrip_by is_us (lower s) = lower (rstrip_by is_us s).
Proof. apply rstrip_by_map, is_us_lower. Qed.

Lemma lower_fixed (s : str) :
  Forall (fun c => lower_char c = c) s -> lower s = s.
Proof.
  unfold lower. induction 1 as [|c t Hc Ht IH]; simpl; [reflexivity|].
  rewrite Hc, IH. reflexivity.
Qed.

(** *** Sanitized names are fixed points *)

Lemma keep_char_space_to_us (c : ascii) :
  keep_char c = true -> space_to_us c = c.
Proof. all_chars c. Qed.

Lemma truncate_short (max_length : Z) (s : str) :
  (len s <= max_length)%Z -> truncate max_length s = s.
Proof.
  intros H. unfold truncate.
  destruct (len s >? max_length)%Z eqn:E; [|reflexivity].
  rewrite Z.gtb_ltb in E. apply Z.ltb_lt in E. lia.
Qed.

Lemma truncate_len (max_length : Z) (s : str) :
  (0 <= max_length)%Z -> (len (truncate max_length s) <= max_length)%Z.
Proof.
  intros Hmax. unfold truncate.
  destruct (len s >? max_length)%Z eqn:E.
  - unfold slice_to. apply Z.leb_le in Hmax. rewrite Hmax.
    unfold len. pose proof (firstn_le_length (Z.to_nat max_length) s). lia.
  - rewrite Z.gtb_ltb in E. apply Z.ltb_ge in E. exact E.
Qed.

Lemma Forall_truncate (P : ascii -> Prop) (max_length : Z) (s : str) :
  Forall P s -> Forall P (truncate max_length s).
Proof.
  intros H. unfold truncate.
  destruct (len s >? max_length)%Z; [apply Forall_slice_to|]; exact H.
Qed.

Lemma has_uu_truncate (max_length : Z) (s : str) :
  has_uu s = false -> has_uu (truncate max_length s) = false.
Proof.
  intros H. unfold truncate.
  destruct (len s >? max_length)%Z; [apply has_uu_slice_to|]; exact H.
Qed.

Lemma sanitize_filename_clean (max_length : Z) (s : str) :
  clean max_length s -> sanitize_filename max_length s = s.
Proof.
  intros [Hne Hch Huu Hend Hlen].
  assert (Hkeep : Forall (fun c => keep_char c = true) s).
  { eapply Forall_impl; [|exact Hch]. intros c [H _]. exact H. }
  assert (Hlow : Forall (fun c => lower_char c = c) s).
  { eapply Forall_impl; [|exact Hch]. intros c [_ H]. exact H. }
  assert (Hnsp : forallb (fun c => negb (isspace c)) s = true).
  { apply forallb_forall. intros c Hc.
    rewrite Forall_forall in Hkeep.
    rewrite (keep_char_not_space c (Hkeep c Hc)). reflexivity. }
  rewrite sanitize_filename_stages.
  destruct s as [|c t]; [contradiction Hne; reflexivity|].
  assert (Hc : isspace c = false).
  { apply keep_char_not_space. inversion Hkeep; assumption. }
  cbn [forallb]. rewrite Hc. cbn [andb].
  assert (Hcol : collapsed (c :: t) = c :: t).
  { unfold collapsed. rewrite (strip_id _ Hnsp), replace_space_map.
    assert (Hmap : map space_to_us (c :: t) = c :: t).
    { rewrite <- (map_id (c :: t)) at 2. apply map_ext_Forall.
      eapply Forall_impl; [|exact Hkeep].
      intros a Ha. apply keep_char_space_to_us, Ha. }
    rewrite Hmap, forallb_filter_id.
    - apply collapse_loop_fixed, Huu.
    - apply forallb_forall. rewrite Forall_forall in Hkeep. exact Hkeep. }
  rewrite Hcol. unfold finish.
  rewrite (truncate_short _ Hlen), Hend. apply lower_fixed, Hlow.
Qed.

Lemma finish_chars (Q Q' : ascii -> Prop) (max_length : Z) (s : str) :
  (forall c, Q c -> Q' (lower_char c)) ->
  Forall Q (py "file") -> Forall Q s ->
  Forall Q' (finish max_length s).
Proof.
  intros Hlow Hfile Hs. unfold finish, lower. apply Forall_map.
  eapply Forall_impl; [exact Hlow|].
  unfold or_file.
  destruct (is_empty (rstrip_by is_us (truncate max_length s)));
    [exact Hfile|].
  apply Forall_rstrip_by, Forall_truncate, Hs.
Qed.

Lemma finish_clean (max_length : Z) (s : str) :
  (4 <= max_length)%Z ->
  Forall (fun c => keep_char c = true) s -> has_uu s = false ->
  clean max_length (finish max_length s).
Proof.
  intros Hmax Hkeep Huu.
  pose (s2 := rstrip_by is_us (truncate max_length s)).
  assert (Hfin : finish max_length s = lower (or_file s2)) by reflexivity.
  assert (H3 : or_file s2 <> []
               /\ has_uu (or_file s2) = false
               /\ rstrip_by is_us (or_file s2) = or_file s2
               /\ (len (or_file s2) <= max_length)%Z).
  { unfold or_file. destruct (is_empty s2) eqn:E.
    - repeat split; try reflexivity; try discriminate.
      unfold len. simpl. lia.
    - repeat split.
      + intros ->. discriminate.
      + apply has_uu_rstrip_by, has_uu_truncate, Huu.
      + apply rstrip_by_idem.
      + pose proof (rstrip_by_length is_us (truncate max_length s)).
        pose proof (@truncate_len max_length s ltac:(lia)).
        unfold len in *. fold s2 in H. lia. }
  destruct H3 as [Hne [Hnouu [Hend Hlen]]].
  constructor.
  - rewrite Hfin. unfold lower. destruct (or_file s2);
      [contradiction Hne; reflexivity | discriminate].
  - apply finish_chars with (Q := fun c => keep_char c = true).
    + intros c Hc. split; [apply keep_char_lower, Hc | apply lower_char_idem].
    + repeat constructor.
    + exact Hkeep.
  - rewrite Hfin, has_uu_lower. exact Hnouu.
  - rewrite Hfin, rstrip_by_lower, Hend. reflexivity.
  - rewrite Hfin. unfold len, lower in *. rewrite length_map. exact Hlen.
Qed.

Lemma collapsed_chars (P : ascii -> Prop) (x : str) :
  P "_"%char -> Forall P x ->
  Forall (fun c => P c /\ keep_char c = true) (collapsed x).
Proof.
  intros Hus Hx. unfold collapsed. apply Forall_collapse_loop.
  apply Forall_and; [|apply Forall_filter_true].
  apply Forall_filter. rewrite replace_space_map. apply Forall_map.
  eapply Forall_impl; [|apply Forall_strip, Hx].
  intros c Hc. unfold space_to_us. destruct (" " =? c)%char; assumption.
Qed.

Lemma collapsed_no_uu (x : str) : has_uu (collapsed x) = false.
Proof. apply collapse_loop_done. Qed.

Lemma unknown_file_clean (max_length : Z) :
  (12 <= max_length)%Z -> clean max_length (py "unknown_file").
Proof.
  intros Hmax. constructor.
  - discriminate.
  - repeat (constructor; [split; reflexivity|]). constructor.
  - reflexivity.
  - reflexivity.
  - unfold len. simpl. lia.
Qed.

Lemma sanitize_filename_is_clean (max_length : Z) (x : str) :
  (12 <= max_length)%Z -> clean max_length (sanitize_filename max_length x).
Proof.
  intros Hmax. rewrite sanitize_filename_stages.
  destruct (forallb isspace x).
  - apply unknown_file_clean, Hmax.
  - apply finish_clean; [lia | | apply collapsed_no_uu].
    eapply Forall_impl; [|apply (@collapsed_chars (fun _ => True) x I)].
    + intros c [_ H]. exact H.
    + apply Forall_forall. intros; exact I.
Qed.

Lemma all_dropped_file (max_length : Z) (x : str) :
  forallb isspace x = false ->
  (forall c, In c (strip x) -> c <> " "%char /\ keep_char c = false) ->
  sanitize_filename max_length x = py "file".
Proof.
  intros Hblank Hdrop. rewrite sanitize_filename_stages, Hblank.
  assert (Hkept : filter keep_char (replace (py " ") (py "_") (strip x)) = []).
  { rewrite replace_space_map.
    induction (strip x) as [|c t IH]; [reflexivity|].
    destruct (Hdrop c (or_introl eq_refl)) as [Hsp Hk].
    assert (Hc : space_to_us c = c).
    { unfold space_to_us. destruct (" " =? c)%char eqn:E; [|reflexivity].
      apply Ascii.eqb_eq in E. congruence. }
    cbn [map filter]. rewrite Hc, Hk. apply IH.
    intros d Hd. apply Hdrop. right. exact Hd. }
  unfold collapsed. rewrite Hkept. cbn [length collapse_loop].
  unfold finish, truncate, slice_to.
  destruct (len [] >? max_length)%Z; [destruct (0 <=? max_length)%Z|];
    rewrite ?firstn_nil; reflexivity.
Qed.

(** C7, as amended.  For strings of code points below U+0100 and a
    configured maximal length of at least 12: sanitizing twice gives what
    sanitizing once gives; a sanitized name holds only underscores, hyphens
    and alphanumeric characters that are their own lowercase, and only
    characters of [a-z0-9_-] when the input is 7-bit; it is no longer than
    the maximal length and does not end with an underscore; a blank input
    gives [unknown_file]; an input that is not blank and whose trimmed
    characters are all dropped gives [file]. *)
Theorem sanitize_filename_safe (max_length : Z) (x : str) :
  (12 <= max_length)%Z ->
  let y := sanitize_filename max_length x in
  sanitize_filename max_length y = y
  /\ Forall (fun c => keep_char c = true /\ lower_char c = c) y
  /\ (Forall (fun c => isascii c = true) x ->
      Forall (fun c => plain c = true) y)
  /\ (len y <= max_length)%Z
  /\ (forall t, y <> t ++ ["_"%char])
  /\ (forallb isspace x = true -> y = py "unknown_file")
  /\ (forallb isspace x = false ->
      (forall c, In c (strip x) -> c <> " "%char /\ keep_char c = false) ->
      y = py "file").
Proof.
  intros Hmax y.
  pose proof (sanitize_filename_is_clean x Hmax) as Hclean. fold y in Hclean.
  split; [apply sanitize_filename_clean, Hclean|].
  split; [apply (clean_chars Hclean)|].
  split.
  { intros Hascii. unfold y. rewrite sanitize_filename_stages.
    destruct (forallb isspace x).
    - repeat constructor.
    - apply finish_chars
        with (Q := fun c => isascii c = true /\ keep_char c = true).
      + intros c [H1 H2]. apply plain_lower; assumption.
      + repeat constructor.
      + apply collapsed_chars; [reflexivity | exact Hascii]. }
  split; [apply (clean_len Hclean)|].
  split.
  { intros t. apply rstrip_by_fixed_end with (p := is_us);
      [apply (clean_end Hclean) | reflexivity]. }
  split.
  - intros Hblank. unfold y. rewrite sanitize_filename_stages, Hblank.
    reflexivity.
  - intros Hblank Hdrop. apply all_dropped_file; assumption.
Qed.

(** The instance of C7 at the default length and the name
    [Tesla Model 3 review!!]. *)
Lemma sanitize_filename_safe_witness :
  (12 <= default_max_filename_length)%Z
  /\ let y := sanitize_filename default_max_filename_length
                (py "Tesla Model 3 review!!") in
     sanitize_filename default_max_filename_length y = y
     /\ y = py "tesla_model_3_review".
Proof.
  split; [unfold default_max_filename_length; lia|].
  split.
  - apply (sanitize_filename_safe (max_length := default_max_filename_length)
             (py "Tesla Model 3 review!!")).
    unfold default_max_filename_length. lia.
  - reflexivity.
Defined.

(** C7 as stated fails in two ways.  A letter outside the 7-bit range is
    alphanumeric and is kept: the name cafe with an acute accent (code 233)
    is returned as it is, and its last character is not of [a-z0-9_-].
    With a maximal length of 5 the blank input gives [unknown_file], which
    is longer than 5 and is sanitized to [unkno]. *)
Lemma sanitize_filename_counterexample :
  (let y := sanitize_filename default_max_filename_length
              (py "caf" ++ ["233"%char]) in
   y = py "caf" ++ ["233"%char] /\ forallb plain y = false)
  /\ (let y := sanitize_filename 5 [] in
      y = py "unknown_file" /\ (len y > 5)%Z
      /\ sanitize_filename 5 y = py "unkno").
Proof. vm_compute. repeat split. Qed.

End SanitizeFilename.


(** ** generate_query_variations *)
Module GenerateVariations.

Import Samples Notions.
Import AIService.

(** What follows the first separator. *)
Lemma after_first_some (sep : ascii) (s t : str) :
  after_first sep s = Some t <->
  exists before, s = before ++ sep :: t /\ ~ In sep before.
Proof.
  revert t. induction s as [|c s IH]; intros t; simpl.
  - split; [discriminate|]. intros [[|b before] [H _]]; discriminate.
  - destruct (c =? sep)%char eqn:E.
    + apply Ascii.eqb_eq in E. subst c. split.
      * intros H. injection H as <-. exists []. split; [reflexivity | intros []].
      * intros [[|b before] [H Hn]].
        -- injection H as <-. reflexivity.
        -- injection H as <- _. exfalso. apply Hn. left. reflexivity.
    + apply Ascii.eqb_neq in E. rewrite IH. split.
      * intros [before [-> Hn]]. exists (c :: before). split; [reflexivity|].
        intros [H|H]; [congruence | exact (Hn H)].
      * intros [[|b before] [H Hn]].
        -- injection H as H _. congruence.
        -- injection H as <- ->. exists before. split; [reflexivity|].
           intros H. apply Hn. right. exact H.
Qed.

Lemma after_first_none (sep : ascii) (s : str) :
  after_first sep s = None <-> ~ In sep s.
Proof.
  induction s as [|c s IH]; simpl.
  - split; [intros _ [] | reflexivity].
  - destruct (c =? sep)%char eqn:E.
    + apply Ascii.eqb_eq in E. split; [discriminate|].
      intros H. exfalso. apply H. left. exact E.
    + apply Ascii.eqb_neq in E. rewrite IH. split.
      * intros H [H1|H1]; [exact (E H1) | exact (H H1)].
      * intros H H1. apply H. right. exact H1.
Qed.

(** The text a line contributes: what follows its first period, or the
    whole line when it holds no period. *)
Lemma split1_last_cases (s : str) :
  (exists before, s = before ++ "."%char :: split1_last "." s
                  /\ ~ In "."%char before)
  \/ (~ In "."%char s /\ split1_last "." s = s).
Proof.
  unfold split1_last. destruct (after_first "." s) as [t|] eqn:E.
  - left. apply after_first_some. exact E.
  - right. split; [apply after_first_none, E | reflexivity].
Qed.

Lemma parse_line_some (line v : str) :
  parse_line line = Some v <->
  existsb isdigit (slice_to 3 (strip line)) = true
  /\ v = strip (split1_last "." (strip line))
  /\ v <> [].
Proof.
  unfold parse_line.
  destruct (existsb isdigit (slice_to 3 (strip line))) eqn:Ed.
  - assert (Hne : is_empty (strip line) = false).
    { destruct (strip line); [discriminate Ed | reflexivity]. }
    rewrite Hne. cbn [negb andb].
    destruct (strip (split1_last "." (strip line))) as [|c t] eqn:Ev; cbn [is_empty negb].
    + split; [discriminate|]. intros [_ [-> H]]. contradiction H; reflexivity.
    + split.
      * intros H. injection H as <-. repeat split. discriminate.
      * intros [_ [-> _]]. reflexivity.
  - rewrite andb_false_r. split; [discriminate|]. intros [H _]. discriminate.
Qed.

Lemma parse_lines_In (lines : list str) (v : str) :
  In v (parse_lines lines) <->
  exists line, In line lines /\ parse_line line = Some v.
Proof.
  induction lines as [|l rest IH]; simpl.
  - split; [intros [] | intros [? [[] _]]].
  - destruct (parse_line l) as [w|] eqn:E; simpl; rewrite IH; split.
    + intros [<-|[line [H1 H2]]]; [exists l; auto | exists line; auto].
    + intros [line [[<-|H1] H2]]; [left; congruence | right; exists line; auto].
    + intros [line [H1 H2]]. exists line; auto.
    + intros [line [[<-|H1] H2]]; [congruence | exists line; auto].
Qed.

(** C8, as amended.  When the number of variations asked for is at least 1:
    without a model, when the generation raises, and when no variation is
    parsed from the reply, the result is the one-element list of the
    original query; otherwise it is the first [n] parsed variations; it is
    never empty and never longer than [n].  A line gives a variation exactly
    when one of the first three characters of the trimmed line is a digit
    and the trimmed text after its first period (the whole trimmed line when
    it holds no period) is not empty; that text is the variation. *)
Theorem generate_query_variations_result
    (config_num : Z) (model : option generation) (original_query : str)
    (num_variations : option Z) :
  let n := get_or num_variations config_num in
  (1 <= n)%Z ->
  let result :=
    generate_query_variations config_num model original_query num_variations in
  result <> []
  /\ (Z.of_nat (length result) <= n)%Z
  /\ match model with
     | None => result = [original_query]
     | Some Raises => result = [original_query]
     | Some (Text response_text) =>
         (parsed response_text = [] -> result = [original_query])
         /\ (parsed response_text <> [] ->
             result = firstn (Z.to_nat n) (parsed response_text))
     end
  /\ (forall line v,
        parse_line line = Some v <->
        existsb isdigit (slice_to 3 (strip line)) = true
        /\ v = strip (split1_last "." (strip line))
        /\ v <> [])
  /\ (forall s,
        (exists before, s = before ++ "."%char :: split1_last "." s
                        /\ ~ In "."%char before)
        \/ (~ In "."%char s /\ split1_last "." s = s)).
Proof.
  intros n Hn result.
  assert (Hone : [original_query] <> []
                 /\ (Z.of_nat (length [original_query]) <= n)%Z).
  { split; [discriminate | simpl; lia]. }
  assert (Hmain :
    result <> [] /\ (Z.of_nat (length result) <= n)%Z
    /\ match model with
       | None => result = [original_query]
       | Some Raises => result = [original_query]
       | Some (Text response_text) =>
           (parsed response_text = [] -> result = [original_query])
           /\ (parsed response_text <> [] ->
               result = firstn (Z.to_nat n) (parsed response_text))
       end).
  { unfold result, generate_query_variations.
    destruct model as [[|response_text]|]; try (split; [|split]; tauto).
    fold (parsed response_text). fold n.
    destruct (parsed response_text) as [|v vs] eqn:E.
    - split; [|split; [|split]]; try tauto.
    - split; [|split; [|split]].
      + apply slice_to_nonempty; [exact Hn | discriminate].
      + apply slice_to_length. lia.
      + discriminate.
      + intros _. apply slice_to_firstn. lia. }
  destruct Hmain as [H1 [H2 H3]].
  repeat (split; [assumption|]).
  split; [intros line v; apply parse_line_some | apply split1_last_cases].
Qed.

(** The instance of C8 for three variations asked of a reply with a heading
    and four numbered lines. *)
Lemma generate_query_variations_result_witness :
  (1 <= 3)%Z
  /\ generate_query_variations 20 (Some (Text (py "Here you go:
1. best cat videos
2. funny cats
3. why do cats purr?
4. cats")))
       (py "cats") (Some 3%Z) <> [].
Proof.
  split; [lia|].
  apply (@generate_query_variations_result 20
           (Some (Text (py "Here you go:
1. best cat videos
2. funny cats
3. why do cats purr?
4. cats"))) (py "cats") (Some 3%Z)).
  simpl. lia.
Defined.

(** C8 as stated fails when no variation is asked for: the parsed
    variations are cut to none and the result is empty, and without a model
    the one-element result is longer than the zero asked for.  A numbered
    line without a period is taken whole. *)
Lemma generate_query_variations_counterexample :
  generate_query_variations 20 (Some (Text (py "1. best cat videos")))
    (py "cats") (Some 0%Z) = []
  /\ length (generate_query_variations 20 None (py "cats") (Some 0%Z)) = 1%nat
  /\ parse_line (py "1) best cat videos") = Some (py "1) best cat videos").
Proof. vm_compute. repeat split. Qed.

End GenerateVariations.


(** ** save_search_result *)
Module SaveSearchResult.

Import Samples Notions.
Import Database.

(** A text without the first letter of a word does not hold the word. *)
Lemma contains_without_head (c : ascii) (p s : str) :
  forallb (fun x => negb (Ascii.eqb c x)) s = true ->
  contains (c :: p) s = false.
Proof.
  induction s as [|x s IH]; intros H; [reflexivity|].
  cbn [forallb] in H. apply andb_true_iff in H. destruct H as [Hx Hs].
  cbn [contains startswith]. apply negb_true_iff in Hx. rewrite Hx.
  cbn [andb orb]. apply IH. exact Hs.
Qed.

Lemma digits_without_D (digits : str) :
  forallb isdigit digits = true ->
  forallb (fun x => negb (Ascii.eqb "D" x)) digits = true.
Proof.
  induction digits as [|c t IH]; intros H; [reflexivity|].
  cbn [forallb] in *. apply andb_true_iff in H. destruct H as [Hc Ht].
  rewrite (IH Ht), andb_true_r.
  destruct c as [[] [] [] [] [] [] [] []]; try reflexivity; discriminate Hc.
Qed.

(** The handler does not recognise the driver's text for a document over
    the size limit. *)
Lemma driver_size_message_unnamed (doc_size max_size : str) :
  forallb isdigit doc_size = true ->
  forallb isdigit max_size = true ->
  names_too_large (driver_size_message doc_size max_size) = false.
Proof.
  intros Hd Hm. unfold names_too_large, driver_size_message.
  change (py "DocumentTooLarge") with ("D"%char :: py "ocumentTooLarge").
  apply contains_without_head.
  rewrite !forallb_app, (digits_without_D doc_size Hd),
    (digits_without_D max_size Hm).
  reflexivity.
Qed.

(** The two inserts of [save_search_result] on a service that has its
    database. *)
Lemma save_search_result_inserts
    (refuses : list document -> document -> option str)
    (coll : list document) (data : document) :
  Database.save_search_result
    {| Database.connect := true; Database.rejects := refuses |} coll data
  = match refuses coll data with
    | None => (coll ++ [data], Some (length coll))
    | Some e =>
        if names_too_large e then
          match refuses coll (minimal_data data) with
          | None => (coll ++ [minimal_data data], Some (length coll))
          | Some _ => (coll, None)
          end
        else (coll, None)
    end.
Proof.
  unfold Database.save_search_result, insert_one, names_too_large.
  cbn [Database.connect Database.rejects negb].
  destruct (refuses coll data) as [e|]; [|reflexivity].
  destruct (contains (py "DocumentTooLarge") e); [|reflexivity].
  destruct (refuses coll (minimal_data data)); reflexivity.
Qed.

(** The call on the service, by the state of its connection. *)
Lemma service_save_cases (o : DatabaseService.opening)
    (refuses : list document -> document -> option str)
    (h : DatabaseService.handles) (coll : list document) (data : document) :
  DatabaseService.save_search_result o refuses h coll data
  = if fst (DatabaseService.connect o h)
       && DatabaseService.db (snd (DatabaseService.connect o h))
    then
      (snd (DatabaseService.connect o h),
       fst (Database.save_search_result
              {| Database.connect := true; Database.rejects := refuses |}
              coll data),
       snd (Database.save_search_result
              {| Database.connect := true; Database.rejects := refuses |}
              coll data))
    else (snd (DatabaseService.connect o h), coll, None).
Proof.
  unfold DatabaseService.save_search_result.
  destruct (DatabaseService.connect o h) as [ok h']. cbn [fst snd].
  destruct ok; cbn [negb andb]; [|reflexivity].
  destruct (DatabaseService.db h'); cbn [negb]; [|reflexivity].
  destruct (Database.save_search_result _ coll data) as [coll' result].
  reflexivity.
Qed.

(** C9, as the code behaves.  The handler takes an insert error for a
    size-limit error when the text of the exception holds the word
    [DocumentTooLarge].  The text that the driver gives for a document over
    the size limit does not hold it: for such a document the call returns
    [None] and stores nothing, where the metadata-only document was to be
    stored.  The metadata-only document (batch id, query, timestamp, total
    and unique counts of the data, and an error text) is stored, and its
    identifier returned, when the text of the refusal holds the word and
    the second insert is accepted.  The result is [None] exactly when the
    connection cannot be established or has left the service without its
    database, when the first insert is refused with a text that does not
    hold the word, size-limit refusals included, or when both inserts are
    refused. *)
Theorem save_search_result_size_limit (o : DatabaseService.opening)
    (refuses : list document -> document -> option str)
    (h : DatabaseService.handles) (coll : list document) (data : document)
    (doc_size max_size : str) :
  forallb isdigit doc_size = true ->
  forallb isdigit max_size = true ->
  let connected :=
    fst (DatabaseService.connect o h)
    && DatabaseService.db (snd (DatabaseService.connect o h)) in
  let coll' :=
    snd (fst (DatabaseService.save_search_result o refuses h coll data)) in
  let result :=
    snd (DatabaseService.save_search_result o refuses h coll data) in
  names_too_large (driver_size_message doc_size max_size) = false
  /\ (refuses coll data = Some (driver_size_message doc_size max_size) ->
      result = None /\ coll' = coll)
  /\ (forall e,
        connected = true -> refuses coll data = Some e ->
        names_too_large e = true -> refuses coll (minimal_data data) = None ->
        coll' = coll ++ [minimal_data data] /\ result = Some (length coll))
  /\ (get (py "batch_id") (minimal_data data) = get (py "batch_id") data
      /\ get (py "query") (minimal_data data) = get (py "query") data
      /\ get (py "timestamp") (minimal_data data) = get (py "timestamp") data
      /\ get (py "total_comments") (minimal_data data)
         = get (py "total_comments") data
      /\ get (py "unique_comments") (minimal_data data)
         = get (py "unique_comments") data
      /\ get (py "error") (minimal_data data)
         = VStr (py "Data too large for MongoDB"))
  /\ (result = None <->
      connected = false
      \/ (exists e, refuses coll data = Some e /\ names_too_large e = false)
      \/ (exists e e2, refuses coll data = Some e /\ names_too_large e = true
                       /\ refuses coll (minimal_data data) = Some e2))
  /\ (connected = true -> refuses coll data = None ->
      coll' = coll ++ [data] /\ result = Some (length coll)).
Proof.
  intros Hd Hm connected coll' result.
  pose proof (driver_size_message_unnamed doc_size max_size Hd Hm) as Hname.
  split; [exact Hname|].
  unfold coll', result. rewrite service_save_cases. fold connected.
  rewrite save_search_result_inserts.
  destruct connected; cbn [fst snd].
  - destruct (refuses coll data) as [e|] eqn:E1.
    + destruct (names_too_large e) eqn:Et.
      * destruct (refuses coll (minimal_data data)) as [e2|] eqn:E2;
          cbn [fst snd].
        -- split; [intros _; split; reflexivity|].
           split; [intros e' _ _ _ H; discriminate H|].
           split; [repeat split|].
           split; [|intros _ H; discriminate H].
           split; [|reflexivity].
           intros _. right. right. exists e, e2.
           split; [reflexivity|]. split; [exact Et | reflexivity].
        -- split; [intros H; injection H as ->; rewrite Hname in Et;
                   discriminate Et|].
           split; [intros e' _ _ _ _; split; reflexivity|].
           split; [repeat split|].
           split; [|intros _ H; discriminate H].
           split; [intros H; discriminate H|].
           intros [H|[[e' [H1 H2]]|[e' [e2 [_ [_ H]]]]]];
             [discriminate H | | discriminate H].
           injection H1 as <-. rewrite Et in H2. discriminate H2.
      * cbn [fst snd]. split; [intros _; split; reflexivity|].
        split; [intros e' _ H1 H2 _; injection H1 as <-; rewrite Et in H2;
                discriminate H2|].
        split; [repeat split|].
        split; [|intros _ H; discriminate H].
        split; [|reflexivity].
        intros _. right. left. exists e. split; [reflexivity | exact Et].
    + cbn [fst snd]. split; [intros H; discriminate H|].
      split; [intros e' _ H; discriminate H|].
      split; [repeat split|].
      split; [|intros _ _; split; reflexivity].
      split; [intros H; discriminate H|].
      intros [H|[[e' [H _]]|[e' [e2 [H _]]]]]; discriminate H.
  - split; [intros _; split; reflexivity|].
    split; [intros e' H; discriminate H|].
    split; [repeat split|].
    split; [|intros H; discriminate H].
    split; [|reflexivity]. intros _. left. reflexivity.
Qed.

(** The instance of C9 for the document of nine keys, an empty collection,
    a service that connects, and a server that refuses the document as the
    driver does and would accept the metadata-only document. *)
Lemma save_search_result_size_limit_witness :
  DatabaseService.save_search_result DatabaseService.Opens
    (rejects driver_server) DatabaseService.initial [] big_document
  = ({| DatabaseService.client := true; DatabaseService.db := true |},
     [], None)
  /\ rejects driver_server [] (minimal_data big_document) = None
  /\ names_too_large (driver_size_message (py "17825869") (py "16793598"))
     = false.
Proof.
  destruct (@save_search_result_size_limit DatabaseService.Opens
              (rejects driver_server) DatabaseService.initial []
              big_document (py "17825869") (py "16793598")
              eq_refl eq_refl) as [Hname [Hnone _]].
  destruct (Hnone eq_refl) as [Hr Hc].
  split; [|split; [reflexivity | exact Hname]].
  rewrite (surjective_pairing
             (DatabaseService.save_search_result DatabaseService.Opens
                (rejects driver_server) DatabaseService.initial []
                big_document)).
  rewrite Hr.
  rewrite (surjective_pairing
             (fst (DatabaseService.save_search_result DatabaseService.Opens
                     (rejects driver_server) DatabaseService.initial []
                     big_document))).
  rewrite Hc. reflexivity.
Defined.

End SaveSearchResult.


(** ** search_subreddits *)
Module SearchSubreddits.

Import Samples Notions.
Import RedditService.

(** C4, as amended.  The candidates are a fixed list of twenty names, the
    sixteen general ones followed by [personalfinance], [investing],
    [explainlikeimfive] and [askscience], and after them the words of the
    lowercased query that are longer than 3 characters.  Every returned
    name is a candidate whose probe succeeded; for a limit that is not
    negative the result is the first [limit] surviving candidates, so at
    most [limit] names.  When the query cannot be lowercased the result is
    the fallback list of [all] and [AskReddit]. *)
Theorem search_subreddits_candidates
    (probe : str -> bool) (query : str) (limit : Z) :
  let candidates := relevant_subreddits ++ query_candidates query in
  let result := search_subreddits probe (Some query) limit in
  relevant_subreddits = general_purpose_names ++ further_names
  /\ length relevant_subreddits = 20%nat
  /\ (forall word,
        In word (query_candidates query) <->
        In word (split_ws (lower query)) /\ (len word > 3)%Z)
  /\ (forall name, In name result -> In name candidates /\ probe name = true)
  /\ ((0 <= limit)%Z ->
      result = firstn (Z.to_nat limit) (filter probe candidates)
      /\ (Z.of_nat (length result) <= limit)%Z)
  /\ search_subreddits probe None limit = [py "all"; py "AskReddit"].
Proof.
  intros candidates result.
  split; [reflexivity|]. split; [reflexivity|].
  split.
  { intros word. unfold query_candidates. rewrite filter_In.
    rewrite Z.gtb_ltb, Z.ltb_lt. intuition lia. }
  split.
  { intros name H. unfold result, search_subreddits in H.
    apply In_slice_to in H. apply filter_In in H. exact H. }
  split; [|reflexivity].
  intros Hlimit. unfold result, search_subreddits. fold candidates.
  split; [apply slice_to_firstn, Hlimit | apply slice_to_length, Hlimit].
Qed.

(** The instance of C4 for the query [Tesla Model 3 review] and the limit 5. *)
Lemma search_subreddits_candidates_witness :
  (0 <= 5)%Z
  /\ search_subreddits all_but_news (Some (py "Tesla Model 3 review")) 5
     = firstn 5 (filter all_but_news
                   (relevant_subreddits
                    ++ query_candidates (py "Tesla Model 3 review"))).
Proof.
  split; [lia|].
  apply (proj1 (proj2 (proj2 (proj2 (proj2
           (search_subreddits_candidates all_but_news
              (py "Tesla Model 3 review") 5)))))).
  lia.
Defined.

(** C4 as stated fails: with every probe succeeding, the empty query and the
    limit 20, twenty names are returned, and [personalfinance], which is
    not one of the sixteen, is among them. *)
Lemma search_subreddits_counterexample :
  let result := search_subreddits (fun _ => true) (Some []) 20 in
  length result = 20%nat
  /\ In (py "personalfinance") result
  /\ ~ In (py "personalfinance") general_purpose_names.
Proof.
  split; [reflexivity|]. split.
  - vm_compute. do 16 right. left. reflexivity.
  - intros H. vm_compute in H.
    repeat (destruct H as [H|H]; [discriminate H|]). exact H.
Qed.

End SearchSubreddits.

(** ** filter_comment_relevance *)
Module CommentRelevance.

Import Samples Notions.
Import RedditService.

Local Open Scope Q_scope.

Lemma inject_Z_half_pos (k : Z) : (0 <= k)%Z -> 0 < inject_Z k + (1 # 2).
Proof. intros H. unfold Qlt, Qplus, inject_Z. simpl. lia. Qed.

Lemma inject_Z_pos (k : Z) : 0 < inject_Z k <-> (0 < k)%Z.
Proof. unfold Qlt, inject_Z. simpl. lia. Qed.

Lemma count_matching_one (comment_lower term : str) :
  count_matching comment_lower [term]
  = if contains term comment_lower then 1%Z else 0%Z.
Proof.
  unfold count_matching. simpl. destruct (contains term comment_lower); reflexivity.
Qed.

(** The verdict read off the value of [matching_terms]. *)
Lemma filter_comment_relevance_verdict (comment_text : str) (terms : list str) :
  filter_comment_relevance comment_text terms = true <->
  ((term_count terms > 1)%Z
   /\ inject_Z (Z.max 1 (term_count terms / 2)) <= matching_terms comment_text terms)
  \/ (term_count terms = 1%Z /\ 0 < matching_terms comment_text terms).
Proof.
  unfold filter_comment_relevance.
  destruct (term_count terms >? 1)%Z eqn:E.
  - rewrite Qle_bool_iff. rewrite Z.gtb_ltb in E. apply Z.ltb_lt in E.
    split; [intros H; left; split; [lia | exact H]|].
    intros [[_ H]|[H _]]; [exact H | lia].
  - rewrite Z.gtb_ltb in E. apply Z.ltb_ge in E.
    rewrite negb_true_iff. rewrite <- not_true_iff_false, Qle_bool_iff.
    split.
    + intros H. right. split.
      * destruct terms as [|a [|b t]].
        -- exfalso. apply H. unfold matching_terms. simpl.
           unfold Qle. simpl. lia.
        -- reflexivity.
        -- unfold term_count in E. simpl length in E. lia.
      * apply Qnot_le_lt. exact H.
    + intros [[H _]|[_ H]]; [lia | apply Qlt_not_le; exact H].
Qed.

(** For a query of one term the code's count and the count in the words of
    the specification are positive together. *)
Lemma single_term_counts (comment_text term : str) :
  0 < matching_terms comment_text [term]
  <-> 0 < spec_match_count comment_text [term].
Proof.
  unfold matching_terms, spec_match_count.
  cbn [term_count length Z.of_nat hd]. cbn [Z.eqb Pos.of_succ_nat Pos.eqb andb].
  rewrite count_matching_one.
  destruct (len term >? 3)%Z eqn:El.
  - reflexivity.
  - assert (Hs : slice_to 4 term = term).
    { rewrite slice_to_firstn by lia. apply firstn_all2.
      rewrite Z.gtb_ltb in El. apply Z.ltb_ge in El. unfold len in El. lia. }
    rewrite Hs.
    destruct (contains term (lower comment_text)).
    + split; intros _; [apply (inject_Z_half_pos (k := 1)); lia
                       | apply inject_Z_pos; lia].
    + reflexivity.
Qed.

(** C5.  The match count is the number of query terms found in the
    lowercased comment, raised by one half for a query of one term whose
    first four characters are found; a comment is relevant exactly when
    there is more than one term and the count reaches
    [max(1, termCount // 2)], or there is one term and the count is
    positive.  The equivalence holds for the count as the code keeps it,
    which adds the half only for a term longer than 3 characters, and for
    the count as worded here. *)
Theorem filter_comment_relevance_iff (comment_text : str) (terms : list str) :
  (filter_comment_relevance comment_text terms = true <->
   ((term_count terms > 1)%Z
    /\ inject_Z (Z.max 1 (term_count terms / 2))
       <= spec_match_count comment_text terms)
   \/ (term_count terms = 1%Z /\ 0 < spec_match_count comment_text terms))
  /\ (filter_comment_relevance comment_text terms = true <->
      ((term_count terms > 1)%Z
       /\ inject_Z (Z.max 1 (term_count terms / 2))
          <= matching_terms comment_text terms)
      \/ (term_count terms = 1%Z /\ 0 < matching_terms comment_text terms)).
Proof.
  split; [|apply filter_comment_relevance_verdict].
  rewrite filter_comment_relevance_verdict.
  destruct terms as [|a [|b t]].
  - unfold term_count. simpl. split; intros [[H _]|[H _]]; lia.
  - split; (intros [[H _]|[H1 H2]];
            [unfold term_count in H; simpl in H; lia
            | right; split; [exact H1 | apply single_term_counts; exact H2]]).
  - assert (Hm : matching_terms comment_text (a :: b :: t)
                 = spec_match_count comment_text (a :: b :: t)).
    { unfold matching_terms, spec_match_count.
      assert (Hn : (term_count (a :: b :: t) =? 1)%Z = false).
      { apply Z.eqb_neq. unfold term_count. simpl length. lia. }
      rewrite Hn. reflexivity. }
    rewrite Hm. reflexivity.
Qed.

End CommentRelevance.


(** ** get_unique_comments_unified *)
Module UniqueComments.

Import Samples Notions.
Import CommentFetcher.

Lemma mem_In (x : str) (l : list str) : mem x l = true <-> In x l.
Proof.
  unfold mem. rewrite existsb_exists. split.
  - intros [y [H1 H2]]. apply str_eqb_eq in H2. subst y. exact H1.
  - intros H. exists x. split; [exact H | apply str_eqb_eq; reflexivity].
Qed.

Lemma has_key_In (key : str) (d : unique_dict) :
  has_key key d = true <-> In key (map fst d).
Proof. apply mem_In. Qed.

Lemma inv_initial : inv initial_unique_state.
Proof. constructor; simpl; [constructor | constructor | reflexivity | reflexivity]. Qed.

Section AppendReply.

Variables (key : str) (r : unique_reply).

Lemma append_reply_keys (d : unique_dict) :
  map fst (append_reply key r d) = map fst d.
Proof.
  induction d as [|[k e] rest IH]; simpl; [reflexivity|].
  destruct (str_eqb key k); simpl; [reflexivity | rewrite IH; reflexivity].
Qed.

Lemma append_reply_length (d : unique_dict) :
  length (append_reply key r d) = length d.
Proof.
  rewrite <- (length_map fst), append_reply_keys. apply length_map.
Qed.

Lemma append_reply_sum (d : unique_dict) :
  has_key key d = true ->
  sum_replies (append_reply key r d) = S (sum_replies d).
Proof.
  induction d as [|[k e] rest IH]; intros H.
  - discriminate H.
  - unfold has_key, mem in H. simpl in H. simpl.
    destruct (str_eqb key k) eqn:E; simpl.
    + rewrite length_app. simpl. lia.
    + rewrite (IH H). lia.
Qed.

Lemma append_reply_entries (d : unique_dict) :
  (3 < len (ur_text r))%Z ->
  Forall entry_ok d -> Forall entry_ok (append_reply key r d).
Proof.
  intros Hr. induction 1 as [|[k e] rest [H1 [H2 H3]] Hrest IH]; simpl;
    [constructor|].
  destruct (str_eqb key k); constructor; try assumption.
  - unfold entry_ok. simpl in *. repeat split; try assumption.
    apply Forall_app. split; [assumption | constructor; [exact Hr | constructor]].
  - unfold entry_ok. simpl in *. auto.
Qed.

End AppendReply.

Lemma add_replies_inv (source key : str) (existing : list str)
    (replies : list reply) (st : unique_state) :
  has_key key (unique_comments st) = true ->
  inv st -> inv (add_replies source key existing replies st).
Proof.
  revert st. induction replies as [|reply rest IH]; intros st Hkey Hinv;
    [exact Hinv|].
  cbn [add_replies].
  destruct (negb (is_empty (strip (reply_text reply)))
            && negb (mem (strip (reply_text reply)) existing)
            && (len (strip (reply_text reply)) >? 3)%Z) eqn:E.
  - apply andb_true_iff in E. destruct E as [_ Elen].
    rewrite Z.gtb_ltb in Elen. apply Z.ltb_lt in Elen.
    destruct Hinv as [Hk He Hc Hr]. apply IH.
    + cbn [unique_comments]. unfold has_key in *.
      rewrite append_reply_keys. exact Hkey.
    + constructor; cbn [unique_comments total_comments total_replies].
      * rewrite append_reply_keys. exact Hk.
      * apply append_reply_entries; [exact Elen | exact He].
      * rewrite append_reply_length. exact Hc.
      * rewrite append_reply_sum by exact Hkey. lia.
  - apply IH; assumption.
Qed.

Lemma sum_replies_add_entry (key : str) (e : unique_comment) (d : unique_dict) :
  uc_replies e = [] -> sum_replies (add_entry key e d) = sum_replies d.
Proof.
  intros He. unfold add_entry. induction d as [|[k e'] rest IH]; simpl.
  - rewrite He. reflexivity.
  - rewrite IH. reflexivity.
Qed.

Lemma add_comment_inv (source : str) (v : video) (c : comment)
    (st : unique_state) :
  inv st -> inv (add_comment source v c st).
Proof.
  intros Hinv. unfold add_comment.
  destruct (is_empty (strip (comment_text c))
            || (len (strip (comment_text c)) <? 3)%Z) eqn:E; [exact Hinv|].
  apply orb_false_iff in E. destruct E as [_ Elen]. apply Z.ltb_ge in Elen.
  destruct (has_key (strip (comment_text c)) (unique_comments st)) eqn:Ek;
    cbn [negb].
  - apply add_replies_inv; assumption.
  - destruct Hinv as [Hk He Hc Hr]. apply add_replies_inv.
    + cbn [unique_comments]. apply has_key_In. unfold add_entry.
      rewrite map_app. apply in_or_app. right. left. reflexivity.
    + constructor; cbn [unique_comments total_comments total_replies].
      * unfold add_entry. rewrite map_app. apply NoDup_app; [exact Hk | |].
        -- constructor; [intros [] | constructor].
        -- intros a Ha [<-|[]]. apply has_key_In in Ha. simpl in Ha.
           congruence.
      * unfold add_entry. apply Forall_app. split; [exact He|].
        constructor; [|constructor]. unfold entry_ok. simpl.
        repeat split; [exact Elen | constructor].
      * unfold add_entry. rewrite length_app. simpl. lia.
      * rewrite sum_replies_add_entry by reflexivity. exact Hr.
Qed.

Lemma fold_left_inv (A : Type) (f : unique_state -> A -> unique_state)
    (l : list A) (st : unique_state) :
  (forall st a, inv st -> inv (f st a)) -> inv st -> inv (fold_left f l st).
Proof.
  intros Hf. revert st. induction l as [|a l IH]; intros st H; simpl;
    [exact H | apply IH, Hf, H].
Qed.

Lemma add_video_inv (v : video) (st : unique_state) :
  inv st -> inv (add_video v st).
Proof.
  intros H. unfold add_video. apply fold_left_inv; [|exact H].
  intros st' c. apply add_comment_inv.
Qed.

Lemma final_state_inv (videos_data : list video) :
  inv (final_state videos_data).
Proof.
  apply fold_left_inv; [|exact inv_initial].
  intros st v. apply add_video_inv.
Qed.

Lemma unique_texts_keys (d : unique_dict) :
  Forall entry_ok d -> map uc_text (map snd d) = map fst d.
Proof.
  induction 1 as [|[k e] rest [H _] Hrest IH]; simpl; [reflexivity|].
  simpl in H. rewrite H, IH. reflexivity.
Qed.

Lemma count_stored_replies_dict (d : unique_dict) :
  count_stored_replies (map snd d) = sum_replies d.
Proof.
  induction d as [|[k e] rest IH]; simpl; [reflexivity | rewrite IH; reflexivity].
Qed.

(** *** Sample content *)

(** C1.  No two entries of the unique-comment list have the same text, the
    key being the trimmed text as it is: two texts that differ in
    surrounding whitespace give one entry, with the author of the first,
    and two texts that differ in letter case give two entries.  The replies
    of an entry are not kept distinct: a comment that comes with the same
    reply text twice gives an entry with that reply twice, because the
    reply texts already stored are read once before the replies of the
    comment are walked. *)
Theorem get_unique_comments_repeated_reply :
  (forall videos_data, NoDup (map uc_text (unique_of videos_data)))
  /\ map (fun e => (uc_author e, uc_text e))
       (unique_of [sample_video [sample_comment "ann" "Great video" [];
                                 sample_comment "bob" "Great video " []]])
     = [(py "ann", py "Great video")]
  /\ map uc_text
       (unique_of [sample_video [sample_comment "ann" "Great video" [];
                                 sample_comment "bob" "great video" []]])
     = [py "Great video"; py "great video"]
  /\ map (fun e => map ur_text (uc_replies e))
       (unique_of [sample_video
                     [sample_comment "ann" "Great video"
                        [sample_reply "bob" "thanks!";
                         sample_reply "cid" "thanks!"]]])
     = [[py "thanks!"; py "thanks!"]].
Proof.
  split; [|split; [|split]]; try (vm_compute; reflexivity).
  intros videos_data. unfold unique_of, get_unique_comments_unified.
  cbn [fst]. fold (final_state videos_data).
  destruct (final_state_inv videos_data) as [Hk He _ _].
  rewrite (unique_texts_keys He). exact Hk.
Qed.

(** C2.  A comment whose trimmed text has fewer than 3 characters leaves
    the unique set and the counters as they were, a reply whose trimmed text
    has at most 3 characters is passed over, and so every entry returned has
    a text of at least 3 characters, every stored reply has more than 3, and
    the two counts returned are the number of entries and the number of
    stored replies.  The comment [no] is left out and [wow] is kept; under a
    kept comment the reply [wow] is left out and [wow!] is kept. *)
Theorem short_texts_discarded :
  (forall source v c st,
     (len (strip (comment_text c)) < 3)%Z -> add_comment source v c st = st)
  /\ (forall source key existing r rest st,
        (len (strip (reply_text r)) <= 3)%Z ->
        add_replies source key existing (r :: rest) st
        = add_replies source key existing rest st)
  /\ (forall videos_data,
        let '(unique, total_comments, total_replies) :=
          get_unique_comments_unified videos_data in
        Forall (fun e =>
                  (3 <= len (uc_text e))%Z
                  /\ Forall (fun r => (3 < len (ur_text r))%Z) (uc_replies e))
          unique
        /\ total_comments = Z.of_nat (length unique)
        /\ total_replies = Z.of_nat (count_stored_replies unique))
  /\ run_on [sample_comment "ann" "no" [sample_reply "bob" "I agree"]]
     = ([], 0%Z, 0%Z)
  /\ map uc_text (fst (fst (run_on [sample_comment "ann" " wow " []])))
     = [py "wow"]
  /\ map (fun e => map ur_text (uc_replies e))
       (fst (fst (run_on [sample_comment "ann" "Great video"
                            [sample_reply "bob" "wow";
                             sample_reply "cid" "wow!"]])))
     = [[py "wow!"]].
Proof.
  split; [|split; [|split; [|split; [|split]]]];
    try (vm_compute; reflexivity).
  - intros source v c st H. unfold add_comment.
    apply Z.ltb_lt in H. rewrite H, orb_true_r. reflexivity.
  - intros source key existing r rest st H. cbn [add_replies].
    assert (E : (len (strip (reply_text r)) >? 3)%Z = false).
    { rewrite Z.gtb_ltb. apply Z.ltb_ge. exact H. }
    rewrite E, andb_false_r. reflexivity.
  - intros videos_data. unfold get_unique_comments_unified.
    fold (final_state videos_data).
    destruct (final_state_inv videos_data) as [_ He Hc Hr].
    split; [|split].
    + apply Forall_map. eapply Forall_impl; [|exact He].
      intros [k e] [H1 [H2 H3]]. simpl in *. rewrite H1. split; assumption.
    + rewrite length_map. exact Hc.
    + rewrite count_stored_replies_dict. exact Hr.
Qed.

(** The instance of C2 for the comment [no], which is not stored, on the
    empty state. *)
Lemma short_texts_discarded_witness :
  add_comment (py "youtube") (sample_video [])
    (sample_comment "ann" "no" [sample_reply "bob" "I agree"])
    initial_unique_state
  = initial_unique_state.
Proof.
  apply (proj1 short_texts_discarded). vm_compute. reflexivity.
Defined.

End UniqueComments.


(** ** fetch_all_comments_parallel *)
Module RetryLoop.

Import Samples Notions.
Import CommentFetcher.

Section Loop.

Variables (svc : services) (query : str) (target retries : Z).

(** With fuel for the attempts that remain the loop returns. *)
Lemma retry_loop_returns (fuel : nat) (st : loop_state) :
  (1 <= retries)%Z -> at_head target retries st ->
  (Z.to_nat (retries + 1 - ls_attempt st) <= fuel)%nat ->
  exists st', retry_loop svc query target retries fuel st = Some st'
              /\ at_exit target retries st'.
Proof.
  intros Hret. revert st.
  induction fuel as [|k IH]; intros st [Hshort Hatt Hbound Herr] Hfuel.
  - assert (Hlast : ls_attempt st = (retries + 1)%Z) by lia.
    unfold retry_loop.
    assert (E : (ls_attempt st <=? retries)%Z = false) by (apply Z.leb_gt; lia).
    rewrite E, andb_false_r. exists st. split; [reflexivity|].
    split; [apply Herr; lia|]. right. repeat split; [exact Hshort | exact Hlast | lia].
  - cbn [retry_loop]. fold (collected st).
    assert (E1 : (collected st <? target)%Z = true) by (apply Z.ltb_lt; exact Hshort).
    rewrite E1. cbn [andb].
    destruct (ls_attempt st <=? retries)%Z eqn:E2.
    + apply Z.leb_le in E2.
      fold (collected (attempt_once svc query st)).
      destruct (collected (attempt_once svc query st) >=? target)%Z eqn:E3.
      * exists (attempt_once svc query st). split; [reflexivity|].
        split; [discriminate|]. left.
        rewrite Z.geb_leb in E3. apply Z.leb_le in E3.
        cbn [attempt_once ls_attempt ls_passes]. repeat split; try lia.
      * rewrite Z.geb_leb in E3. apply Z.leb_gt in E3.
        apply IH.
        -- constructor; cbn [next_attempt attempt_once ls_attempt ls_passes ls_errors].
           ++ exact E3.
           ++ lia.
           ++ lia.
           ++ intros _. discriminate.
        -- cbn [next_attempt attempt_once ls_attempt]. lia.
    + apply Z.leb_gt in E2. exists st. split; [reflexivity|].
      split; [apply Herr; lia|]. right. repeat split; [exact Hshort | lia | lia].
Qed.

End Loop.

Lemma initial_at_head (target retries : Z) :
  (0 < target)%Z -> (1 <= retries)%Z ->
  at_head target retries initial_loop_state.
Proof.
  intros Ht Hr. constructor; simpl; try lia. unfold collected. simpl. lia.
Qed.

(** C3.  For a positive target and at least one retry the call returns
    after [k] passes of the loop body, with [k] between 1 and the number of
    retries.  When the retries are used up without reaching the target,
    [attempts_made] is [k].  When the target is reached, the loop is left
    before [attempt] is incremented and [attempts_made] is [k - 1]: with a
    target of 1 met by the first attempt, one attempt is made and
    [attempts_made] is 0. *)
Theorem attempts_made_early_exit :
  (forall config_target config_retries svc query target retries,
     (0 < target)%Z -> (1 <= retries)%Z ->
     exists result k,
       fetch_all_comments_parallel config_target config_retries svc query
         (Some target) (Some retries) = Some result
       /\ passes_made config_target config_retries svc query
            (Some target) (Some retries) = Some k
       /\ (1 <= Z.of_nat k <= retries)%Z
       /\ (fr_target_achieved result = true ->
           fr_attempts_made result = (Z.of_nat k - 1)%Z)
       /\ (fr_target_achieved result = false ->
           fr_attempts_made result = Z.of_nat k /\ Z.of_nat k = retries))
  /\ (option_map fr_attempts_made
        (fetch_all_comments_parallel 50000 3 one_comment_services (py "cats")
           (Some 1%Z) (Some 3%Z)) = Some 0%Z
      /\ passes_made 50000 3 one_comment_services (py "cats")
           (Some 1%Z) (Some 3%Z) = Some 1%nat).
Proof.
  split; [|split; vm_compute; reflexivity].
  intros config_target config_retries svc query target retries Ht Hr.
  destruct (@retry_loop_returns svc query target retries
              (Z.to_nat retries) initial_loop_state Hr
              (initial_at_head Ht Hr)) as [st [Hrun [Herr Hexit]]].
  { simpl. lia. }
  unfold fetch_all_comments_parallel, passes_made, run_retry_loop.
  cbn [get_or]. rewrite Hrun.
  destruct (ls_errors st) as [errors|] eqn:Ee; [|contradiction Herr; reflexivity].
  eexists. exists (ls_passes st). split; [reflexivity|].
  split; [reflexivity|]. cbn [fr_target_achieved fr_attempts_made].
  unfold collected in Hexit.
  destruct Hexit as [[H1 [H2 H3]]|[H1 [H2 H3]]].
  - split; [lia|]. split; [intros _; lia|].
    intros H. rewrite Z.geb_leb in H. apply Z.leb_gt in H. lia.
  - split; [lia|]. split; [|intros _; lia].
    intros H. rewrite Z.geb_leb in H. apply Z.leb_le in H. lia.
Qed.

(** The instance of C3 for a target of 1 and three retries. *)
Lemma attempts_made_early_exit_witness :
  (0 < 1)%Z /\ (1 <= 3)%Z
  /\ exists result k,
       fetch_all_comments_parallel 50000 3 one_comment_services (py "cats")
         (Some 1%Z) (Some 3%Z) = Some result
       /\ passes_made 50000 3 one_comment_services (py "cats")
            (Some 1%Z) (Some 3%Z) = Some k
       /\ (1 <= Z.of_nat k <= 3)%Z
       /\ (fr_target_achieved result = true ->
           fr_attempts_made result = (Z.of_nat k - 1)%Z)
       /\ (fr_target_achieved result = false ->
           fr_attempts_made result = Z.of_nat k /\ Z.of_nat k = 3%Z).
Proof.
  split; [lia|]. split; [lia|].
  apply (proj1 attempts_made_early_exit 50000%Z 3%Z one_comment_services
           (py "cats") 1%Z 3%Z); lia.
Defined.

End RetryLoop.


(** ** The document saved by the search endpoint *)
Module SearchPersisted.

Import Samples Notions.
Import CommentFetcher.
Import SearchRoutes.
Import Database.

Section Fields.

Variables (st : stamp) (query : str) (videos_data : list video)
  (unique_comments : list unique_comment)
  (unique_count total_replies total_comments : Z) (sources : list str).

Let doc : document :=
  combined_data st query videos_data unique_comments unique_count
    total_replies total_comments sources.

Lemma combined_total_comments :
  get (py "total_comments") doc = VInt total_comments.
Proof. reflexivity. Qed.

Lemma combined_total_replies :
  get (py "total_replies") doc = VInt total_replies.
Proof. reflexivity. Qed.

Lemma combined_grand_total :
  get (py "grand_total") doc = VInt (total_comments + total_replies).
Proof. reflexivity. Qed.

Lemma combined_unique_comments :
  get (py "unique_comments") doc = VInt unique_count.
Proof. reflexivity. Qed.

Lemma combined_duplicates_removed :
  exists info,
    get (py "processing_info") doc = VDict info
    /\ get (py "duplicates_removed") info
       = VInt (total_comments - unique_count).
Proof. eexists. split; reflexivity. Qed.

End Fields.

Lemma save_unified_data_document (srv : server) (coll : list document)
    (st : stamp) (query : str) (videos_data : list video)
    (unique_comments : list unique_comment)
    (unique_count total_replies total_comments : Z) (sources : list str) :
  let doc := combined_data st query videos_data unique_comments unique_count
               total_replies total_comments sources in
  let r := save_unified_data srv coll st query videos_data unique_comments
             unique_count total_replies total_comments sources in
  snd (fst r) = doc /\ snd r = fst (save_search_result srv coll doc).
Proof.
  intros doc r. unfold r, save_unified_data. fold doc.
  destruct (save_search_result srv coll doc) as [coll' [id|]];
    split; reflexivity.
Qed.

(** The document of a request that reached the save, and the collection
    after the request. *)
Lemma search_combined_data (env : environment) (data : request)
    (doc : document) :
  so_combined_data (search env data) = Some doc ->
  let agg := search_aggregation env data in
  doc = combined_data (env_stamp env) (strip (get_or (req_query data) []))
          (ag_videos agg) (ag_unique_comments agg) (ag_unique_count agg)
          (ag_total_processed_replies agg) (ag_grand_total agg)
          [py "youtube"; py "reddit"]
  /\ so_collection (search env data)
     = fst (save_search_result (env_server env) (env_collection env) doc).
Proof.
  unfold search. fold (search_variations env data).
  destruct (Helpers.validate_query (strip (get_or (req_query data) [])))
    as [is_valid message].
  destruct is_valid; cbn [negb]; [|discriminate].
  destruct (search_variations env data) as [|v vs] eqn:Ev; [discriminate|].
  set (agg := search_aggregation env data).
  assert (Hagg : fetch_multiple_queries_aggregated (env_config_target env)
                   (env_config_retries env) (env_services env) (v :: vs)
                   (Some (get_or (req_target_comments data) 50000%Z)) = agg).
  { unfold agg, search_aggregation. rewrite Ev. reflexivity. }
  rewrite Hagg.
  destruct (ag_videos agg) as [|video videos] eqn:Evid; [discriminate|].
  destruct (save_unified_data_document (env_server env) (env_collection env)
              (env_stamp env) (strip (get_or (req_query data) []))
              (video :: videos) (ag_unique_comments agg) (ag_unique_count agg)
              (ag_total_processed_replies agg) (ag_grand_total agg)
              [py "youtube"; py "reddit"]) as [Hdoc Hcoll].
  destruct (save_unified_data _ _ _ _ _ _ _ _ _ _) as [[saved combined] coll'].
  cbn [so_combined_data so_collection]. cbn [fst snd] in Hdoc, Hcoll.
  intros H. injection H as <-. subst combined. split; [reflexivity | exact Hcoll].
Qed.

(** C10.  The search endpoint hands the grand total of the aggregation to
    [save_unified_data] as its total of comments.  In the document it saves,
    with [pc] the processed comments and [pr] the processed replies of the
    aggregation: [total_comments] is [pc + pr], [grand_total] is
    [pc + 2 * pr], and [duplicates_removed] is [pc + pr] less the number of
    unique comments.  When the database is connected and accepts the
    document, it is the document added to the collection. *)
Theorem search_saves_grand_total (env : environment) (data : request)
    (doc : document) :
  so_combined_data (search env data) = Some doc ->
  let agg := search_aggregation env data in
  let pc := ag_total_processed_comments agg in
  let pr := ag_total_processed_replies agg in
  get (py "total_comments") doc = VInt (pc + pr)
  /\ get (py "total_replies") doc = VInt pr
  /\ get (py "grand_total") doc = VInt (pc + 2 * pr)
  /\ get (py "unique_comments") doc = VInt (ag_unique_count agg)
  /\ (exists info,
       get (py "processing_info") doc = VDict info
       /\ get (py "duplicates_removed") info
          = VInt (pc + pr - ag_unique_count agg))
  /\ (connect (env_server env) = true ->
      rejects (env_server env) (env_collection env) doc = None ->
      so_collection (search env data) = env_collection env ++ [doc]).
Proof.
  intros H agg pc pr.
  destruct (search_combined_data env data H) as [Hdoc Hcoll].
  assert (Hsaved : connect (env_server env) = true ->
            rejects (env_server env) (env_collection env) doc = None ->
            so_collection (search env data) = env_collection env ++ [doc]).
  { intros Hc Hr. rewrite Hcoll. unfold save_search_result, insert_one.
    rewrite Hc, Hr. reflexivity. }
  revert Hsaved. generalize (so_collection (search env data)).
  intros coll_after Hsaved. rewrite Hdoc in *. clear Hdoc Hcoll.
  fold agg. fold agg in Hsaved.
  assert (Hg : ag_grand_total agg = (pc + pr)%Z) by reflexivity.
  rewrite combined_total_comments, combined_total_replies,
    combined_grand_total, combined_unique_comments, Hg.
  split; [reflexivity|]. split; [reflexivity|].
  split; [f_equal; lia|]. split; [reflexivity|].
  destruct (combined_duplicates_removed (env_stamp env)
              (strip (get_or (req_query data) [])) (ag_videos agg)
              (ag_unique_comments agg) (ag_unique_count agg)
              (ag_total_processed_replies agg) (ag_grand_total agg)
              [py "youtube"; py "reddit"]) as [info [H1 H2]].
  split; [|exact Hsaved].
  exists info. rewrite Hg in H2. split; assumption.
Qed.

(** The instance of C10 for the sample request: two attempts, each with one
    comment and one reply. *)
Lemma search_saves_grand_total_witness :
  so_combined_data (search sample_environment sample_request)
  = Some sample_document
  /\ get (py "total_comments") sample_document = VInt 4
  /\ get (py "grand_total") sample_document = VInt 6.
Proof.
  assert (H : so_combined_data (search sample_environment sample_request)
              = Some sample_document) by (vm_compute; reflexivity).
  split; [exact H|].
  destruct (search_saves_grand_total sample_environment sample_request H)
    as [H1 [_ [H3 _]]].
  split; [rewrite H1 | rewrite H3]; vm_compute; reflexivity.
Defined.

End SearchPersisted.


(** ** chunk_list *)
Module ChunkList.

Import Samples Notions.
Import Helpers.

Lemma firstn_plus (A : Type) (a b : nat) (l : list A) :
  firstn (a + b) l = firstn a l ++ firstn b (skipn a l).
Proof.
  revert l. induction a as [|a IH]; intros l; [reflexivity|].
  destruct l as [|x l]; simpl.
  - rewrite firstn_nil. reflexivity.
  - rewrite IH. reflexivity.
Qed.

Lemma firstn_min_length (A : Type) (a : nat) (l : list A) :
  firstn (Nat.min a (length l)) l = firstn a l.
Proof.
  destruct (Nat.le_ge_cases a (length l)) as [H|H].
  - rewrite Nat.min_l by exact H. reflexivity.
  - rewrite Nat.min_r by exact H. rewrite firstn_all, firstn_all2 by exact H.
    reflexivity.
Qed.

Lemma concat_pieces (A : Type) (k : nat) (l : list A) (m : nat) :
  concat (pieces k l m) = firstn (m * k) l.
Proof.
  unfold pieces. induction m as [|m IH]; [reflexivity|].
  rewrite seq_S, map_app, concat_app, IH. simpl.
  rewrite app_nil_r, Nat.add_comm, firstn_plus. reflexivity.
Qed.

Lemma slice_piece (A : Type) (k i : nat) (l : list A) :
  (i * k < length l)%nat ->
  slice (0 + Z.of_nat i * Z.of_nat k) (0 + Z.of_nat i * Z.of_nat k + Z.of_nat k) l
  = firstn k (skipn (i * k) l).
Proof.
  intros H. unfold slice, clamp.
  assert (E1 : (0 + Z.of_nat i * Z.of_nat k <? 0)%Z = false)
    by (apply Z.ltb_ge; lia).
  assert (E2 : (0 + Z.of_nat i * Z.of_nat k + Z.of_nat k <? 0)%Z = false)
    by (apply Z.ltb_ge; lia).
  rewrite E1, E2.
  replace (Z.to_nat (0 + Z.of_nat i * Z.of_nat k)) with (i * k)%nat by lia.
  replace (Z.to_nat (0 + Z.of_nat i * Z.of_nat k + Z.of_nat k))
    with (i * k + k)%nat by lia.
  rewrite (Nat.min_l (i * k)) by lia.
  rewrite <- (firstn_min_length k (skipn (i * k) l)), length_skipn.
  f_equal. lia.
Qed.

Lemma chunk_count_bounds (n k : nat) :
  (0 < k)%nat ->
  (n <= chunk_count n k * k)%nat
  /\ (forall i, (i < chunk_count n k)%nat -> (i * k < n)%nat).
Proof.
  intros Hk. destruct n as [|n]; simpl; [split; [lia | intros i H; lia]|].
  pose proof (Nat.div_mod_eq n k) as Hd.
  pose proof (Nat.mod_upper_bound n k ltac:(lia)) as Hm.
  split; [nia|]. intros i Hi. nia.
Qed.

Lemma chunk_list_pieces (A : Type) (lst : list A) (chunk_size : Z) :
  (0 < chunk_size)%Z ->
  chunk_list lst chunk_size
  = Some (pieces (Z.to_nat chunk_size) lst
            (chunk_count (length lst) (Z.to_nat chunk_size))).
Proof.
  intros Hk. unfold chunk_list, py_range.
  assert (E0 : (chunk_size =? 0)%Z = false) by (apply Z.eqb_neq; lia).
  assert (E1 : (0 <? chunk_size)%Z = true) by (apply Z.ltb_lt; lia).
  rewrite E0, E1. f_equal.
  set (k := Z.to_nat chunk_size).
  assert (Hkz : chunk_size = Z.of_nat k) by (unfold k; lia).
  assert (Hcount :
    Z.to_nat (if (0 <? Z.of_nat (length lst))%Z
              then ((Z.of_nat (length lst) - 0 - 1) / chunk_size + 1)%Z
              else 0%Z)
    = chunk_count (length lst) k).
  { destruct (length lst) as [|n]; [reflexivity|].
    assert (E : (0 <? Z.of_nat (S n))%Z = true) by (apply Z.ltb_lt; lia).
    rewrite E. simpl chunk_count.
    replace (Z.of_nat (S n) - 0 - 1)%Z with (Z.of_nat n) by lia.
    rewrite Hkz, <- Nat2Z.inj_div. lia. }
  rewrite Hcount. unfold pieces. rewrite map_map.
  apply map_ext_in. intros i Hi. apply in_seq in Hi.
  rewrite Hkz. apply slice_piece.
  apply (proj2 (@chunk_count_bounds (length lst) k ltac:(lia))). lia.
Qed.

(** X1.  For a positive chunk size the chunks, joined in order, give back
    the list; the chunk numbered [i] holds the [chunk_size] elements from
    position [i * chunk_size] on, or those that are left; no chunk is empty
    or longer than [chunk_size], and every chunk but the last has exactly
    [chunk_size] elements. *)
Theorem chunk_list_concat (A : Type) (lst : list A) (chunk_size : Z) :
  (0 < chunk_size)%Z ->
  exists chunks,
    chunk_list lst chunk_size = Some chunks
    /\ concat chunks = lst
    /\ forall i c,
         nth_error chunks i = Some c ->
         c = firstn (Z.to_nat chunk_size) (skipn (i * Z.to_nat chunk_size) lst)
         /\ (1 <= Z.of_nat (length c) <= chunk_size)%Z
         /\ ((S i < length chunks)%nat -> Z.of_nat (length c) = chunk_size).
Proof.
  intros Hk. set (k := Z.to_nat chunk_size).
  assert (Hk' : (0 < k)%nat) by (unfold k; lia).
  destruct (@chunk_count_bounds (length lst) k Hk') as [Hall Hin].
  exists (pieces k lst (chunk_count (length lst) k)).
  split; [apply chunk_list_pieces, Hk|].
  split.
  { rewrite concat_pieces. apply firstn_all2. exact Hall. }
  intros i c Hc. unfold pieces in Hc.
  assert (Hi : (i < chunk_count (length lst) k)%nat).
  { assert (Hn : nth_error (map (fun i => firstn k (skipn (i * k) lst))
                              (seq 0 (chunk_count (length lst) k))) i <> None)
      by (rewrite Hc; discriminate).
    apply nth_error_Some in Hn. rewrite length_map, length_seq in Hn.
    exact Hn. }
  rewrite nth_error_map, nth_error_seq in Hc.
  apply Nat.ltb_lt in Hi. rewrite Hi in Hc. apply Nat.ltb_lt in Hi.
  simpl in Hc. injection Hc as <-.
  split; [reflexivity|].
  specialize (Hin i Hi).
  rewrite length_firstn, length_skipn. split; [lia|].
  unfold pieces. rewrite length_map, length_seq. intros Hnext.
  pose proof (@chunk_count_bounds (length lst) k Hk') as [_ Hin'].
  specialize (Hin' (S i) Hnext). simpl in Hin'. lia.
Qed.

(** The instance of X1 for seven numbers in chunks of three. *)
Lemma chunk_list_concat_witness :
  (0 < 3)%Z
  /\ exists chunks,
       chunk_list [1; 2; 3; 4; 5; 6; 7]%nat 3 = Some chunks
       /\ concat chunks = [1; 2; 3; 4; 5; 6; 7]%nat.
Proof.
  split; [lia|].
  destruct (@chunk_list_concat nat [1; 2; 3; 4; 5; 6; 7]%nat 3 ltac:(lia))
    as [chunks [H1 [H2 _]]].
  exists chunks. split; assumption.
Defined.

(** X2.  A chunk size of zero makes the call raise, and a negative chunk
    size gives no chunk at all, whatever the list holds. *)
Theorem chunk_list_not_positive (A : Type) (lst : list A) (chunk_size : Z) :
  (chunk_size = 0%Z -> chunk_list lst chunk_size = None)
  /\ ((chunk_size < 0)%Z -> chunk_list lst chunk_size = Some []).
Proof.
  split.
  - intros ->. reflexivity.
  - intros H. unfold chunk_list, py_range.
    assert (E0 : (chunk_size =? 0)%Z = false) by (apply Z.eqb_neq; lia).
    assert (E1 : (0 <? chunk_size)%Z = false) by (apply Z.ltb_ge; lia).
    assert (E2 : (Z.of_nat (length lst) <? 0)%Z = false) by (apply Z.ltb_ge; lia).
    rewrite E0, E1, E2. reflexivity.
Qed.

(** The instance of X2 for a chunk size of -2. *)
Lemma chunk_list_not_positive_witness :
  chunk_list [1; 2; 3]%nat (-2) = Some [].
Proof.
  apply (proj2 (chunk_list_not_positive [1; 2; 3]%nat (-2))). lia.
Defined.

End ChunkList.


(** ** More facts about the string operations *)
Module PyStrMore.

Import Samples Notions.

Local Arguments Ascii.eqb : simpl never.

(** [replace] of a one-character [old], read one character at a time. *)
Lemma replace_char_cons (old : ascii) (new : str) (c : ascii) (t : str) :
  replace [old] new (c :: t)
  = if (old =? c)%char then new ++ replace [old] new t
    else c :: replace [old] new t.
Proof.
  unfold replace. cbn [replace_from startswith length Nat.sub].
  rewrite andb_true_r. reflexivity.
Qed.

Lemma replace_char_absent (old : ascii) (new s : str) :
  ~ In old s -> replace [old] new s = s.
Proof.
  induction s as [|c t IH]; intros H; [reflexivity|].
  rewrite replace_char_cons.
  destruct (old =? c)%char eqn:E.
  - apply Ascii.eqb_eq in E. exfalso. apply H. left. symmetry. exact E.
  - rewrite IH; [reflexivity|]. intros Hin. apply H. right. exact Hin.
Qed.

Lemma filter_replace_char (f : ascii -> bool) (old : ascii) (new s : str) :
  f old = false -> forallb (fun c => negb (f c)) new = true ->
  filter f (replace [old] new s) = filter f s.
Proof.
  intros Hold Hnew.
  assert (Hf : filter f new = []).
  { clear -Hnew. induction new as [|c t IH]; [reflexivity|].
    simpl in *. apply andb_true_iff in Hnew. destruct Hnew as [H1 H2].
    apply negb_true_iff in H1. rewrite H1. apply IH, H2. }
  induction s as [|c t IH]; [reflexivity|].
  rewrite replace_char_cons. destruct (old =? c)%char eqn:E.
  - apply Ascii.eqb_eq in E. subst c.
    rewrite filter_app, Hf, IH. simpl. rewrite Hold. reflexivity.
  - simpl. rewrite IH. reflexivity.
Qed.

Lemma rstrip_by_app (p : ascii -> bool) (x y : str) :
  y <> [] -> rstrip_by p y = y -> rstrip_by p (x ++ y) = x ++ y.
Proof.
  intros Hy Hfix. induction x as [|c x IH]; [exact Hfix|].
  cbn [app rstrip_by]. rewrite IH.
  destruct (x ++ y) eqn:E; [|reflexivity].
  apply app_eq_nil in E. destruct E as [_ E]. contradiction.
Qed.

Lemma lstrip_by_head (p : ascii -> bool) (c : ascii) (t : str) :
  p c = false -> lstrip_by p (c :: t) = c :: t.
Proof. intros H. simpl. rewrite H. reflexivity. Qed.

Lemma strip_fixed (s : str) :
  lstrip_by isspace s = s -> rstrip_by isspace s = s -> strip s = s.
Proof. intros HL HR. unfold strip. rewrite HL. exact HR. Qed.

(** What [strip] returns has no whitespace at either end. *)
Lemma strip_ends (s : str) :
  lstrip_by isspace (strip s) = strip s
  /\ rstrip_by isspace (strip s) = strip s.
Proof.
  split; [|apply rstrip_by_idem].
  unfold strip.
  assert (H : forall u, lstrip_by isspace u = u ->
                        lstrip_by isspace (rstrip_by isspace u)
                        = rstrip_by isspace u).
  { intros [|c u] Hu; [reflexivity|].
    assert (Hc : isspace c = false).
    { simpl in Hu. destruct (isspace c) eqn:E; [|reflexivity].
      exfalso. assert (Hl : (length (lstrip_by isspace u) <= length u)%nat).
      { clear. induction u as [|d u IH]; simpl; [lia|].
        destruct (isspace d); simpl; lia. }
      rewrite Hu in Hl. simpl in Hl. lia. }
    cbn [rstrip_by]. destruct (rstrip_by isspace u).
    - rewrite Hc. apply lstrip_by_head, Hc.
    - apply lstrip_by_head, Hc. }
  apply H. induction s as [|c t IH]; [reflexivity|].
  simpl. destruct (isspace c) eqn:E; [exact IH|].
  simpl. rewrite E. reflexivity.
Qed.

Lemma strip_idem (s : str) : strip (strip s) = strip s.
Proof. destruct (strip_ends s) as [HL HR]. apply strip_fixed; assumption. Qed.

End PyStrMore.


(** ** clean_text and sanitize_for_api *)
Module CleanText.

Import Samples Notions.
Import Helpers PyStrMore.

Local Arguments Ascii.eqb : simpl never.

Lemma forallb_rev (f : ascii -> bool) (s : str) :
  forallb f (rev s) = forallb f s.
Proof.
  destruct (forallb f s) eqn:E.
  - rewrite forallb_forall in *. intros c Hc. apply E, in_rev, Hc.
  - apply not_true_iff_false. intros H. apply not_true_iff_false in E.
    apply E. rewrite forallb_forall in *. intros c Hc.
    apply H. rewrite <- in_rev. exact Hc.
Qed.

(** The pieces [str.split()] gives are words. *)
Lemma split_ws_from_words (s cur : str) :
  forallb (fun c => negb (isspace c)) cur = true ->
  Forall is_word (split_ws_from cur s).
Proof.
  revert cur. induction s as [|c t IH]; intros cur Hcur.
  - simpl. destruct cur as [|d cur']; [constructor|].
    constructor; [|constructor]. split.
    + intros H. apply (f_equal (@length ascii)) in H.
      rewrite length_rev in H. discriminate H.
    + rewrite forallb_rev. exact Hcur.
  - cbn [split_ws_from]. destruct (isspace c) eqn:E.
    + destruct cur as [|d cur']; [apply IH; reflexivity|].
      constructor; [|apply IH; reflexivity]. split.
      * intros H. apply (f_equal (@length ascii)) in H.
        rewrite length_rev in H. discriminate H.
      * rewrite forallb_rev. exact Hcur.
    + apply IH. simpl. rewrite E. exact Hcur.
Qed.

Lemma split_ws_words (s : str) : Forall is_word (split_ws s).
Proof. apply split_ws_from_words. reflexivity. Qed.

Lemma split_ws_from_app (w s cur : str) :
  forallb (fun c => negb (isspace c)) w = true ->
  split_ws_from cur (w ++ s) = split_ws_from (rev w ++ cur) s.
Proof.
  revert cur. induction w as [|c w IH]; intros cur H; [reflexivity|].
  simpl in H. apply andb_true_iff in H. destruct H as [Hc Hw].
  apply negb_true_iff in Hc.
  cbn [app split_ws_from]. rewrite Hc, (IH _ Hw). simpl.
  rewrite <- app_assoc. reflexivity.
Qed.

(** Splitting what was joined with single spaces gives the words back. *)
Lemma split_ws_join (ws : list str) :
  Forall is_word ws -> split_ws (join (py " ") ws) = ws.
Proof.
  induction 1 as [|w rest [Hne Hw] Hrest IH]; [reflexivity|].
  unfold split_ws in *. cbn [join]. destruct rest as [|r rs].
  - rewrite <- (app_nil_r w) at 1. rewrite split_ws_from_app by exact Hw.
    rewrite app_nil_r. simpl. destruct (rev w) eqn:E.
    + apply (f_equal (@rev ascii)) in E. rewrite rev_involutive in E.
      contradiction.
    + rewrite <- E, rev_involutive. reflexivity.
  - rewrite split_ws_from_app by exact Hw. rewrite app_nil_r.
    change (py " " ++ join (py " ") (r :: rs))
      with (" "%char :: join (py " ") (r :: rs)).
    cbn [split_ws_from]. change (isspace " ") with true. cbn iota.
    destruct (rev w) eqn:E.
    + apply (f_equal (@rev ascii)) in E. rewrite rev_involutive in E.
      contradiction.
    + rewrite <- E, rev_involutive, IH. reflexivity.
Qed.

Lemma join_nonempty (ws : list str) :
  ws <> [] -> Forall is_word ws -> join (py " ") ws <> [].
Proof.
  intros Hne H. destruct H as [|w rest [Hw _] Hrest]; [contradiction|].
  cbn [join]. destruct rest; [exact Hw|].
  intros E. apply app_eq_nil in E. destruct E as [E _]. contradiction.
Qed.

(** The only whitespace in the joined words is the space. *)
Lemma join_chars (ws : list str) :
  Forall is_word ws ->
  Forall (fun c => isspace c = false \/ c = " "%char) (join (py " ") ws).
Proof.
  induction 1 as [|w rest [_ Hw] Hrest IH]; [constructor|].
  assert (Hwc : Forall (fun c => isspace c = false \/ c = " "%char) w).
  { apply Forall_forall. intros c Hc. left.
    rewrite forallb_forall in Hw. apply negb_true_iff, Hw, Hc. }
  cbn [join]. destruct rest; [exact Hwc|].
  apply Forall_app. split; [exact Hwc|].
  apply Forall_app. split; [|exact IH].
  constructor; [right; reflexivity | constructor].
Qed.

Lemma join_ends (ws : list str) :
  Forall is_word ws ->
  lstrip_by isspace (join (py " ") ws) = join (py " ") ws
  /\ rstrip_by isspace (join (py " ") ws) = join (py " ") ws.
Proof.
  induction 1 as [|w rest [Hne Hw] Hrest [_ IH]]; [split; reflexivity|].
  assert (HL : forall x, lstrip_by isspace (w ++ x) = w ++ x).
  { intros x. destruct w as [|c w]; [contradiction Hne; reflexivity|].
    simpl in Hw. apply andb_true_iff in Hw. destruct Hw as [Hc _].
    apply negb_true_iff in Hc. apply lstrip_by_head, Hc. }
  cbn [join]. destruct rest as [|r rs].
  - split; [rewrite <- (app_nil_r w); apply HL | apply rstrip_by_id, Hw].
  - split; [apply HL|].
    rewrite app_assoc. apply rstrip_by_app; [|exact IH].
    apply join_nonempty; [discriminate | exact Hrest].
Qed.

(** The joined words pass the three replacements and the final [strip]
    unchanged. *)
Lemma joined_untouched (ws : list str) :
  Forall is_word ws ->
  let joined := join (py " ") ws in
  replace ["009"%char] (py " ")
    (replace ["013"%char] (py " ") (replace ["010"%char] (py " ") joined))
  = joined
  /\ strip joined = joined.
Proof.
  intros H joined. pose proof (join_chars H) as Hc. fold joined in Hc.
  assert (Habsent : forall c, isspace c = true -> c <> " "%char ->
                              ~ In c joined).
  { intros c H1 H2 Hin. rewrite Forall_forall in Hc.
    destruct (Hc c Hin) as [H3|H3]; congruence. }
  split.
  - rewrite (@replace_char_absent "010"), (@replace_char_absent "013"),
      (@replace_char_absent "009"); try reflexivity;
      apply Habsent; (reflexivity || discriminate).
  - destruct (join_ends H) as [HL HR]. apply strip_fixed; assumption.
Qed.

(** X3.  Without a maximal length, [clean_text] returns the words of the
    text (its maximal runs of non-whitespace characters) separated by
    single spaces: the three replacements and the final [strip] change
    nothing.  The words of the result are the words of the text, so
    cleaning a cleaned text changes nothing; a maximal length of 0 counts
    as none. *)
Theorem clean_text_words (text : str) :
  clean_text text None = join (py " ") (split_ws text)
  /\ split_ws (clean_text text None) = split_ws text
  /\ clean_text (clean_text text None) None = clean_text text None
  /\ clean_text text (Some 0%Z) = clean_text text None.
Proof.
  assert (H : forall t, clean_text t None = join (py " ") (split_ws t)).
  { intros t. unfold clean_text. destruct t as [|c t]; [reflexivity|].
    cbn [is_empty].
    destruct (joined_untouched (split_ws_words (c :: t))) as [H1 H2].
    rewrite H1. exact H2. }
  assert (Hs : split_ws (clean_text text None) = split_ws text).
  { rewrite H. apply split_ws_join, split_ws_words. }
  split; [apply H|]. split; [exact Hs|].
  split; [rewrite (H (clean_text text None)), Hs; symmetry; apply H|].
  reflexivity.
Qed.

(** X4.  With a maximal length [m] of at least 3: when the words joined by
    single spaces fit in [m] characters they are the result; otherwise the
    result is their first [m - 3] characters followed by three periods and
    has exactly [m] characters.  In both cases the result has at most [m]
    characters. *)
Theorem clean_text_max_length (text : str) (m : Z) :
  (3 <= m)%Z ->
  let joined := join (py " ") (split_ws text) in
  ((len joined <= m)%Z -> clean_text text (Some m) = joined)
  /\ ((len joined > m)%Z ->
      clean_text text (Some m) = firstn (Z.to_nat (m - 3)) joined ++ py "..."
      /\ len (clean_text text (Some m)) = m)
  /\ (len (clean_text text (Some m)) <= m)%Z.
Proof.
  intros Hm joined.
  assert (Hm0 : (m =? 0)%Z = false) by (apply Z.eqb_neq; lia).
  destruct text as [|c t].
  { unfold joined, len. simpl. split; [reflexivity|]. split; lia. }
  pose proof (split_ws_words (c :: t)) as Hw.
  destruct (joined_untouched Hw) as [H1 H2]. fold joined in H1, H2.
  assert (Hfit : (len joined <= m)%Z -> clean_text (c :: t) (Some m) = joined).
  { intros Hle. unfold clean_text. cbn [is_empty]. fold joined. rewrite H1.
    assert (E : (len joined >? m)%Z = false)
      by (rewrite Z.gtb_ltb; apply Z.ltb_ge; exact Hle).
    rewrite E, andb_false_r. exact H2. }
  assert (Hcut : (len joined > m)%Z ->
            clean_text (c :: t) (Some m)
            = firstn (Z.to_nat (m - 3)) joined ++ py "..."
            /\ len (clean_text (c :: t) (Some m)) = m).
  { intros Hgt. unfold clean_text. cbn [is_empty]. fold joined. rewrite H1.
    assert (E : (len joined >? m)%Z = true)
      by (rewrite Z.gtb_ltb; apply Z.ltb_lt; lia).
    rewrite E, Hm0. cbn [negb andb].
    rewrite slice_to_firstn by lia.
    assert (Hs : strip (firstn (Z.to_nat (m - 3)) joined ++ py "...")
                 = firstn (Z.to_nat (m - 3)) joined ++ py "...").
    { apply strip_fixed.
      - destruct (join_ends Hw) as [HL _]. fold joined in HL.
        destruct joined as [|d j]; [rewrite firstn_nil; reflexivity|].
        destruct (Z.to_nat (m - 3)); [reflexivity|].
        simpl in HL. simpl. destruct (isspace d) eqn:Ed; [|reflexivity].
        exfalso. assert (Hl : (length (lstrip_by isspace j) <= length j)%nat).
        { clear. induction j as [|e j IH]; simpl; [lia|].
          destruct (isspace e); simpl; lia. }
        rewrite HL in Hl. simpl in Hl. lia.
      - apply rstrip_by_app; [discriminate | reflexivity]. }
    rewrite Hs. split; [reflexivity|].
    unfold len in *. rewrite length_app, length_firstn. simpl. lia. }
  split; [exact Hfit|]. split; [exact Hcut|].
  destruct (Z.le_gt_cases (len joined) m) as [Hle|Hgt].
  - rewrite (Hfit Hle). exact Hle.
  - destruct (Hcut ltac:(lia)) as [_ Hl]. lia.
Qed.

(** The instance of X4 for a text of four words and a maximal length of 12. *)
Lemma clean_text_max_length_witness :
  (3 <= 12)%Z
  /\ (len (clean_text (py "  the   quick brown	fox ") (Some 12%Z)) <= 12)%Z.
Proof.
  split; [lia|].
  apply (@clean_text_max_length (py "  the   quick brown	fox ") 12). lia.
Defined.

(** X5.  [sanitize_for_api] returns the kept characters of the text,
    trimmed: escaping the quotes first has no effect, because the quotes
    and the backslashes put before them are not kept.  The result holds no
    double quote, single quote or backslash and has no whitespace at either
    end. *)
Theorem sanitize_for_api_filter (text : str) :
  sanitize_for_api text = strip (filter api_char text)
  /\ Forall (fun c => api_char c = true /\ quote_or_backslash c = false)
       (sanitize_for_api text)
  /\ strip (sanitize_for_api text) = sanitize_for_api text.
Proof.
  assert (H : sanitize_for_api text = strip (filter api_char text)).
  { unfold sanitize_for_api. destruct text as [|c t]; [reflexivity|].
    cbn [is_empty]. rewrite !filter_replace_char; reflexivity. }
  rewrite H. split; [reflexivity|]. split; [|apply strip_idem].
  apply Forall_strip. eapply Forall_impl; [|apply Forall_filter_true].
  intros c Hc. split; [exact Hc|]. revert Hc. all_chars c.
Qed.

End CleanText.


(** ** retry_on_failure and merge_dictionaries *)
Module RetryAndMerge.

Import Samples Notions.
Import Helpers.

Section Retry.

Variables A E : Type.
Variable none : A.
Variable func : nat -> call_outcome A E.
Variable max_retries : Z.

(** Passes whose calls raise a caught exception before the last attempt are
    followed by the next pass. *)
Lemma retry_from_skip (i remaining attempt : nat) :
  (forall j, (attempt <= j < attempt + i)%nat ->
             exists e, func j = CallRaises e) ->
  (Z.of_nat (attempt + i) <= max_retries)%Z ->
  retry_from none func max_retries (i + remaining) attempt
  = (fst (retry_from none func max_retries remaining (attempt + i)),
     (i + snd (retry_from none func max_retries remaining (attempt + i)))%nat).
Proof.
  revert attempt. induction i as [|i IH]; intros attempt Hfail Hmax.
  - rewrite Nat.add_0_r. simpl. apply surjective_pairing.
  - cbn [Nat.add retry_from].
    destruct (Hfail attempt ltac:(lia)) as [e He]. rewrite He.
    assert (E0 : (Z.of_nat attempt =? max_retries)%Z = false)
      by (apply Z.eqb_neq; lia).
    rewrite E0, IH.
    + replace (S attempt + i)%nat with (attempt + S i)%nat by lia. reflexivity.
    + intros j Hj. apply Hfail. lia.
    + lia.
Qed.

(** While passes remain up to the last attempt, the loop makes at least one
    call and no more calls than passes remain. *)
Lemma retry_from_calls (remaining attempt : nat) :
  (0 < remaining)%nat ->
  Z.of_nat (attempt + remaining) = (max_retries + 1)%Z ->
  (1 <= snd (retry_from none func max_retries remaining attempt)
   <= remaining)%nat.
Proof.
  revert attempt. induction remaining as [|r IH]; intros attempt Hpos Hsum;
    [lia|].
  cbn [retry_from]. destruct (func attempt) as [a|e|e].
  - simpl; lia.
  - destruct (Z.of_nat attempt =? max_retries)%Z eqn:E0.
    + simpl; lia.
    + apply Z.eqb_neq in E0.
      pose proof (IH (S attempt) ltac:(lia) ltac:(lia)) as H.
      destruct (retry_from none func max_retries r (S attempt)) as [res calls].
      simpl in *. lia.
  - simpl; lia.
Qed.

(** While passes remain up to the last attempt, the loop ends in a call:
    what it returns is what a call returned, and what it raises is what a
    call raised; it does not run out. *)
Lemma retry_from_ends (remaining attempt : nat) :
  (0 < remaining)%nat ->
  Z.of_nat (attempt + remaining) = (max_retries + 1)%Z ->
  exists i,
    (attempt <= i)%nat /\ (Z.of_nat i <= max_retries)%Z
    /\ (forall j, (attempt <= j < i)%nat -> exists e, func j = CallRaises e)
    /\ match fst (retry_from none func max_retries remaining attempt) with
       | WrapperReturns v => func i = CallReturns v
       | WrapperRaises e =>
           func i = CallRaisesOther e
           \/ (func i = CallRaises e /\ Z.of_nat i = max_retries)
       end.
Proof.
  revert attempt. induction remaining as [|r IH]; intros attempt Hpos Hsum;
    [lia|].
  cbn [retry_from]. destruct (func attempt) as [a|e|e] eqn:Ef.
  - exists attempt. cbn [fst].
    split; [lia|]. split; [lia|]. split; [intros j Hj; lia | exact Ef].
  - destruct (Z.of_nat attempt =? max_retries)%Z eqn:E0.
    + apply Z.eqb_eq in E0. exists attempt. cbn [fst].
      split; [lia|]. split; [lia|]. split; [intros j Hj; lia|].
      right. split; [exact Ef | exact E0].
    + apply Z.eqb_neq in E0.
      destruct (IH (S attempt) ltac:(lia) ltac:(lia))
        as [i [Hi [Hmax [Hfail Hend]]]].
      destruct (retry_from none func max_retries r (S attempt)) as [res calls].
      cbn [fst] in *. exists i.
      split; [lia|]. split; [exact Hmax|]. split; [|exact Hend].
      intros j Hj. destruct (Nat.eq_dec j attempt) as [->|Hne].
      * exists e. exact Ef.
      * apply Hfail. lia.
  - exists attempt. cbn [fst].
    split; [lia|]. split; [lia|]. split; [intros j Hj; lia|].
    left. exact Ef.
Qed.

End Retry.



Section Merge.

Variable V : Type.

Lemma dict_get_set (key k : str) (v : V) (d : pydict V) :
  dict_get key (dict_set k v d)
  = if str_eqb key k then Some v else dict_get key d.
Proof.
  induction d as [|[k' v'] rest IH]; simpl.
  - destruct (str_eqb key k); reflexivity.
  - destruct (str_eqb k k') eqn:E1; simpl.
    + apply str_eqb_eq in E1. subst k'.
      destruct (str_eqb key k); reflexivity.
    + rewrite IH. destruct (str_eqb key k') eqn:E2; [|reflexivity].
      apply str_eqb_eq in E2. subst k'.
      destruct (str_eqb key k) eqn:E3; [|reflexivity].
      apply str_eqb_eq in E3. subst k.
      assert (H : str_eqb key key = true) by (apply str_eqb_eq; reflexivity).
      congruence.
Qed.

Lemma dict_get_absent (key : str) (d : pydict V) :
  ~ In key (map fst d) -> dict_get key d = None.
Proof.
  induction d as [|[k v] rest IH]; intros H; [reflexivity|].
  simpl. destruct (str_eqb key k) eqn:E.
  - apply str_eqb_eq in E. exfalso. apply H. left. symmetry. exact E.
  - apply IH. intros Hin. apply H. right. exact Hin.
Qed.

Lemma dict_set_keys (k : str) (v : V) (d : pydict V) :
  map fst (dict_set k v d)
  = if CommentFetcher.mem k (map fst d) then map fst d else map fst d ++ [k].
Proof.
  induction d as [|[k' v'] rest IH]; [reflexivity|].
  unfold CommentFetcher.mem in *. simpl.
  destruct (str_eqb k k') eqn:E; simpl.
  - apply str_eqb_eq in E. subst k'. reflexivity.
  - rewrite IH. destruct (existsb (str_eqb k) (map fst rest)); reflexivity.
Qed.

Lemma dict_set_nodup (k : str) (v : V) (d : pydict V) :
  NoDup (map fst d) -> NoDup (map fst (dict_set k v d)).
Proof.
  intros H. rewrite dict_set_keys.
  destruct (CommentFetcher.mem k (map fst d)) eqn:E; [exact H|].
  apply NoDup_app; [exact H | constructor; [intros [] | constructor] |].
  intros a Ha [<-|[]]. apply UniqueComments.mem_In in Ha. congruence.
Qed.

Lemma dict_update_get (key : str) (d result : pydict V) :
  NoDup (map fst d) ->
  dict_get key (dict_update result d)
  = match dict_get key d with
    | Some v => Some v
    | None => dict_get key result
    end.
Proof.
  unfold dict_update. revert result.
  induction d as [|[k v] rest IH]; intros result Hd; [reflexivity|].
  inversion Hd as [|? ? Hk Hrest]; subst.
  cbn [fold_left fst snd]. rewrite (IH _ Hrest), dict_get_set.
  cbn [dict_get]. destruct (str_eqb key k) eqn:E; [|reflexivity].
  apply str_eqb_eq in E. subst k. rewrite (dict_get_absent _ _ Hk).
  reflexivity.
Qed.

Lemma dict_update_nodup (d result : pydict V) :
  NoDup (map fst result) -> NoDup (map fst (dict_update result d)).
Proof.
  unfold dict_update. revert result.
  induction d as [|[k v] rest IH]; intros result H; [exact H|].
  cbn [fold_left]. apply IH, dict_set_nodup, H.
Qed.

Lemma merge_from (key : str) (dicts : list (option (pydict V)))
    (result : pydict V) :
  Forall (@keys_once V) dicts ->
  NoDup (map fst result) ->
  let merged :=
    fold_left
      (fun result d =>
         match d with
         | Some d => dict_update result d
         | None => result
         end) dicts result in
  dict_get key merged
  = match latest key dicts with
    | Some v => Some v
    | None => dict_get key result
    end
  /\ NoDup (map fst merged).
Proof.
  intros Hd. revert result.
  induction Hd as [|d rest Hone Hrest IH]; intros result Hr; [split; auto|].
  cbn [fold_left latest].
  destruct d as [d|].
  - destruct (IH (dict_update result d) (@dict_update_nodup d result Hr))
      as [H1 H2].
    split; [|exact H2]. cbn zeta in H1. rewrite H1.
    destruct (latest key rest); [reflexivity|].
    apply dict_update_get. exact Hone.
  - destruct (IH result Hr) as [H1 H2]. split; [|exact H2].
    cbn zeta in H1. rewrite H1. destruct (latest key rest); reflexivity.
Qed.

End Merge.

(** X7.  For dictionaries that hold each key once, the merged dictionary
    gives for every key the value of the last argument that holds the key,
    and nothing for a key that no argument holds; arguments that are not
    dictionaries are passed over; the merged dictionary holds each key
    once. *)
Theorem merge_dictionaries_latest (V : Type)
    (dicts : list (option (pydict V))) :
  Forall (@keys_once V) dicts ->
  (forall key, dict_get key (merge_dictionaries dicts) = latest key dicts)
  /\ NoDup (map fst (merge_dictionaries dicts)).
Proof.
  intros H. split.
  - intros key.
    destruct (@merge_from V key dicts [] H ltac:(constructor)) as [H1 _].
    unfold merge_dictionaries. cbn zeta in H1. rewrite H1.
    destruct (latest key dicts); reflexivity.
  - destruct (@merge_from V [] dicts [] H ltac:(constructor)) as [_ H2].
    exact H2.
Qed.

(** The instance of X7 for two dictionaries around a value that is not a
    dictionary. *)
Lemma merge_dictionaries_latest_witness :
  dict_get (py "limit")
    (merge_dictionaries
       [Some [(py "limit", 10%Z); (py "page", 1%Z)]; None;
        Some [(py "limit", 50%Z)]])
  = Some 50%Z.
Proof.
  assert (H : Forall (@keys_once Z)
                [Some [(py "limit", 10%Z); (py "page", 1%Z)]; None;
                 Some [(py "limit", 50%Z)]]).
  { repeat constructor; simpl; intros H;
      repeat (destruct H as [H|H]; [discriminate H|]); exact H. }
  rewrite (proj1 (merge_dictionaries_latest H)). reflexivity.
Defined.

End RetryAndMerge.


(** ** More on get_unique_comments_unified *)
Module UniqueMore.

Import Samples Notions.
Import CommentFetcher UniqueComments.

Lemma fold_left_map (A B C : Type) (f : A -> C -> A) (g : B -> C)
    (l : list B) (a : A) :
  fold_left f (map g l) a = fold_left (fun a x => f a (g x)) l a.
Proof.
  revert a. induction l as [|x l IH]; intros a; [reflexivity | apply IH].
Qed.

Lemma fold_videos_items (videos_data : list video) (st : unique_state) :
  fold_left (fun st v => add_video v st) videos_data st
  = fold_left step (items_of videos_data) st.
Proof.
  revert st. induction videos_data as [|v vs IH]; intros st; [reflexivity|].
  unfold items_of. cbn [fold_left flat_map]. rewrite fold_left_app.
  fold (items_of vs). rewrite <- IH. f_equal.
  unfold add_video. rewrite fold_left_map. reflexivity.
Qed.

Lemma final_state_items (videos_data : list video) :
  final_state videos_data
  = fold_left step (items_of videos_data) initial_unique_state.
Proof. apply fold_videos_items. Qed.

(** *** Keys and entries without replies *)

Lemma append_reply_bases (key : str) (r : unique_reply) (d : unique_dict) :
  bases (append_reply key r d) = bases d.
Proof.
  unfold bases. induction d as [|[k e] rest IH]; [reflexivity|].
  simpl. destruct (str_eqb key k); simpl; [reflexivity|].
  rewrite IH. reflexivity.
Qed.

Lemma add_replies_skeleton (source key : str) (existing : list str)
    (replies : list reply) (st : unique_state) :
  keys (unique_comments (add_replies source key existing replies st))
  = keys (unique_comments st)
  /\ bases (unique_comments (add_replies source key existing replies st))
     = bases (unique_comments st).
Proof.
  revert st. induction replies as [|r rest IH]; intros st; [split; reflexivity|].
  cbn [add_replies].
  destruct (negb (is_empty (strip (reply_text r)))
            && negb (mem (strip (reply_text r)) existing)
            && (len (strip (reply_text r)) >? 3)%Z).
  - destruct (IH {| unique_comments :=
                      append_reply key
                        (new_reply source r (strip (reply_text r)))
                        (unique_comments st);
                    total_comments := total_comments st;
                    total_replies := (total_replies st + 1)%Z |}) as [H1 H2].
    cbn [unique_comments] in H1, H2.
    rewrite H1, H2. unfold keys. rewrite append_reply_keys, append_reply_bases.
    split; reflexivity.
  - apply IH.
Qed.

(** A comment adds at most one binding, at the end: for a text that is kept
    and has no binding yet. *)
Lemma add_comment_skeleton (source : str) (v : video) (c : comment)
    (st : unique_state) :
  let k := strip (comment_text c) in
  let fresh := kept_text k && negb (mem k (keys (unique_comments st))) in
  keys (unique_comments (add_comment source v c st))
  = keys (unique_comments st) ++ (if fresh then [k] else [])
  /\ bases (unique_comments (add_comment source v c st))
     = bases (unique_comments st)
       ++ (if fresh then [new_entry source v c k] else []).
Proof.
  intros k fresh. unfold add_comment. fold k. unfold fresh, kept_text.
  destruct (is_empty k || (len k <? 3)%Z); cbn [negb andb].
  - rewrite !app_nil_r. split; reflexivity.
  - unfold has_key. fold (keys (unique_comments st)).
    destruct (mem k (keys (unique_comments st))); cbn [negb].
    + rewrite !app_nil_r. apply add_replies_skeleton.
    + match goal with
      | |- context [add_replies ?s ?key ?ex ?rs ?st1] =>
          destruct (add_replies_skeleton s key ex rs st1) as [H1 H2]
      end.
      rewrite H1, H2. cbn [unique_comments]. unfold add_entry, keys, bases.
      rewrite !map_app. split; reflexivity.
Qed.

Lemma fold_step_bases (items : list (video * comment)) (st : unique_state) :
  bases (unique_comments (fold_left step items st))
  = bases (unique_comments st)
    ++ first_entries (keys (unique_comments st)) items.
Proof.
  revert st. induction items as [|[v c] rest IH]; intros st.
  - simpl. rewrite app_nil_r. reflexivity.
  - cbn [fold_left first_entries]. rewrite IH. unfold step. cbn [fst snd].
    destruct (add_comment_skeleton (source_of v) v c st) as [H1 H2].
    cbn zeta in H1, H2. rewrite H1, H2.
    destruct (kept_text (strip (comment_text c))
              && negb (mem (strip (comment_text c))
                         (keys (unique_comments st)))).
    + rewrite <- app_assoc. reflexivity.
    + rewrite !app_nil_r. reflexivity.
Qed.

(** X8.  Leaving the replies aside, the unique comments are the first
    occurrences: walking the comments of the content items in order, one
    entry for each comment whose trimmed text has at least 3 characters and
    was not met before, in that order, with the author, likes, date,
    profile, source, title and forum of that first comment. *)
Theorem unique_comments_first_occurrences (videos_data : list video) :
  map base (unique_of videos_data) = first_entries [] (items_of videos_data).
Proof.
  unfold unique_of, get_unique_comments_unified. cbn [fst].
  fold (final_state videos_data). rewrite final_state_items.
  rewrite map_map. fold (bases (unique_comments
    (fold_left step (items_of videos_data) initial_unique_state))).
  rewrite fold_step_bases. reflexivity.
Qed.

(** *** Comments that add nothing *)

Lemma has_key_lookup (k : str) (d : unique_dict) :
  has_key k d = match lookup k d with Some _ => true | None => false end.
Proof.
  unfold has_key, mem. induction d as [|[k' e] rest IH]; [reflexivity|].
  simpl. destruct (str_eqb k k'); [reflexivity | exact IH].
Qed.

Lemma lookup_append_reply_same (k : str) (r : unique_reply) (d : unique_dict) :
  lookup k (append_reply k r d)
  = option_map (fun e => with_reply e r) (lookup k d).
Proof.
  induction d as [|[k' e] rest IH]; [reflexivity|].
  simpl. destruct (str_eqb k k') eqn:E; simpl; rewrite E; [reflexivity | exact IH].
Qed.

Lemma lookup_append_reply_other (k k' : str) (r : unique_reply)
    (d : unique_dict) :
  k' <> k -> lookup k' (append_reply k r d) = lookup k' d.
Proof.
  intros Hne. induction d as [|[k0 e] rest IH]; [reflexivity|].
  simpl. destruct (str_eqb k k0) eqn:E; simpl.
  - apply str_eqb_eq in E. subst k0.
    destruct (str_eqb k' k) eqn:E'; [|reflexivity].
    apply str_eqb_eq in E'. contradiction.
  - rewrite IH. reflexivity.
Qed.

Lemma lookup_add_entry (k k' : str) (e : unique_comment) (d : unique_dict) :
  lookup k (add_entry k' e d)
  = match lookup k d with
    | Some x => Some x
    | None => if str_eqb k k' then Some e else None
    end.
Proof.
  unfold add_entry. induction d as [|[k0 e0] rest IH]; [reflexivity|].
  simpl. destruct (str_eqb k k0); [reflexivity | exact IH].
Qed.

Lemma grows_refl (st : unique_state) : grows st st.
Proof. intros k e H. exists e. split; [exact H | apply incl_refl]. Qed.

Lemma grows_trans (st1 st2 st3 : unique_state) :
  grows st1 st2 -> grows st2 st3 -> grows st1 st3.
Proof.
  intros H12 H23 k e H. destruct (H12 k e H) as [e2 [H2 I2]].
  destruct (H23 k e2 H2) as [e3 [H3 I3]]. exists e3.
  split; [exact H3 | eapply incl_tran; eassumption].
Qed.

Lemma texts_with_reply (e : unique_comment) (r : unique_reply) :
  texts (with_reply e r) = texts e ++ [ur_text r].
Proof. unfold texts. simpl. apply map_app. Qed.

(** What the loop over the replies of a comment leaves under the key of the
    comment: the replies that were there, and the text of every reply of the
    comment that can be stored. *)
Lemma add_replies_absorbs (source key : str) (existing : list str)
    (replies : list reply) (st : unique_state) (e : unique_comment) :
  lookup key (unique_comments st) = Some e ->
  incl existing (texts e) ->
  exists e',
    lookup key (unique_comments
                  (add_replies source key existing replies st)) = Some e'
    /\ incl (texts e) (texts e')
    /\ forall r, In r replies -> kept_reply r = true ->
                 In (strip (reply_text r)) (texts e').
Proof.
  revert st e. induction replies as [|r rest IH]; intros st e Hl Hex.
  - exists e. split; [exact Hl|]. split; [apply incl_refl | intros r []].
  - cbn [add_replies].
    destruct (negb (is_empty (strip (reply_text r)))
              && negb (mem (strip (reply_text r)) existing)
              && (len (strip (reply_text r)) >? 3)%Z) eqn:E.
    + set (nr := new_reply source r (strip (reply_text r))).
      destruct (IH {| unique_comments :=
                        append_reply key nr (unique_comments st);
                      total_comments := total_comments st;
                      total_replies := (total_replies st + 1)%Z |}
                   (with_reply e nr)) as [e' [H1 [H2 H3]]].
      { cbn [unique_comments]. rewrite lookup_append_reply_same, Hl.
        reflexivity. }
      { rewrite texts_with_reply. apply incl_appl. exact Hex. }
      exists e'. split; [exact H1|].
      rewrite texts_with_reply in H2. split.
      * intros x Hx. apply H2, in_or_app. left. exact Hx.
      * intros r' [<-|Hr'] Hk; [|exact (H3 r' Hr' Hk)].
        apply H2, in_or_app. right. left. reflexivity.
    + destruct (IH st e Hl Hex) as [e' [H1 [H2 H3]]].
      exists e'. split; [exact H1|]. split; [exact H2|].
      intros r' [<-|Hr'] Hk; [|exact (H3 r' Hr' Hk)].
      unfold kept_reply in Hk. apply andb_true_iff in Hk.
      destruct Hk as [Hk1 Hk2]. rewrite Hk1, Hk2 in E. cbn [andb] in E.
      rewrite andb_true_r in E. apply negb_false_iff in E.
      apply mem_In in E. apply H2, Hex, E.
Qed.

Lemma add_replies_grows (source key : str) (existing : list str)
    (replies : list reply) (st : unique_state) :
  grows st (add_replies source key existing replies st).
Proof.
  revert st. induction replies as [|r rest IH]; intros st; [apply grows_refl|].
  cbn [add_replies].
  destruct (negb (is_empty (strip (reply_text r)))
            && negb (mem (strip (reply_text r)) existing)
            && (len (strip (reply_text r)) >? 3)%Z); [|apply IH].
  eapply grows_trans; [|apply IH].
  intros k e H. cbn [unique_comments].
  destruct (str_eq_dec k key) as [->|Hne].
  - rewrite lookup_append_reply_same, H. simpl. eexists. split; [reflexivity|].
    rewrite texts_with_reply. apply incl_appl, incl_refl.
  - rewrite lookup_append_reply_other by exact Hne.
    exists e. split; [exact H | apply incl_refl].
Qed.

Lemma add_comment_grows (source : str) (v : video) (c : comment)
    (st : unique_state) :
  grows st (add_comment source v c st).
Proof.
  unfold add_comment.
  destruct (is_empty (strip (comment_text c))
            || (len (strip (comment_text c)) <? 3)%Z); [apply grows_refl|].
  eapply grows_trans; [|apply add_replies_grows].
  destruct (negb (has_key (strip (comment_text c)) (unique_comments st)));
    [|apply grows_refl].
  intros k e H. cbn [unique_comments]. rewrite lookup_add_entry, H.
  exists e. split; [reflexivity | apply incl_refl].
Qed.

Lemma fold_step_grows (items : list (video * comment)) (st : unique_state) :
  grows st (fold_left step items st).
Proof.
  revert st. induction items as [|x rest IH]; intros st; [apply grows_refl|].
  cbn [fold_left]. eapply grows_trans; [apply add_comment_grows | apply IH].
Qed.

Lemma absorbed_grows (c : comment) (st st' : unique_state) :
  absorbed c st -> grows st st' -> absorbed c st'.
Proof.
  intros Habs Hg Hk. destruct (Habs Hk) as [e [H1 H2]].
  destruct (Hg _ _ H1) as [e' [H3 H4]]. exists e'. split; [exact H3|].
  intros r Hr Hkr. apply H4, H2; assumption.
Qed.

(** Once processed, a comment is absorbed. *)
Lemma add_comment_absorbs (source : str) (v : video) (c : comment)
    (st : unique_state) :
  absorbed c (add_comment source v c st).
Proof.
  intros Hk. unfold add_comment. unfold kept_text in Hk.
  apply negb_true_iff in Hk. rewrite Hk.
  set (k := strip (comment_text c)).
  set (st1 := if negb (has_key k (unique_comments st))
              then {| unique_comments :=
                        add_entry k (new_entry source v c k) (unique_comments st);
                      total_comments := (total_comments st + 1)%Z;
                      total_replies := total_replies st |}
              else st).
  assert (H1 : exists e, lookup k (unique_comments st1) = Some e).
  { unfold st1. rewrite has_key_lookup.
    destruct (lookup k (unique_comments st)) as [e|] eqn:E; cbn [negb].
    - exists e. exact E.
    - cbn [unique_comments]. rewrite lookup_add_entry, E.
      assert (Hkk : str_eqb k k = true) by (apply str_eqb_eq; reflexivity).
      rewrite Hkk. eexists. reflexivity. }
  destruct H1 as [e He]. rewrite He.
  destruct (@add_replies_absorbs source k (map ur_text (uc_replies e))
              (get_or (comment_replies c) []) st1 e He (incl_refl _))
    as [e' [H2 [_ H3]]].
  exists e'. split; [exact H2 | exact H3].
Qed.

Lemma add_replies_known (source key : str) (existing : list str)
    (replies : list reply) (st : unique_state) :
  (forall r, In r replies -> kept_reply r = true ->
             In (strip (reply_text r)) existing) ->
  add_replies source key existing replies st = st.
Proof.
  induction replies as [|r rest IH]; intros H; [reflexivity|].
  cbn [add_replies].
  assert (E : negb (is_empty (strip (reply_text r)))
              && negb (mem (strip (reply_text r)) existing)
              && (len (strip (reply_text r)) >? 3)%Z = false).
  { destruct (kept_reply r) eqn:Ek.
    - assert (Hm : mem (strip (reply_text r)) existing = true).
      { apply mem_In, H; [left; reflexivity | exact Ek]. }
      rewrite Hm, andb_false_r. reflexivity.
    - unfold kept_reply in Ek.
      destruct (negb (is_empty (strip (reply_text r)))); [|reflexivity].
      cbn [andb] in *. rewrite Ek. apply andb_false_r. }
  rewrite E. apply IH. intros r' Hr'. apply H. right. exact Hr'.
Qed.

(** An absorbed comment leaves the state as it is. *)
Lemma add_comment_absorbed (source : str) (v : video) (c : comment)
    (st : unique_state) :
  absorbed c st -> add_comment source v c st = st.
Proof.
  intros Habs. unfold add_comment.
  destruct (is_empty (strip (comment_text c))
            || (len (strip (comment_text c)) <? 3)%Z) eqn:Ek; [reflexivity|].
  destruct (Habs ltac:(unfold kept_text; rewrite Ek; reflexivity))
    as [e [H1 H2]].
  rewrite has_key_lookup, H1. cbn [negb]. rewrite H1.
  apply add_replies_known. exact H2.
Qed.

Lemma fold_step_absorbs (items : list (video * comment)) (st : unique_state) :
  forall x, In x items -> absorbed (snd x) (fold_left step items st).
Proof.
  revert st. induction items as [|y rest IH]; intros st x Hx; [contradiction|].
  cbn [fold_left]. destruct Hx as [<-|Hx]; [|apply IH, Hx].
  eapply absorbed_grows; [apply add_comment_absorbs | apply fold_step_grows].
Qed.

Lemma fold_step_absorbed (items : list (video * comment)) (st : unique_state) :
  (forall x, In x items -> absorbed (snd x) st) ->
  fold_left step items st = st.
Proof.
  induction items as [|y rest IH]; intros H; [reflexivity|].
  cbn [fold_left]. unfold step at 2.
  rewrite add_comment_absorbed by (apply H; left; reflexivity).
  apply IH. intros x Hx. apply H. right. exact Hx.
Qed.

Lemma In_items_of (videos_data : list video) (v : video) (c : comment) :
  In (v, c) (items_of videos_data)
  <-> In v videos_data /\ In c (video_comments v).
Proof.
  unfold items_of. rewrite in_flat_map. split.
  - intros [v' [Hv Hc]]. apply in_map_iff in Hc.
    destruct Hc as [c' [Heq Hc']]. injection Heq as <- <-. split; assumption.
  - intros [Hv Hc]. exists v. split; [exact Hv|].
    apply in_map_iff. exists c. split; [reflexivity | exact Hc].
Qed.

(** X9.  Content that repeats comments already walked adds nothing: when
    every comment of the items in [more] is a comment of an item in
    [videos_data], the result for [videos_data ++ more] is the result for
    [videos_data].  So the items that a retry fetches again leave the
    unique comments, their replies and both counts as they were. *)
Theorem repeated_content_adds_nothing (videos_data more : list video) :
  (forall v' c, In v' more -> In c (video_comments v') ->
                exists v, In v videos_data /\ In c (video_comments v)) ->
  get_unique_comments_unified (videos_data ++ more)
  = get_unique_comments_unified videos_data.
Proof.
  intros H. unfold get_unique_comments_unified.
  rewrite fold_left_app.
  assert (E : fold_left (fun st v => add_video v st) more
                (fold_left (fun st v => add_video v st) videos_data
                   initial_unique_state)
              = fold_left (fun st v => add_video v st) videos_data
                  initial_unique_state).
  { rewrite (fold_videos_items more). apply fold_step_absorbed.
    intros [v' c] Hx. cbn [snd]. apply In_items_of in Hx.
    destruct Hx as [Hv' Hc]. destruct (H v' c Hv' Hc) as [v [Hv Hcv]].
    rewrite fold_videos_items.
    apply (@fold_step_absorbs (items_of videos_data) initial_unique_state (v, c)).
    apply In_items_of. split; assumption. }
  rewrite E. reflexivity.
Qed.

(** The instance of X9 for a video fetched twice. *)
Lemma repeated_content_adds_nothing_witness :
  let v := sample_video
             [sample_comment "ann" "Great video"
                [sample_reply "bob" "thanks!"; sample_reply "cid" "thanks!"]] in
  get_unique_comments_unified ([v] ++ [v]) = get_unique_comments_unified [v].
Proof.
  intros v. apply repeated_content_adds_nothing.
  intros v' c Hv' Hc. exists v'. split; [exact Hv' | exact Hc].
Defined.

(** *** Bounds on the counts *)

Lemma add_replies_counts (source key : str) (existing : list str)
    (replies : list reply) (st : unique_state) :
  let st' := add_replies source key existing replies st in
  total_comments st' = total_comments st
  /\ (total_replies st <= total_replies st'
      <= total_replies st + Z.of_nat (length replies))%Z.
Proof.
  revert st. induction replies as [|r rest IH]; intros st; cbn zeta.
  - simpl. split; [reflexivity | lia].
  - cbn [add_replies].
    destruct (negb (is_empty (strip (reply_text r)))
              && negb (mem (strip (reply_text r)) existing)
              && (len (strip (reply_text r)) >? 3)%Z).
    + match goal with
      | |- context [add_replies _ _ _ rest ?s] =>
          destruct (IH s) as [H1 H2]
      end.
      cbn [total_comments total_replies] in H1, H2.
      split; [exact H1 | simpl length; lia].
    + destruct (IH st) as [H1 H2]. split; [exact H1 | simpl length; lia].
Qed.

Lemma add_comment_counts (source : str) (v : video) (c : comment)
    (st : unique_state) :
  let st' := add_comment source v c st in
  (total_comments st <= total_comments st' <= total_comments st + 1)%Z
  /\ (total_replies st <= total_replies st'
      <= total_replies st
         + Z.of_nat (length (get_or (comment_replies c) [])))%Z.
Proof.
  cbn zeta. unfold add_comment.
  destruct (is_empty (strip (comment_text c))
            || (len (strip (comment_text c)) <? 3)%Z); [split; lia|].
  match goal with
  | |- context [add_replies ?s ?k ?ex ?rs ?s1] =>
      destruct (add_replies_counts s k ex rs s1) as [H1 H2]
  end.
  cbn zeta in H1, H2. rewrite H1.
  destruct (negb (has_key (strip (comment_text c)) (unique_comments st)));
    cbn [total_comments total_replies] in *; split; lia.
Qed.

Lemma fold_step_counts (items : list (video * comment)) (st : unique_state) :
  let st' := fold_left step items st in
  (total_comments st <= total_comments st'
   <= total_comments st + Z.of_nat (length items))%Z
  /\ (total_replies st <= total_replies st'
      <= total_replies st + count_item_replies items)%Z.
Proof.
  revert st. induction items as [|[v c] rest IH]; intros st; cbn zeta.
  - simpl. split; lia.
  - cbn [fold_left]. destruct (IH (step st (v, c))) as [H1 H2].
    cbn zeta in H1, H2.
    change (step st (v, c)) with (add_comment (source_of v) v c st) in *.
    destruct (add_comment_counts (source_of v) v c st) as [H3 H4].
    cbn zeta in H3, H4.
    cbn [count_item_replies fold_right snd length].
    fold (count_item_replies rest). split; lia.
Qed.

Lemma count_replies_items (videos_data : list video) :
  count_replies videos_data = count_item_replies (items_of videos_data).
Proof.
  unfold count_replies, count_item_replies, items_of.
  induction videos_data as [|v vs IH]; [reflexivity|].
  cbn [fold_right flat_map]. rewrite fold_right_app, <- IH.
  generalize (fold_right
    (fun v0 acc =>
       fold_right
         (fun c acc' =>
            (Z.of_nat (length (get_or (comment_replies c) [])) + acc')%Z)
         acc (video_comments v0)) 0%Z vs).
  intros z. induction (video_comments v) as [|c cs IHc]; [reflexivity|].
  simpl. rewrite IHc. reflexivity.
Qed.

Lemma sum_comments_items (videos_data : list video) :
  sum_comments videos_data = Z.of_nat (count_comments videos_data).
Proof.
  unfold sum_comments, count_comments, items_of.
  induction videos_data as [|v vs IH]; [reflexivity|].
  cbn [fold_right flat_map]. rewrite length_app, length_map, IH. lia.
Qed.

Lemma final_state_counts (videos_data : list video) :
  (0 <= total_comments (final_state videos_data) <= sum_comments videos_data)%Z
  /\ (0 <= total_replies (final_state videos_data)
      <= count_replies videos_data)%Z.
Proof.
  rewrite final_state_items.
  destruct (fold_step_counts (items_of videos_data) initial_unique_state)
    as [H1 H2].
  cbn zeta in H1, H2.
  cbn [initial_unique_state total_comments total_replies] in H1, H2.
  rewrite sum_comments_items, count_replies_items. unfold count_comments.
  split; lia.
Qed.

(** X10.  The number of unique comments returned is at most the number of
    comments of the content items, and the number of stored replies at most
    the number of their replies; neither is negative. *)
Theorem unique_counts_bounded (videos_data : list video) :
  let '(unique, total_comments, total_replies) :=
    get_unique_comments_unified videos_data in
  (0 <= total_comments <= sum_comments videos_data)%Z
  /\ (0 <= total_replies <= count_replies videos_data)%Z
  /\ (Z.of_nat (length unique) <= sum_comments videos_data)%Z.
Proof.
  unfold get_unique_comments_unified. fold (final_state videos_data).
  destruct (final_state_inv videos_data) as [_ _ Hc _].
  destruct (final_state_counts videos_data) as [H1 H2].
  rewrite length_map, <- Hc.
  split; [exact H1|]. split; [exact H2 | lia].
Qed.

End UniqueMore.


(** ** More on fetch_all_comments_parallel *)
Module FetchTotals.

Import Samples Notions.
Import CommentFetcher RetryLoop.

Lemma sum_comments_app (a b : list video) :
  sum_comments (a ++ b) = (sum_comments a + sum_comments b)%Z.
Proof.
  unfold sum_comments. induction a as [|v a IH]; simpl; [reflexivity|].
  rewrite IH. lia.
Qed.

Lemma count_replies_app (a b : list video) :
  count_replies (a ++ b) = (count_replies a + count_replies b)%Z.
Proof.
  rewrite !UniqueMore.count_replies_items. unfold items_of, count_item_replies.
  rewrite flat_map_app, fold_right_app.
  generalize (flat_map (fun v => map (fun c => (v, c)) (video_comments v)) b).
  intros lb.
  induction (flat_map (fun v => map (fun c => (v, c)) (video_comments v)) a)
    as [|x la IH]; simpl; [reflexivity|].
  rewrite IH. lia.
Qed.

Lemma fetch_youtube_total (svc : services) (query : str) (attempt : Z) :
  result_total (fetch_youtube svc query attempt)
  = sum_comments (result_videos (fetch_youtube svc query attempt)).
Proof.
  unfold fetch_youtube.
  destruct (search_and_get_comments svc query _ _) as [e|[|v vs]]; reflexivity.
Qed.

Lemma fetch_reddit_total (svc : services) (query : str) (attempt : Z) :
  result_total (fetch_reddit svc query attempt)
  = sum_comments (result_videos (fetch_reddit svc query attempt)).
Proof.
  unfold fetch_reddit.
  destruct (get_comments_parallel svc query _) as [e|l]; [reflexivity|].
  cbn [result_total result_videos sr_total_comments sr_videos].
  unfold sum_comments. induction l as [|c l IH]; [reflexivity|].
  cbn [map fold_right length reddit_post video_comments].
  rewrite <- IH. simpl length. lia.
Qed.

Lemma result_source_names (name : str) (r : outcome source_result) :
  name = py "youtube" \/ name = py "reddit" ->
  Forall (fun s => s = py "youtube" \/ s = py "reddit") (result_source name r).
Proof.
  intros H. destruct r; simpl; [constructor | constructor; [exact H | constructor]].
Qed.

Lemma attempt_once_counted (svc : services) (query : str) (st : loop_state) :
  counted st -> counted (attempt_once svc query st).
Proof.
  intros [Hc Hr Hs Ha].
  constructor;
    cbn [attempt_once ls_total_comments ls_total_replies ls_all_videos
         ls_sources_used ls_attempt].
  - rewrite !sum_comments_app, Hc, fetch_youtube_total, fetch_reddit_total.
    lia.
  - rewrite !count_replies_app, Hr. lia.
  - apply Forall_app. split; [exact Hs|]. apply Forall_app.
    split; apply result_source_names; [left | right]; reflexivity.
  - exact Ha.
Qed.

Lemma next_attempt_counted (st : loop_state) :
  counted st -> counted (next_attempt st).
Proof.
  intros [Hc Hr Hs Ha]. constructor; simpl; try assumption. lia.
Qed.

Lemma retry_loop_counted (svc : services) (query : str) (target retries : Z)
    (fuel : nat) (st st' : loop_state) :
  retry_loop svc query target retries fuel st = Some st' ->
  counted st -> counted st'.
Proof.
  revert st. induction fuel as [|k IH]; intros st Hrun Hst.
  - cbn [retry_loop] in Hrun.
    destruct ((ls_total_comments st + ls_total_replies st <? target)%Z
              && (ls_attempt st <=? retries)%Z); [discriminate|].
    injection Hrun as <-. exact Hst.
  - cbn [retry_loop] in Hrun.
    destruct ((ls_total_comments st + ls_total_replies st <? target)%Z
              && (ls_attempt st <=? retries)%Z);
      [|injection Hrun as <-; exact Hst].
    destruct (ls_total_comments (attempt_once svc query st)
              + ls_total_replies (attempt_once svc query st) >=? target)%Z.
    + injection Hrun as <-. apply attempt_once_counted, Hst.
    + apply (IH _ Hrun). apply next_attempt_counted, attempt_once_counted, Hst.
Qed.

Lemma initial_counted : counted initial_loop_state.
Proof. constructor; simpl; try reflexivity; try constructor; lia. Qed.

(** What a call that returns gives, in terms of the final loop state. *)
Lemma fetch_result_state (config_target config_retries : Z) (svc : services)
    (query : str) (min_total_comments max_retries : option Z)
    (result : fetch_result) :
  fetch_all_comments_parallel config_target config_retries svc query
    min_total_comments max_retries = Some result ->
  exists st,
    counted st
    /\ fr_videos result = ls_all_videos st
    /\ fr_total_comments result = ls_total_comments st
    /\ fr_total_replies result = ls_total_replies st
    /\ fr_sources result = ls_sources_used st
    /\ fr_attempts_made result = (ls_attempt st - 1)%Z
    /\ fr_grand_total result = (ls_total_comments st + ls_total_replies st)%Z
    /\ fr_target_achieved result
       = (ls_total_comments st + ls_total_replies st
          >=? get_or min_total_comments config_target)%Z.
Proof.
  unfold fetch_all_comments_parallel, run_retry_loop.
  destruct (retry_loop svc query _ _ _ initial_loop_state) as [st|] eqn:Hrun;
    [|discriminate].
  destruct (ls_errors st) as [errors|]; [|discriminate].
  intros H. injection H as <-. exists st.
  split; [eapply retry_loop_counted; [exact Hrun | exact initial_counted]|].
  repeat split.
Qed.

(** X11.  When the call returns, its totals describe the content items it
    returns: [total_comments] is the number of their comments,
    [total_replies] the number of their replies, [grand_total] the sum of
    the two, and [target_achieved] tells whether that sum reaches the
    target.  Every source named is [youtube] or [reddit], and
    [attempts_made] is not negative. *)
Theorem fetch_totals_describe_videos
    (config_target config_retries : Z) (svc : services) (query : str)
    (min_total_comments max_retries : option Z) (result : fetch_result) :
  fetch_all_comments_parallel config_target config_retries svc query
    min_total_comments max_retries = Some result ->
  fr_total_comments result = sum_comments (fr_videos result)
  /\ fr_total_replies result = count_replies (fr_videos result)
  /\ fr_grand_total result
     = (sum_comments (fr_videos result) + count_replies (fr_videos result))%Z
  /\ (fr_target_achieved result = true <->
      (get_or min_total_comments config_target <= fr_grand_total result)%Z)
  /\ Forall (fun s => s = py "youtube" \/ s = py "reddit") (fr_sources result)
  /\ (0 <= fr_attempts_made result)%Z.
Proof.
  intros H.
  destruct (@fetch_result_state config_target config_retries svc query
              min_total_comments max_retries result H)
    as [st [[Hc Hr Hs Ha] [E1 [E2 [E3 [E4 [E5 [E6 E7]]]]]]]].
  rewrite E1, E2, E3, E4, E5, E6, E7, <- Hc, <- Hr.
  split; [reflexivity|]. split; [reflexivity|]. split; [reflexivity|].
  split; [rewrite Z.geb_leb; apply Z.leb_le|]. split; [exact Hs | lia].
Qed.

(** The instance of X11 for a target of 1 met by the first attempt. *)
Lemma fetch_totals_describe_videos_witness :
  exists result,
    fetch_all_comments_parallel 50000 3 one_comment_services (py "cats")
      (Some 1%Z) (Some 3%Z) = Some result
    /\ fr_total_comments result = sum_comments (fr_videos result).
Proof.
  destruct (fetch_all_comments_parallel 50000 3 one_comment_services
              (py "cats") (Some 1%Z) (Some 3%Z)) as [result|] eqn:E.
  - exists result. split; [reflexivity|].
    apply (proj1 (@fetch_totals_describe_videos 50000%Z 3%Z
                    one_comment_services (py "cats") (Some 1%Z) (Some 3%Z)
                    result E)).
  - vm_compute in E. discriminate E.
Defined.

(** X12.  The call raises exactly when the loop body never runs, that is
    when the target is not positive or no retry is allowed: the name
    [errors] that the result reads is bound in the loop body only. *)
Theorem fetch_raises_without_pass
    (config_target config_retries : Z) (svc : services) (query : str)
    (target retries : Z) :
  fetch_all_comments_parallel config_target config_retries svc query
    (Some target) (Some retries) = None
  <-> (target <= 0)%Z \/ (retries < 1)%Z.
Proof.
  split.
  - intros H.
    destruct (Z.le_gt_cases target 0) as [Ht|Ht]; [left; exact Ht|].
    destruct (Z.lt_ge_cases retries 1) as [Hr|Hr]; [right; exact Hr|].
    exfalso. assert (Ht' : (0 < target)%Z) by lia.
    destruct (@retry_loop_returns svc query target retries
                (Z.to_nat retries) initial_loop_state Hr
                (initial_at_head Ht' Hr)) as [st [Hrun [Herr _]]].
    { simpl. lia. }
    unfold fetch_all_comments_parallel, run_retry_loop in H.
    cbn [get_or] in H. rewrite Hrun in H.
    destruct (ls_errors st); [discriminate H | contradiction Herr; reflexivity].
  - intros H. unfold fetch_all_comments_parallel, run_retry_loop.
    cbn [get_or].
    assert (E : retry_loop svc query target retries (Z.to_nat retries)
                  initial_loop_state = Some initial_loop_state).
    { destruct (Z.to_nat retries); cbn [retry_loop];
        cbn [initial_loop_state ls_total_comments ls_total_replies ls_attempt];
        assert (E : ((0 + 0 <? target)%Z && (1 <=? retries)%Z) = false)
          by (apply andb_false_iff; destruct H as [H|H];
              [left; apply Z.ltb_ge; lia | right; apply Z.leb_gt; lia]);
        rewrite E; reflexivity. }
    rewrite E. reflexivity.
Qed.

End FetchTotals.


(** ** fetch_multiple_queries_aggregated *)
Module Aggregation.

Import Samples Notions.
Import CommentFetcher UniqueComments UniqueMore FetchTotals PyStrMore.

Lemma first_entries_trimmed (seen : list str) (items : list (video * comment)) :
  Forall (fun e => strip (uc_text e) = uc_text e) (first_entries seen items).
Proof.
  revert seen. induction items as [|[v c] rest IH]; intros seen; [constructor|].
  cbn [first_entries].
  destruct (kept_text (strip (comment_text c))
            && negb (mem (strip (comment_text c)) seen)); [|apply IH].
  constructor; [apply strip_idem | apply IH].
Qed.

(** The texts of the unique comments of a run are trimmed. *)
Lemma unique_of_trimmed (videos_data : list video) :
  Forall (fun e => strip (uc_text e) = uc_text e) (unique_of videos_data).
Proof.
  assert (H : Forall (fun e => strip (uc_text e) = uc_text e)
                (map base (unique_of videos_data))).
  { unfold unique_of, get_unique_comments_unified. cbn [fst].
    fold (final_state videos_data). rewrite final_state_items, map_map.
    fold (bases (unique_comments
      (fold_left step (items_of videos_data) initial_unique_state))).
    rewrite fold_step_bases. apply first_entries_trimmed. }
  apply Forall_map in H. exact H.
Qed.

Lemma merge_unique_ok (query_unique : list unique_comment) (d : unique_dict)
    (n : Z) :
  Forall (fun e => strip (uc_text e) = uc_text e) query_unique ->
  NoDup (keys d) ->
  Forall (fun ke => fst ke = uc_text (snd ke)) d ->
  let '(d', n') := merge_unique query_unique d n in
  NoDup (keys d')
  /\ Forall (fun ke => fst ke = uc_text (snd ke)) d'
  /\ (Z.of_nat (length d') - Z.of_nat (length d) = n' - n)%Z
  /\ (n <= n' <= n + Z.of_nat (length query_unique))%Z.
Proof.
  intros Htrim. revert d n.
  induction Htrim as [|e rest He Hrest IH]; intros d n Hk Ht.
  - simpl. repeat split; try assumption; lia.
  - cbn [merge_unique]. destruct (has_key (strip (uc_text e)) d) eqn:E;
      cbn [negb].
    + specialize (IH d n Hk Ht). destruct (merge_unique rest d n) as [d' n'].
      destruct IH as [H1 [H2 [H3 H4]]]. repeat split; try assumption.
      * lia.
      * simpl length. lia.
    + assert (Hk' : NoDup (keys (add_entry (strip (uc_text e)) e d))).
      { unfold keys, add_entry. rewrite map_app.
        apply NoDup_app; [exact Hk | constructor; [intros [] | constructor] |].
        intros a Ha [<-|[]]. apply has_key_In in Ha. simpl in Ha. congruence. }
      assert (Ht' : Forall (fun ke => fst ke = uc_text (snd ke))
                      (add_entry (strip (uc_text e)) e d)).
      { unfold add_entry. apply Forall_app. split; [exact Ht|].
        constructor; [exact He | constructor]. }
      specialize (IH _ (n + 1)%Z Hk' Ht').
      destruct (merge_unique rest (add_entry (strip (uc_text e)) e d) (n + 1))
        as [d' n'].
      destruct IH as [H1 [H2 [H3 H4]]]. repeat split; try assumption.
      * unfold add_entry in H3. rewrite length_app in H3. simpl in H3. lia.
      * lia.
      * simpl length. lia.
Qed.

Lemma with_failure_ok (report : query_report) (st : agg_state) :
  agg_ok st -> agg_ok (with_failure report st).
Proof.
  intros [H1 H2 H3 H4 H5 H6 H7 H8]. constructor; simpl; try assumption.
  - rewrite length_app. simpl. lia.
  - lia.
Qed.

Lemma initial_agg_ok : agg_ok initial_agg_state.
Proof.
  constructor; simpl; try reflexivity; try constructor; lia.
Qed.

(** The loop over the queries keeps [agg_ok]; it reports each query it
    processes once, and it processes every query unless the number of
    unique comments reaches the target. *)
Lemma aggregate_queries_ok (config_target config_retries : Z) (svc : services)
    (target query_count : Z) (queries : list str) (st : agg_state) :
  agg_ok st ->
  let st' := aggregate_queries config_target config_retries svc target
               query_count queries st in
  agg_ok st'
  /\ (length (query_results st')
      <= length (query_results st) + length queries)%nat
  /\ ((Z.of_nat (length (all_unique_comments st')) < target)%Z ->
      length (query_results st')
      = (length (query_results st) + length queries)%nat).
Proof.
  revert st. induction queries as [|query rest IH]; intros st Hst; cbn zeta.
  - simpl. split; [exact Hst | split; lia].
  - cbn [aggregate_queries].
    destruct (fetch_all_comments_parallel config_target config_retries svc
                query (Some (Z.max 5000 (target / query_count))) (Some 2%Z))
      as [query_result|] eqn:Ef.
    + destruct (fr_videos query_result) as [|v vs] eqn:Ev.
      * destruct (IH _ (with_failure_ok (QueryFailed query) Hst))
          as [H1 [H2 H3]].
        cbn [with_failure query_results] in H2, H3.
        rewrite length_app in H2, H3. simpl length in *.
        split; [exact H1|]. split; [lia | intros H; rewrite (H3 H); lia].
      * rewrite <- Ev.
        destruct (@fetch_result_state config_target config_retries svc query
                    (Some (Z.max 5000 (target / query_count))) (Some 2%Z)
                    query_result Ef)
          as [ls [[Hc Hr _ _] [E1 [E2 [E3 _]]]]].
        pose proof (unique_of_trimmed (fr_videos query_result)) as Htrim.
        pose proof (final_state_inv (fr_videos query_result)) as Hinv.
        pose proof (final_state_counts (fr_videos query_result)) as [Hcnt _].
        unfold unique_of in Htrim.
        destruct (get_unique_comments_unified (fr_videos query_result))
          as [[query_unique query_unique_count] query_replies] eqn:Eu.
        cbn [fst] in Htrim.
        assert (Hlen : (Z.of_nat (length query_unique)
                        <= fr_total_comments query_result)%Z).
        { unfold get_unique_comments_unified in Eu.
          fold (final_state (fr_videos query_result)) in Eu.
          injection Eu as <- _ _. rewrite length_map.
          rewrite <- (inv_comments Hinv), E2, Hc, <- E1. lia. }
        destruct Hst as [K1 K2 K3 K4 K5 K6 K7 K8].
        pose proof (@merge_unique_ok query_unique (all_unique_comments st) 0%Z
                      Htrim K1 K2) as Hm.
        destruct (merge_unique query_unique (all_unique_comments st) 0)
          as [merged new_unique_count].
        destruct Hm as [M1 [M2 [M3 M4]]].
        match goal with
        | |- context [if _ then ?s else _] => set (st1 := s)
        end.
        assert (Hst1 : agg_ok st1).
        { constructor; unfold st1;
            cbn [all_unique_comments all_videos_data total_processed_comments
                 total_processed_replies successful_queries failed_queries
                 query_results]; try assumption.
          - lia.
          - rewrite sum_comments_app, K4, E2, Hc, E1. reflexivity.
          - rewrite count_replies_app, K5, E3, Hr, E1. reflexivity.
          - rewrite length_app. simpl length. lia.
          - lia. }
        destruct (Z.of_nat (length merged) >=? target)%Z eqn:Et.
        -- rewrite Z.geb_leb in Et. apply Z.leb_le in Et.
           split; [exact Hst1|]. unfold st1 at 1 2. cbn [query_results].
           rewrite length_app. simpl length.
           split; [lia|]. unfold st1. cbn [all_unique_comments]. lia.
        -- destruct (IH _ Hst1) as [H1 [H2 H3]].
           unfold st1 at 2 in H2. unfold st1 at 3 in H3.
           cbn [query_results] in H2, H3. rewrite length_app in H2, H3.
           simpl length in *.
           split; [exact H1|]. split; [lia | intros H; rewrite (H3 H); lia].
    + destruct (IH _ (with_failure_ok (QueryError query) Hst)) as [H1 [H2 H3]].
      cbn [with_failure query_results] in H2, H3.
      rewrite length_app in H2, H3. simpl length in *.
      split; [exact H1|]. split; [lia | intros H; rewrite (H3 H); lia].
Qed.

(** X13.  In the result of the aggregation: [unique_count] is the number of
    unique comments; their texts are pairwise distinct; there are no more
    of them than processed comments; the processed totals are the numbers
    of comments and of replies of the collected content items; each
    processed query has one report, counted as successful or failed; and
    every query is processed unless the target is achieved. *)
Theorem aggregation_counts (config_target config_retries : Z)
    (svc : services) (queries : list str) (target : option Z) :
  let agg := fetch_multiple_queries_aggregated config_target config_retries
               svc queries target in
  ag_unique_count agg = Z.of_nat (length (ag_unique_comments agg))
  /\ NoDup (map uc_text (ag_unique_comments agg))
  /\ (ag_unique_count agg <= ag_total_processed_comments agg)%Z
  /\ ag_total_processed_comments agg = sum_comments (ag_videos agg)
  /\ ag_total_processed_replies agg = count_replies (ag_videos agg)
  /\ Z.of_nat (length (ag_query_results agg))
     = (ag_successful_queries agg + ag_failed_queries agg)%Z
  /\ (length (ag_query_results agg) <= length queries)%nat
  /\ (ag_target_achieved agg = false ->
      length (ag_query_results agg) = length queries).
Proof.
  intros agg. unfold agg, fetch_multiple_queries_aggregated.
  destruct (@aggregate_queries_ok config_target config_retries svc
              (get_or target config_target) (Z.of_nat (length queries))
              queries initial_agg_state initial_agg_ok)
    as [[K1 K2 K3 K4 K5 K6 K7 K8] [H2 H3]].
  cbn zeta in H2, H3.
  cbn [ag_unique_count ag_unique_comments ag_total_processed_comments
       ag_total_processed_replies ag_videos ag_query_results
       ag_successful_queries ag_failed_queries ag_target_achieved].
  split; [reflexivity|]. split.
  { rewrite map_map.
    assert (E : map (fun x => uc_text (snd x))
                  (all_unique_comments
                     (aggregate_queries config_target config_retries svc
                        (get_or target config_target)
                        (Z.of_nat (length queries)) queries initial_agg_state))
                = keys (all_unique_comments
                     (aggregate_queries config_target config_retries svc
                        (get_or target config_target)
                        (Z.of_nat (length queries)) queries initial_agg_state))).
    { unfold keys. symmetry. apply map_ext_Forall. exact K2. }
    rewrite E. exact K1. }
  rewrite length_map.
  split; [exact K3|]. split; [exact K4|]. split; [exact K5|].
  split; [exact K6|]. split; [exact H2|].
  intros Hna. rewrite Z.geb_leb in Hna. apply Z.leb_gt in Hna.
  apply H3. exact Hna.
Qed.

End Aggregation.


(** ** The search endpoints and the saved document *)
Module SearchEndpoints.

Import Samples Notions.
Import CommentFetcher SearchRoutes Database.
Import UniqueComments UniqueMore FetchTotals Aggregation SearchPersisted.

Lemma count_replies_nonneg (videos_data : list video) :
  (0 <= count_replies videos_data)%Z.
Proof.
  rewrite count_replies_items. unfold count_item_replies.
  induction (items_of videos_data) as [|x l IH]; simpl; lia.
Qed.

(** What a simple search that reaches the save hands over and answers. *)
Lemma simple_search_saved (env : environment) (data : simple_request)
    (doc : document) :
  sim_combined_data (simple_search env data) = Some doc ->
  exists result body,
    fetch_all_comments_parallel (env_config_target env)
      (env_config_retries env) (env_services env)
      (strip (get_or (sreq_query data) []))
      (Some (simple_target data)) (Some (simple_retries data)) = Some result
    /\ sim_response (simple_search env data) = SimpleSuccess body
    /\ sbody_total_comments body = fr_total_comments result
    /\ sbody_total_replies body = fr_total_replies result
    /\ sbody_grand_total body = fr_grand_total result
    /\ sbody_unique_comments body
       = total_comments (final_state (fr_videos result))
    /\ doc = combined_data (env_stamp env)
               (strip (get_or (sreq_query data) []))
               (fr_videos result)
               (map snd (unique_comments (final_state (fr_videos result))))
               (total_comments (final_state (fr_videos result)))
               (total_replies (final_state (fr_videos result)))
               (fr_total_comments result) (fr_sources result).
Proof.
  unfold simple_search, simple_target, simple_retries.
  destruct (Helpers.validate_query (strip (get_or (sreq_query data) [])))
    as [is_valid message].
  destruct is_valid; cbn [negb]; [|discriminate].
  destruct (fetch_all_comments_parallel _ _ _ _ _ _) as [result|];
    [|discriminate].
  destruct (fr_videos result) as [|v vs] eqn:Ev; [discriminate|].
  rewrite <- Ev. unfold get_unique_comments_unified.
  fold (final_state (fr_videos result)).
  match goal with
  | |- context [save_unified_data ?a ?b ?c ?d ?e ?f ?g ?h ?i ?j] =>
      destruct (@save_unified_data_document a b c d e f g h i j) as [Hdoc _];
      destruct (save_unified_data a b c d e f g h i j)
        as [[saved combined] coll']
  end.
  cbn [fst snd] in Hdoc. cbn [sim_combined_data sim_response].
  intros H. injection H as <-. exists result. eexists.
  split; [reflexivity|]. split; [reflexivity|].
  cbn [sbody_total_comments sbody_total_replies sbody_grand_total
       sbody_unique_comments].
  repeat (split; [reflexivity|]). exact Hdoc.
Qed.

(** X14.  In the document a simple search saves, [total_comments] and
    [unique_comments] are those of the answer, [unique_comments] is the
    number of unique comments the document holds, which are those of the
    fetched content, and [duplicates_removed], the difference of the two,
    is not negative.  [total_replies] is the number of replies stored
    under these unique comments, which is at most the [total_replies] of
    the answer, and [grand_total] is the sum of [total_comments] and that
    number, at most the [grand_total] of the answer. *)
Theorem simple_search_document (env : environment) (data : simple_request)
    (doc : document) :
  sim_combined_data (simple_search env data) = Some doc ->
  exists body result,
    sim_response (simple_search env data) = SimpleSuccess body
    /\ fetch_all_comments_parallel (env_config_target env)
         (env_config_retries env) (env_services env)
         (strip (get_or (sreq_query data) []))
         (Some (simple_target data)) (Some (simple_retries data))
       = Some result
    /\ get (py "unique_comments_data") doc
       = VUnique (unique_of (fr_videos result))
    /\ get (py "total_comments") doc = VInt (sbody_total_comments body)
    /\ get (py "unique_comments") doc = VInt (sbody_unique_comments body)
    /\ sbody_unique_comments body
       = Z.of_nat (length (unique_of (fr_videos result)))
    /\ get (py "total_replies") doc
       = VInt (Z.of_nat (count_stored_replies (unique_of (fr_videos result))))
    /\ (Z.of_nat (count_stored_replies (unique_of (fr_videos result)))
        <= sbody_total_replies body)%Z
    /\ get (py "grand_total") doc
       = VInt (sbody_total_comments body
               + Z.of_nat (count_stored_replies
                             (unique_of (fr_videos result))))
    /\ (sbody_total_comments body
        + Z.of_nat (count_stored_replies (unique_of (fr_videos result)))
        <= sbody_grand_total body)%Z
    /\ (0 <= sbody_unique_comments body <= sbody_total_comments body)%Z
    /\ exists info,
         get (py "processing_info") doc = VDict info
         /\ get (py "duplicates_removed") info
            = VInt (sbody_total_comments body - sbody_unique_comments body).
Proof.
  intros H.
  destruct (simple_search_saved env data H)
    as [result [body [Hf [Hr [B1 [B2 [B3 [B4 Hdoc]]]]]]]].
  destruct (@fetch_result_state _ _ _ _ _ _ _ Hf)
    as [ls [[Hc Hrp _ _] [E1 [E2 [E3 [_ [_ [E6 _]]]]]]]].
  destruct (final_state_counts (fr_videos result)) as [C1 C2].
  destruct (final_state_inv (fr_videos result)) as [_ _ Icount Ireplies].
  assert (Hunique : unique_of (fr_videos result)
                    = map snd (unique_comments (final_state (fr_videos result))))
    by reflexivity.
  assert (Hstored : Z.of_nat (count_stored_replies
                                (unique_of (fr_videos result)))
                    = total_replies (final_state (fr_videos result))).
  { rewrite Hunique, count_stored_replies_dict. symmetry. exact Ireplies. }
  exists body, result.
  rewrite Hstored, B1, B2, B3, B4, Hdoc.
  rewrite combined_total_comments, combined_unique_comments,
    combined_total_replies, combined_grand_total.
  split; [exact Hr|]. split; [exact Hf|]. split; [reflexivity|].
  split; [reflexivity|]. split; [reflexivity|].
  split; [rewrite Hunique, length_map; exact Icount|].
  split; [reflexivity|].
  assert (Hcomments : fr_total_comments result = sum_comments (fr_videos result))
    by (rewrite E1, E2; exact Hc).
  assert (Hreplies : fr_total_replies result = count_replies (fr_videos result))
    by (rewrite E1, E3; exact Hrp).
  split; [lia|]. split; [reflexivity|].
  split; [rewrite E6, <- E2, <- E3; lia|]. split; [lia|].
  apply combined_duplicates_removed.
Qed.

(** The instance of X14 for a simple search for [cats]: one comment with
    one reply is fetched, and both are stored. *)
Lemma simple_search_document_witness :
  exists doc,
    sim_combined_data
      (simple_search sample_environment
         {| sreq_query := Some (py "cats");
            sreq_target_comments := Some 1%Z;
            sreq_max_retries := None |}) = Some doc
    /\ get (py "total_comments") doc = VInt 1
    /\ get (py "total_replies") doc = VInt 1.
Proof.
  destruct (sim_combined_data
              (simple_search sample_environment
                 {| sreq_query := Some (py "cats");
                    sreq_target_comments := Some 1%Z;
                    sreq_max_retries := None |})) as [doc|] eqn:E.
  - exists doc. split; [reflexivity|].
    destruct (simple_search_document _ _ E)
      as [body [result [Hr [Hf [_ [H1 [_ [_ [H2 _]]]]]]]]].
    rewrite H1, H2. vm_compute in Hr. injection Hr as <-.
    vm_compute in Hf. injection Hf as <-. split; reflexivity.
  - vm_compute in E. discriminate E.
Defined.

(** X15.  A simple search with a valid query that asks for a target that is
    not positive, or for less than one retry, is answered by the exception
    handler with status 500, and nothing is saved. *)
Theorem simple_search_crashes (env : environment) (data : simple_request) :
  fst (Helpers.validate_query (strip (get_or (sreq_query data) []))) = true ->
  (simple_target data <= 0)%Z \/ (simple_retries data < 1)%Z ->
  sim_response (simple_search env data) = SimpleCrashed
  /\ sim_combined_data (simple_search env data) = None
  /\ sim_collection (simple_search env data) = env_collection env.
Proof.
  intros Hv Hbad.
  assert (Hf : fetch_all_comments_parallel (env_config_target env)
                 (env_config_retries env) (env_services env)
                 (strip (get_or (sreq_query data) []))
                 (Some (simple_target data)) (Some (simple_retries data))
               = None).
  { unfold fetch_all_comments_parallel, run_retry_loop. cbn [get_or].
    assert (E : retry_loop (env_services env)
                  (strip (get_or (sreq_query data) []))
                  (simple_target data) (simple_retries data)
                  (Z.to_nat (simple_retries data)) initial_loop_state
                = Some initial_loop_state).
    { assert (Ec : ((0 + 0 <? simple_target data)%Z
                    && (1 <=? simple_retries data)%Z) = false)
        by (apply andb_false_iff; destruct Hbad as [H|H];
            [left; apply Z.ltb_ge; lia | right; apply Z.leb_gt; lia]).
      destruct (Z.to_nat (simple_retries data)); cbn [retry_loop];
        cbn [initial_loop_state ls_total_comments ls_total_replies ls_attempt];
        rewrite Ec; reflexivity. }
    rewrite E. reflexivity. }
  unfold simple_search. fold (simple_target data). fold (simple_retries data).
  destruct (Helpers.validate_query (strip (get_or (sreq_query data) [])))
    as [is_valid message].
  cbn [fst] in Hv. subst is_valid. cbn [negb]. rewrite Hf.
  repeat split.
Qed.

(** The instance of X15 for a request that allows no retry. *)
Lemma simple_search_crashes_witness :
  sim_response
    (simple_search sample_environment
       {| sreq_query := Some (py "cats");
          sreq_target_comments := None;
          sreq_max_retries := Some 0%Z |}) = SimpleCrashed.
Proof.
  apply (@simple_search_crashes sample_environment
           {| sreq_query := Some (py "cats");
              sreq_target_comments := None;
              sreq_max_retries := Some 0%Z |}).
  - vm_compute. reflexivity.
  - right. vm_compute. reflexivity.
Defined.

(** The answer of a search that reaches the save. *)
Lemma search_success_body (env : environment) (data : request)
    (doc : document) :
  so_combined_data (search env data) = Some doc ->
  let agg := search_aggregation env data in
  exists body,
    so_response (search env data) = Success body
    /\ body_total_comments body = ag_total_processed_comments agg
    /\ body_total_replies body = ag_total_processed_replies agg
    /\ body_grand_total body = ag_grand_total agg
    /\ body_unique_comments body = ag_unique_count agg.
Proof.
  unfold search. fold (search_variations env data).
  destruct (Helpers.validate_query (strip (get_or (req_query data) [])))
    as [is_valid message].
  destruct is_valid; cbn [negb]; [|discriminate].
  destruct (search_variations env data) as [|v vs] eqn:Ev; [discriminate|].
  set (agg := search_aggregation env data).
  assert (Hagg : fetch_multiple_queries_aggregated (env_config_target env)
                   (env_config_retries env) (env_services env) (v :: vs)
                   (Some (get_or (req_target_comments data) 50000%Z)) = agg).
  { unfold agg, search_aggregation. rewrite Ev. reflexivity. }
  rewrite Hagg.
  destruct (ag_videos agg) as [|video videos]; [discriminate|].
  destruct (save_unified_data _ _ _ _ _ _ _ _ _ _) as [[saved combined] coll'].
  cbn [so_combined_data so_response]. intros _. eexists.
  split; [reflexivity|]. repeat split.
Qed.

Lemma search_aggregation_ok (env : environment) (data : request) :
  let agg := search_aggregation env data in
  (ag_unique_count agg <= ag_total_processed_comments agg)%Z
  /\ (0 <= ag_total_processed_replies agg)%Z
  /\ ag_grand_total agg
     = (ag_total_processed_comments agg + ag_total_processed_replies agg)%Z.
Proof.
  intros agg. unfold agg, search_aggregation, fetch_multiple_queries_aggregated.
  match goal with
  | |- context [aggregate_queries ?a ?b ?c ?d ?e ?f ?g] =>
      destruct (@aggregate_queries_ok a b c d e f g initial_agg_ok)
        as [[K1 K2 K3 K4 K5 K6 K7 K8] _]
  end.
  cbn [ag_unique_count ag_total_processed_comments ag_total_processed_replies
       ag_grand_total].
  rewrite length_map. split; [exact K3|]. split; [|reflexivity].
  rewrite K5. apply count_replies_nonneg.
Qed.

(** X16.  The answer of the main search and the document it saves differ on
    [total_comments]: the answer gives the processed comments, the document
    the processed comments plus the processed replies, which is the
    [grand_total] of the answer.  [duplicates_removed] in the document is at
    least the number of processed replies. *)
Theorem search_answer_and_document (env : environment) (data : request)
    (doc : document) :
  so_combined_data (search env data) = Some doc ->
  exists body removed,
    so_response (search env data) = Success body
    /\ get (py "total_comments") doc
       = VInt (body_total_comments body + body_total_replies body)
    /\ body_grand_total body = (body_total_comments body + body_total_replies body)%Z
    /\ get (py "unique_comments") doc = VInt (body_unique_comments body)
    /\ (exists info,
          get (py "processing_info") doc = VDict info
          /\ get (py "duplicates_removed") info = VInt removed)
    /\ (0 <= body_total_replies body <= removed)%Z.
Proof.
  intros H.
  destruct (search_success_body env data H) as [body [Hr [B1 [B2 [B3 B4]]]]].
  destruct (search_combined_data env data H) as [Hdoc _].
  destruct (search_aggregation_ok env data) as [A1 [A2 A3]].
  set (agg := search_aggregation env data) in *.
  exists body, (ag_grand_total agg - ag_unique_count agg)%Z.
  rewrite B1, B2, B3, B4, Hdoc.
  rewrite combined_total_comments, combined_unique_comments.
  split; [exact Hr|]. split; [rewrite A3; reflexivity|].
  split; [exact A3|]. split; [reflexivity|].
  split; [apply combined_duplicates_removed | lia].
Qed.

(** The instance of X16 for the sample request. *)
Lemma search_answer_and_document_witness :
  so_combined_data (search sample_environment sample_request)
  = Some sample_document
  /\ get (py "total_comments") sample_document = VInt 4.
Proof.
  assert (H : so_combined_data (search sample_environment sample_request)
              = Some sample_document) by (vm_compute; reflexivity).
  split; [exact H|].
  destruct (search_answer_and_document sample_environment sample_request H)
    as [body [removed [Hr [H1 _]]]].
  rewrite H1. vm_compute in Hr. injection Hr as <-. reflexivity.
Defined.

End SearchEndpoints.

(** ** The database service: connection state, saving and reading back *)
Module DatabaseState.

Import Samples Notions.
Import Database DatabaseService.

Lemma connect_with_client (o : opening) (h : handles) :
  client h = true -> connect o h = (true, h).
Proof. intros H. unfold connect. rewrite H. reflexivity. Qed.

Lemma insert_one_cases (srv : server) (coll : list document) (doc : document) :
  (rejects srv coll doc = None
   /\ insert_one srv coll doc = (coll ++ [doc], Inserted (length coll)))
  \/ (exists message, rejects srv coll doc = Some message
      /\ insert_one srv coll doc = (coll, InsertRaises message)).
Proof.
  unfold insert_one. destruct (rejects srv coll doc) as [message|].
  - right. exists message. split; reflexivity.
  - left. split; reflexivity.
Qed.

(** What a call of [save_search_result] leaves in the collection. *)
Lemma save_search_result_effect (srv : server) (coll : list document)
    (data : document) :
  (snd (Database.save_search_result srv coll data) = None
   /\ fst (Database.save_search_result srv coll data) = coll)
  \/ (snd (Database.save_search_result srv coll data) = Some (length coll)
      /\ rejects srv coll data = None
      /\ fst (Database.save_search_result srv coll data) = coll ++ [data])
  \/ (snd (Database.save_search_result srv coll data) = Some (length coll)
      /\ rejects srv coll data <> None
      /\ fst (Database.save_search_result srv coll data)
         = coll ++ [minimal_data data]).
Proof.
  unfold Database.save_search_result.
  destruct (Database.connect srv); cbn [negb]; [|left; split; reflexivity].
  destruct (insert_one_cases srv coll data) as [[Hr He]|[message [Hr He]]];
    rewrite He.
  - right. left. split; [reflexivity|]. split; [exact Hr | reflexivity].
  - destruct (contains (py "DocumentTooLarge") message);
      [|left; split; reflexivity].
    destruct (insert_one_cases srv coll (minimal_data data))
      as [[Hr2 He2]|[message2 [Hr2 He2]]]; rewrite He2.
    + right. right. split; [reflexivity|].
      split; [rewrite Hr; discriminate | reflexivity].
    + left. split; reflexivity.
Qed.

Lemma minimal_same_summary (data : document) :
  same_summary data (minimal_data data).
Proof.
  unfold same_summary, summary_keys. cbn [map].
  repeat (apply Forall_cons; [reflexivity|]). apply Forall_nil.
Qed.

Lemma same_summary_refl (data : document) : same_summary data data.
Proof.
  unfold same_summary. apply Forall_forall. intros key _. reflexivity.
Qed.

Lemma find_from_unused (batch_id : str) (coll : list document) (doc : document)
    (id : nat) :
  unused batch_id coll ->
  has_batch_id batch_id doc = true ->
  find_from batch_id id (coll ++ [doc]) = Some ((id + length coll)%nat, doc).
Proof.
  intros Hu Hd. revert id. induction Hu as [|d rest Hd' _ IH]; intros id.
  - cbn [app find_from length]. rewrite Hd. f_equal. f_equal. lia.
  - cbn [app find_from length]. rewrite Hd'. rewrite IH. f_equal. f_equal. lia.
Qed.

Lemma has_batch_id_same_summary (batch_id : str) (data doc : document) :
  same_summary data doc ->
  get (py "batch_id") data = VStr batch_id ->
  has_batch_id batch_id doc = true.
Proof.
  intros Hs Hb. unfold same_summary, summary_keys in Hs. cbn [map] in Hs.
  apply Forall_inv in Hs. unfold has_batch_id. rewrite Hs, Hb.
  unfold str_eqb. destruct (str_eq_dec batch_id batch_id) as [_|Hn];
    [reflexivity | exfalso; apply Hn; reflexivity].
Qed.

(** The service decomposed: a successful save went through a connection
    with both attributes set. *)
Lemma service_save_some (o : opening)
    (rejects : list document -> document -> option str)
    (h h' : handles) (coll coll' : list document) (data : document) (id : nat) :
  save_search_result o rejects h coll data = (h', coll', Some id) ->
  client h' = true /\ db h' = true
  /\ Database.save_search_result
       {| Database.connect := true; Database.rejects := rejects |} coll data
     = (coll', Some id).
Proof.
  unfold save_search_result, connect.
  destruct (client h) eqn:Ec.
  - cbn [negb]. destruct (db h) eqn:Ed; cbn [negb].
    + destruct (Database.save_search_result _ coll data) as [c r].
      intros H. injection H as <- <- <-.
      split; [exact Ec|]. split; [exact Ed | reflexivity].
    + intros H. discriminate H.
  - destruct o; cbn [negb db]; try (intros H; discriminate H).
    destruct (Database.save_search_result _ coll data) as [c r].
    intros H. injection H as <- <- <-.
    split; [reflexivity|]. split; reflexivity.
Qed.

(** X17.  Once the client attribute is set while the database attribute is
    not, which is the state a failed ping leaves behind, [connect] reports
    success whatever a new attempt would give and changes nothing, and both
    [save_search_result] and [get_search_result] return [None] without
    touching the collection; only [close_connection] gets the service back
    to its initial state. *)
Theorem connect_after_failed_ping (h : handles) (o : opening)
    (rejects : list document -> document -> option str)
    (id_text : nat -> str) (find_raises : bool)
    (coll : list document) (data : document) (batch_id : str) :
  client h = true ->
  db h = false ->
  connect o h = (true, h)
  /\ save_search_result o rejects h coll data = (h, coll, None)
  /\ get_search_result id_text find_raises o h coll batch_id = (h, None)
  /\ close_connection h = initial.
Proof.
  intros Hc Hd.
  assert (Hk : connect o h = (true, h)) by (apply connect_with_client; exact Hc).
  split; [exact Hk|].
  split; [unfold save_search_result; rewrite Hk; cbn [negb]; rewrite Hd;
          reflexivity|].
  split; [unfold get_search_result; rewrite Hk; cbn [negb]; rewrite Hd;
          reflexivity|].
  unfold close_connection. rewrite Hc. reflexivity.
Qed.

Lemma connect_after_failed_ping_witness :
  fst (connect PingRaises initial) = false
  /\ connect Opens (snd (connect PingRaises initial))
     = (true, snd (connect PingRaises initial))
  /\ save_search_result Opens (fun _ _ => None)
       (snd (connect PingRaises initial)) [big_document] big_document
     = (snd (connect PingRaises initial), [big_document], None)
  /\ get_search_result id_letters false Opens
       (snd (connect PingRaises initial)) [big_document] (py "1a2b3c4d")
     = (snd (connect PingRaises initial), None)
  /\ close_connection (snd (connect PingRaises initial)) = initial.
Proof.
  split; [reflexivity|].
  apply (connect_after_failed_ping (snd (connect PingRaises initial)) Opens
           (fun _ _ => None) id_letters false); reflexivity.
Defined.

(** X18.  [save_search_result] never changes or removes a stored document
    and adds at most one: when it returns [None] the collection is as
    before; otherwise the identifier returned is that of one new document
    at the end, which is the data itself when the first insert is accepted
    and the metadata-only document otherwise, and which in both cases
    agrees with the data on [batch_id], [query], [timestamp],
    [total_comments] and [unique_comments]. *)
Theorem save_search_result_appends (srv : server) (coll : list document)
    (data : document) :
  match Database.save_search_result srv coll data with
  | (coll', None) => coll' = coll
  | (coll', Some id) =>
      id = length coll
      /\ exists doc,
           coll' = coll ++ [doc]
           /\ nth_error coll' id = Some doc
           /\ (rejects srv coll data = None -> doc = data)
           /\ (rejects srv coll data <> None -> doc = minimal_data data)
           /\ same_summary data doc
  end.
Proof.
  pose proof (save_search_result_effect srv coll data) as H.
  destruct (Database.save_search_result srv coll data) as [coll' [id|]];
    cbn [fst snd] in H.
  - destruct H as [[H _]|[[Hi [Hr Hc]]|[Hi [Hr Hc]]]]; [discriminate H| |].
    + injection Hi as ->. split; [reflexivity|]. exists data.
      split; [exact Hc|].
      split; [rewrite Hc, nth_error_app2, Nat.sub_diag by lia; reflexivity|].
      split; [intros _; reflexivity|].
      split; [intros Hn; exfalso; apply Hn; exact Hr|].
      apply same_summary_refl.
    + injection Hi as ->. split; [reflexivity|]. exists (minimal_data data).
      split; [exact Hc|].
      split; [rewrite Hc, nth_error_app2, Nat.sub_diag by lia; reflexivity|].
      split; [intros Hn; exfalso; apply Hr; exact Hn|].
      split; [intros _; reflexivity|].
      apply minimal_same_summary.
  - destruct H as [[_ H]|[[H _]|[H _]]]; [exact H | discriminate H | discriminate H].
Qed.

(** X19.  Reading back what was saved: when the service saves a document
    whose batch identifier no stored document has, a later
    [get_search_result] for that identifier, whose query does not raise,
    returns the new document with its identifier as text under [_id],
    whatever a new connection attempt would give; the document agrees with
    the saved data on [batch_id], [query], [timestamp], [total_comments]
    and [unique_comments]. *)
Theorem saved_document_found (o o' : opening)
    (rejects : list document -> document -> option str)
    (id_text : nat -> str)
    (h h' : handles) (coll coll' : list document) (data : document)
    (id : nat) (batch_id : str) :
  save_search_result o rejects h coll data = (h', coll', Some id) ->
  get (py "batch_id") data = VStr batch_id ->
  unused batch_id coll ->
  exists doc,
    nth_error coll' id = Some doc
    /\ get_search_result id_text false o' h' coll' batch_id
       = (h', Some ((py "_id", VStr (id_text id)) :: doc))
    /\ same_summary data doc.
Proof.
  intros Hs Hb Hu.
  destruct (service_save_some _ _ _ _ _ Hs) as [Hc [Hd Hsave]].
  set (srv := {| Database.connect := true; Database.rejects := rejects |}) in *.
  pose proof (save_search_result_effect srv coll data) as H.
  rewrite Hsave in H. cbn [fst snd] in H.
  assert (Hdoc : exists doc, coll' = coll ++ [doc] /\ id = length coll
                             /\ same_summary data doc).
  { destruct H as [[H _]|[[Hi [_ Hcoll]]|[Hi [_ Hcoll]]]]; [discriminate H| |].
    - exists data. injection Hi as ->.
      split; [exact Hcoll|]. split; [reflexivity | apply same_summary_refl].
    - exists (minimal_data data). injection Hi as ->.
      split; [exact Hcoll|]. split; [reflexivity | apply minimal_same_summary]. }
  destruct Hdoc as [doc [-> [-> Hsum]]].
  exists doc.
  split; [rewrite nth_error_app2, Nat.sub_diag by lia; reflexivity|].
  split; [|exact Hsum].
  unfold get_search_result. rewrite (@connect_with_client o' h' Hc).
  cbn [negb]. rewrite Hd. cbn [negb]. unfold find_one.
  rewrite (@find_from_unused batch_id coll doc 0 Hu
             (@has_batch_id_same_summary batch_id data doc Hsum Hb)).
  reflexivity.
Qed.

Lemma saved_document_found_witness :
  exists doc,
    nth_error [minimal_data big_document] 0 = Some doc
    /\ get_search_result id_letters false NoUri
         {| client := true; db := true |} [minimal_data big_document]
         (py "1a2b3c4d")
       = ({| client := true; db := true |},
          Some ((py "_id", VStr (id_letters 0)) :: doc))
    /\ same_summary big_document doc.
Proof.
  apply (@saved_document_found Opens NoUri (rejects small_server) id_letters
           initial {| client := true; db := true |}
           [] [minimal_data big_document] big_document 0 (py "1a2b3c4d")).
  - reflexivity.
  - reflexivity.
  - apply Forall_nil.
Defined.

End DatabaseState.

(** ** The terms of the relevance filter *)
Module RelevanceTerms.

Import Samples Notions PyStrFacts.
Import RedditService.

Lemma count_matching_perm (comment_lower : str) (terms terms' : list str) :
  Permutation terms terms' ->
  count_matching comment_lower terms = count_matching comment_lower terms'.
Proof.
  unfold count_matching. intros H. f_equal.
  induction H as [|x l l' _ IH|x y l|l l' l'' _ IH1 _ IH2].
  - reflexivity.
  - cbn [filter]. destruct (contains x comment_lower); cbn [length];
      rewrite IH; reflexivity.
  - cbn [filter].
    destruct (contains x comment_lower), (contains y comment_lower);
      reflexivity.
  - rewrite IH1. exact IH2.
Qed.

Lemma term_count_perm (terms terms' : list str) :
  Permutation terms terms' -> term_count terms = term_count terms'.
Proof.
  intros H. unfold term_count. rewrite (Permutation_length H). reflexivity.
Qed.

Lemma startswith_firstn (n : nat) (p s : str) :
  startswith p s = true -> startswith (firstn n p) s = true.
Proof.
  revert n s. induction p as [|a p IH]; intros n s H.
  - rewrite firstn_nil. reflexivity.
  - destruct n as [|n]; [reflexivity|].
    destruct s as [|b s]; [discriminate H|].
    cbn [firstn startswith] in *.
    apply andb_true_iff in H. destruct H as [Hab Hps].
    rewrite Hab. cbn [andb]. apply IH. exact Hps.
Qed.

Lemma contains_firstn (n : nat) (p s : str) :
  contains p s = true -> contains (firstn n p) s = true.
Proof.
  induction s as [|b s IH]; intros H.
  - cbn [contains] in *. rewrite orb_false_r in *.
    apply startswith_firstn. exact H.
  - cbn [contains] in *. apply orb_true_iff in H. apply orb_true_iff.
    destruct H as [H|H]; [left; apply startswith_firstn; exact H|].
    right. apply IH. exact H.
Qed.

Lemma slice_to_short (w : str) : (len w >? 3)%Z = false -> slice_to 4 w = w.
Proof.
  intros H. rewrite slice_to_firstn by lia. apply firstn_all2.
  rewrite Z.gtb_ltb in H. apply Z.ltb_ge in H. unfold len in H. lia.
Qed.

(** The verdict for one term. *)
Lemma filter_comment_relevance_one (comment_text w : str) :
  filter_comment_relevance comment_text [w]
  = contains (slice_to 4 w) (lower comment_text).
Proof.
  unfold filter_comment_relevance, matching_terms, count_matching.
  cbn [term_count length Z.of_nat hd Pos.of_succ_nat Z.eqb Pos.eqb andb
       Z.gtb Z.compare Pos.compare Pos.compare_cont filter].
  destruct (len w >? 3)%Z eqn:El.
  - destruct (contains w (lower comment_text)) eqn:Ew.
    + assert (Hs : contains (slice_to 4 w) (lower comment_text) = true).
      { rewrite slice_to_firstn by lia. apply contains_firstn. exact Ew. }
      rewrite Hs. reflexivity.
    + destruct (contains (slice_to 4 w) (lower comment_text)); reflexivity.
  - rewrite (slice_to_short w El).
    destruct (contains w (lower comment_text)); reflexivity.
Qed.

(** The verdict for a word and its first four characters. *)
Lemma filter_comment_relevance_two (comment_text w : str) :
  filter_comment_relevance comment_text [w; slice_to 4 w]
  = contains (slice_to 4 w) (lower comment_text).
Proof.
  unfold filter_comment_relevance, matching_terms, count_matching.
  cbn [term_count length Z.of_nat hd Pos.of_succ_nat Pos.succ Z.eqb Pos.eqb
       andb Z.gtb Z.compare Pos.compare Pos.compare_cont filter].
  destruct (contains w (lower comment_text)) eqn:Ew.
  - assert (Hs : contains (slice_to 4 w) (lower comment_text) = true).
    { rewrite slice_to_firstn by lia. apply contains_firstn. exact Ew. }
    rewrite Hs. reflexivity.
  - destruct (contains (slice_to 4 w) (lower comment_text)); reflexivity.
Qed.

(** X20.  The verdict of [filter_comment_relevance] does not depend on the
    order of the terms, so it is the same for every order in which the set
    of terms is iterated. *)
Theorem filter_comment_relevance_any_order (comment_text : str)
    (terms terms' : list str) :
  Permutation terms terms' ->
  filter_comment_relevance comment_text terms
  = filter_comment_relevance comment_text terms'.
Proof.
  intros H.
  destruct terms as [|a [|b t]].
  - apply Permutation_nil in H. rewrite H. reflexivity.
  - apply Permutation_length_1_inv in H. rewrite H. reflexivity.
  - assert (Hn : (term_count (a :: b :: t) =? 1)%Z = false).
    { apply Z.eqb_neq. unfold term_count. cbn [length]. lia. }
    assert (Hn' : (term_count terms' =? 1)%Z = false).
    { rewrite <- (term_count_perm H). exact Hn. }
    unfold filter_comment_relevance, matching_terms.
    rewrite Hn, Hn'. cbn [andb].
    rewrite <- (term_count_perm H).
    rewrite <- (count_matching_perm (lower comment_text) H).
    reflexivity.
Qed.

Lemma filter_comment_relevance_any_order_witness :
  filter_comment_relevance (py "I love Cats") [py "cats"; py "dogs"; py "fish"]
  = filter_comment_relevance (py "I love Cats") [py "fish"; py "dogs"; py "cats"].
Proof.
  apply (@filter_comment_relevance_any_order (py "I love Cats")
           [py "cats"; py "dogs"; py "fish"] [py "fish"; py "dogs"; py "cats"]).
  apply Permutation_sym.
  apply (@perm_trans _ _ [py "dogs"; py "fish"; py "cats"]).
  - apply perm_swap.
  - apply (@perm_trans _ _ [py "dogs"; py "cats"; py "fish"]).
    + apply perm_skip. apply perm_swap.
    + apply perm_swap.
Defined.

(** X21.  For a query of one distinct word, the terms prepared by
    [get_comments_from_subreddit] make a text relevant exactly when the
    first four characters of the lowercased word occur in the lowercased
    text: the whole word need not occur. *)
Theorem single_word_query_relevance (query comment_text w : str) :
  set_of (split_ws (lower query)) = [w] ->
  filter_comment_relevance comment_text (query_terms query)
  = contains (slice_to 4 w) (lower comment_text).
Proof.
  intros H. unfold query_terms. rewrite H.
  cbn [term_count length Z.of_nat hd Pos.of_succ_nat Z.eqb Pos.eqb andb].
  destruct (len w >? 3)%Z eqn:El.
  - unfold set_add. cbn [existsb]. rewrite orb_false_r.
    destruct (str_eqb (slice_to 4 w) w) eqn:Es.
    + apply filter_comment_relevance_one.
    + cbn [app]. apply filter_comment_relevance_two.
  - apply filter_comment_relevance_one.
Qed.

Lemma single_word_query_relevance_witness :
  filter_comment_relevance (py "Monty Pythagoras") (query_terms (py " Python python"))
  = contains (slice_to 4 (py "python")) (lower (py "Monty Pythagoras"))
  /\ query_terms (py " Python python") = [py "python"; py "pyth"]
  /\ contains (py "python") (lower (py "Monty Pythagoras")) = false
  /\ contains (slice_to 4 (py "python")) (lower (py "Monty Pythagoras")) = true.
Proof.
  split.
  - apply (@single_word_query_relevance (py " Python python")
             (py "Monty Pythagoras") (py "python")).
    reflexivity.
  - split; [|split]; reflexivity.
Defined.

End RelevanceTerms.

(** ** Fetching the comments of the forums *)
Module RedditFetch.

Import Samples Notions PyStrFacts.
Import RedditService CommentFetcher RedditComments.

Lemma kept_body_accepted (terms : list str) (body : option str) (b : str) :
  kept_body terms body = Some b -> body = Some b /\ accepted terms b.
Proof.
  unfold kept_body, accepted. destruct body as [b'|]; [|discriminate].
  destruct (deleted b') eqn:Ed; cbn [negb andb]; [discriminate|].
  destruct (filter_comment_relevance b' terms) eqn:Ef; [|discriminate].
  intros H. injection H as <-. split; [reflexivity|]. split; assumption.
Qed.

(** The loop over the replies collects the first kept replies, up to five
    in all. *)
Lemma collect_replies_firstn (terms : list str) (replies : list raw_reply)
    (acc : list reply) :
  collect_replies terms replies acc
  = acc ++ firstn (5 - length acc) (relevant_replies terms replies).
Proof.
  revert acc. induction replies as [|r rest IH]; intros acc.
  - cbn [collect_replies relevant_replies flat_map]. rewrite firstn_nil.
    rewrite app_nil_r. reflexivity.
  - cbn [collect_replies]. destruct (5 <=? Z.of_nat (length acc))%Z eqn:E5.
    + apply Z.leb_le in E5. replace (5 - length acc)%nat with 0%nat by lia.
      cbn [firstn]. rewrite app_nil_r. reflexivity.
    + apply Z.leb_gt in E5.
      change (relevant_replies terms (r :: rest))
        with (match kept_body terms (rr_body r) with
              | Some b => [reply_data r b]
              | None => []
              end ++ relevant_replies terms rest).
      unfold kept_body. destruct (rr_body r) as [body|];
        [|cbn [app]; apply IH].
      destruct (deleted body); cbn [negb andb]; [cbn [app]; apply IH|].
      destruct (filter_comment_relevance body terms);
        [|cbn [app]; apply IH].
      rewrite IH. rewrite length_app. cbn [length app].
      replace (5 - length acc)%nat with (S (5 - (length acc + 1)))%nat by lia.
      cbn [firstn]. rewrite <- app_assoc. reflexivity.
Qed.

(** The loop over the comments of a post. *)
Lemma collect_comments_firstn (name title : str) (terms : list str) (limit : Z)
    (comments : list raw_comment) (acc : list reddit_comment) :
  collect_comments name title terms limit comments acc
  = acc ++ firstn (Z.to_nat limit - length acc)
             (relevant_in_post name title terms comments).
Proof.
  revert acc. induction comments as [|c rest IH]; intros acc.
  - cbn [collect_comments relevant_in_post flat_map]. rewrite firstn_nil.
    rewrite app_nil_r. reflexivity.
  - cbn [collect_comments].
    destruct (limit <=? Z.of_nat (length acc))%Z eqn:El.
    + apply Z.leb_le in El.
      replace (Z.to_nat limit - length acc)%nat with 0%nat by lia.
      cbn [firstn]. rewrite app_nil_r. reflexivity.
    + apply Z.leb_gt in El.
      change (relevant_in_post name title terms (c :: rest))
        with (match kept_body terms (raw_body c) with
              | Some b => [comment_data name title terms c b]
              | None => []
              end ++ relevant_in_post name title terms rest).
      unfold kept_body. destruct (raw_body c) as [body|];
        [|cbn [app]; apply IH].
      destruct (deleted body); cbn [negb andb]; [cbn [app]; apply IH|].
      destruct (filter_comment_relevance body terms); cbn [negb];
        [|cbn [app]; apply IH].
      rewrite IH. rewrite length_app. cbn [length app].
      replace (Z.to_nat limit - length acc)%nat
        with (S (Z.to_nat limit - (length acc + 1)))%nat by lia.
      cbn [firstn]. rewrite <- app_assoc. reflexivity.
Qed.

Lemma firstn_app_more (A : Type) (n : nat) (l l' : list A) :
  firstn n (l ++ l')
  = firstn n l ++ firstn (n - length (firstn n l)) l'.
Proof.
  rewrite firstn_app. f_equal.
  destruct (Nat.le_ge_cases n (length l)) as [H|H].
  - rewrite length_firstn. replace (n - length l)%nat with 0%nat by lia.
    replace (n - Nat.min n (length l))%nat with 0%nat by lia. reflexivity.
  - rewrite (firstn_all2 l H). reflexivity.
Qed.

(** The loop over the posts. *)
Lemma collect_posts_firstn (name : str) (terms : list str) (limit : Z)
    (posts : list submission) (acc : list reddit_comment) :
  collect_posts name terms limit posts acc
  = acc ++ firstn (Z.to_nat limit - length acc)
             (relevant_comments name terms posts).
Proof.
  revert acc. induction posts as [|post rest IH]; intros acc.
  - cbn [collect_posts relevant_comments flat_map]. rewrite firstn_nil.
    rewrite app_nil_r. reflexivity.
  - cbn [collect_posts].
    change (relevant_comments name terms (post :: rest))
      with (match sub_comments post with
            | None => []
            | Some comments =>
                relevant_in_post name (sub_title post) terms comments
            end ++ relevant_comments name terms rest).
    destruct (sub_comments post) as [comments|]; [|cbn [app]; apply IH].
    rewrite collect_comments_firstn.
    set (kept := relevant_in_post name (sub_title post) terms comments).
    set (n := (Z.to_nat limit - length acc)%nat).
    rewrite (firstn_app_more n kept).
    rewrite app_assoc.
    destruct (limit <=? Z.of_nat (length (acc ++ firstn n kept)))%Z eqn:El.
    + apply Z.leb_le in El. rewrite length_app in El.
      replace (n - length (firstn n kept))%nat with 0%nat by lia.
      cbn [firstn]. rewrite app_nil_r. reflexivity.
    + rewrite IH. rewrite length_app. f_equal. f_equal. lia.
Qed.

Lemma get_comments_from_subreddit_slice
    (search : str -> str -> Z -> option (list submission))
    (max_reddit_comments : Z) (name query : str) (limit : option Z) :
  get_comments_from_subreddit search max_reddit_comments name query limit
  = match search name query
            (Z.min (limit_in_force max_reddit_comments limit / 10) 50) with
    | None => []
    | Some posts =>
        firstn (Z.to_nat (limit_in_force max_reddit_comments limit))
          (relevant_comments name (query_terms query) posts)
    end.
Proof.
  unfold get_comments_from_subreddit, limit_in_force.
  destruct limit as [limit|]; cbn [get_or].
  - destruct (search name query (Z.min (limit / 10) 50)); [|reflexivity].
    rewrite collect_posts_firstn. cbn [app length]. rewrite Nat.sub_0_r.
    reflexivity.
  - destruct (search name query (Z.min (max_reddit_comments / 8 / 10) 50));
      [|reflexivity].
    rewrite collect_posts_firstn. cbn [app length]. rewrite Nat.sub_0_r.
    reflexivity.
Qed.

Lemma get_comments_from_subreddit_length
    (search : str -> str -> Z -> option (list submission))
    (max_reddit_comments : Z) (name query : str) (limit : option Z) :
  (length (get_comments_from_subreddit search max_reddit_comments name query
             limit)
   <= Z.to_nat (limit_in_force max_reddit_comments limit))%nat.
Proof.
  rewrite get_comments_from_subreddit_slice.
  destruct (search name query _); [apply firstn_le_length | cbn [length]; lia].
Qed.

Lemma relevant_replies_accepted (terms : list str) (replies : list raw_reply) :
  Forall (fun r => accepted terms (reply_text r))
    (relevant_replies terms replies).
Proof.
  unfold relevant_replies. apply Forall_flat_map. apply Forall_forall.
  intros r _. destruct (kept_body terms (rr_body r)) as [b|] eqn:Ek;
    [|apply Forall_nil].
  apply Forall_cons; [|apply Forall_nil].
  cbn [reply_data reply_text]. apply (kept_body_accepted _ _ Ek).
Qed.

(** What holds of every comment that is kept. *)
Lemma comment_data_kept (name title : str) (terms : list str)
    (c : raw_comment) (b : str) :
  accepted terms b ->
  accepted terms (comment_text (rc_comment (comment_data name title terms c b)))
  /\ (length (replies_of (comment_data name title terms c b)) <= 5)%nat
  /\ Forall (fun r => accepted terms (reply_text r))
       (replies_of (comment_data name title terms c b))
  /\ rc_subreddit (comment_data name title terms c b) = name.
Proof.
  intros Ha. unfold replies_of.
  cbn [comment_data rc_comment comment_text comment_replies get_or rc_subreddit].
  rewrite collect_replies_firstn. cbn [app length]. rewrite Nat.sub_0_r.
  split; [exact Ha|].
  split; [rewrite length_firstn; lia|].
  split; [apply Forall_firstn, relevant_replies_accepted | reflexivity].
Qed.

Lemma relevant_comments_kept (name : str) (terms : list str)
    (posts : list submission) :
  Forall
    (fun rc =>
       accepted terms (comment_text (rc_comment rc))
       /\ (length (replies_of rc) <= 5)%nat
       /\ Forall (fun r => accepted terms (reply_text r)) (replies_of rc)
       /\ rc_subreddit rc = name)
    (relevant_comments name terms posts).
Proof.
  unfold relevant_comments. apply Forall_flat_map. apply Forall_forall.
  intros post _. destruct (sub_comments post) as [comments|];
    [|apply Forall_nil].
  unfold relevant_in_post. apply Forall_flat_map. apply Forall_forall.
  intros c _. destruct (kept_body terms (raw_body c)) as [b|] eqn:Ek;
    [|apply Forall_nil].
  apply Forall_cons; [|apply Forall_nil].
  apply comment_data_kept. apply (kept_body_accepted _ _ Ek).
Qed.

Lemma flat_map_length_le (A B : Type) (f : A -> list B) (bound : nat)
    (l : list A) :
  (forall a, (length (f a) <= bound)%nat) ->
  (length (flat_map f l) <= length l * bound)%nat.
Proof.
  intros H. induction l as [|a l IH]; [cbn; lia|].
  cbn [flat_map length]. rewrite length_app. specialize (H a). lia.
Qed.

(** The number of comments [get_comments_parallel] returns. *)
Lemma get_comments_parallel_length (probe : str -> bool)
    (search : str -> str -> Z -> option (list submission))
    (completion : list str -> list str)
    (max_reddit_comments max_workers : Z) (query : str)
    (total_limit : option Z) :
  (forall l, Permutation (completion l) l) ->
  (Z.of_nat
     (length (get_comments_parallel probe search completion
                max_reddit_comments max_workers query total_limit))
   <= Z.max 800 (get_or total_limit max_reddit_comments))%Z.
Proof.
  intros Hperm. unfold get_comments_parallel.
  set (total := match total_limit with
                | Some t => t
                | None => max_reddit_comments
                end).
  change (get_or total_limit max_reddit_comments) with total.
  set (subreddits := search_subreddits probe (Some query) 8).
  assert (Hn : (Z.of_nat (length subreddits) <= 8)%Z).
  { unfold subreddits, search_subreddits. apply slice_to_length. lia. }
  destruct (Z.of_nat (length subreddits) =? 0)%Z eqn:E0; [cbn [length]; lia|].
  apply Z.eqb_neq in E0.
  destruct (Z.min (Z.of_nat (length subreddits)) max_workers <=? 0)%Z;
    [cbn [length]; lia|].
  set (per := Z.max 100 (total / Z.of_nat (length subreddits))).
  pose proof (@flat_map_length_le _ _
                (fun subreddit_name =>
                   get_comments_from_subreddit search max_reddit_comments
                     subreddit_name query (Some per))
                (Z.to_nat per) (completion subreddits)
                (fun a => get_comments_from_subreddit_length search
                            max_reddit_comments a query (Some per))) as Hl.
  rewrite (Permutation_length (Hperm subreddits)) in Hl.
  assert (Hdiv : (Z.of_nat (length subreddits)
                  * (total / Z.of_nat (length subreddits)) <= total)%Z)
    by (apply Z.mul_div_le; lia).
  assert (Hper : (Z.of_nat (length subreddits) * per <= Z.max 800 total)%Z)
    by (unfold per; nia).
  assert (Hp : (100 <= per)%Z) by (unfold per; lia).
  apply Nat2Z.inj_le in Hl. rewrite Nat2Z.inj_mul in Hl.
  rewrite Z2Nat.id in Hl by lia. lia.
Qed.

(** X22.  [get_comments_from_subreddit] returns the first [limit] kept
    comments of the posts whose comments can be read, in order, where a
    comment is kept when it has a body that is no deletion marker and is
    relevant to the prepared terms; it returns nothing when the search
    raises or the limit is not positive.  Every returned comment carries
    the name of the forum and at most five replies, all of them kept
    texts. *)
Theorem get_comments_from_subreddit_first_kept
    (search : str -> str -> Z -> option (list submission))
    (max_reddit_comments : Z) (name query : str) (limit : option Z) :
  let lim := limit_in_force max_reddit_comments limit in
  let terms := query_terms query in
  let result :=
    get_comments_from_subreddit search max_reddit_comments name query limit in
  result
  = match search name query (Z.min (lim / 10) 50) with
    | None => []
    | Some posts => firstn (Z.to_nat lim) (relevant_comments name terms posts)
    end
  /\ (Z.of_nat (length result) <= Z.max 0 lim)%Z
  /\ Forall
       (fun rc =>
          accepted terms (comment_text (rc_comment rc))
          /\ (length (replies_of rc) <= 5)%nat
          /\ Forall (fun r => accepted terms (reply_text r)) (replies_of rc)
          /\ rc_subreddit rc = name)
       result.
Proof.
  intros lim terms result.
  assert (Hs := get_comments_from_subreddit_slice search max_reddit_comments
                  name query limit).
  fold lim terms result in Hs.
  split; [exact Hs|].
  split.
  - pose proof (get_comments_from_subreddit_length search max_reddit_comments
                  name query limit) as Hl.
    fold lim result in Hl. lia.
  - rewrite Hs. destruct (search name query (Z.min (lim / 10) 50));
      [|apply Forall_nil].
    apply Forall_firstn, relevant_comments_kept.
Qed.

(** X23.  [get_comments_parallel] returns at most [max(800, total_limit)]
    comments, in whatever order the forums complete, and none at all when
    no forum passes the probe or the configured number of workers is not
    positive. *)
Theorem get_comments_parallel_bounded (probe : str -> bool)
    (search : str -> str -> Z -> option (list submission))
    (completion : list str -> list str)
    (max_reddit_comments max_workers : Z) (query : str)
    (total_limit : option Z) :
  (forall l, Permutation (completion l) l) ->
  let result :=
    get_comments_parallel probe search completion max_reddit_comments
      max_workers query total_limit in
  (Z.of_nat (length result)
   <= Z.max 800 (get_or total_limit max_reddit_comments))%Z
  /\ (search_subreddits probe (Some query) 8 = [] -> result = [])
  /\ ((max_workers <= 0)%Z -> result = []).
Proof.
  intros Hperm result.
  split; [apply get_comments_parallel_length; exact Hperm|].
  unfold result, get_comments_parallel.
  split.
  - intros ->. reflexivity.
  - intros Hw.
    destruct (Z.of_nat (length (search_subreddits probe (Some query) 8)) =? 0)%Z;
      [reflexivity|].
    assert (Hm : (Z.min (Z.of_nat (length (search_subreddits probe
                                             (Some query) 8))) max_workers
                  <=? 0)%Z = true) by (apply Z.leb_le; lia).
    rewrite Hm. reflexivity.
Qed.

Lemma get_comments_parallel_bounded_witness :
  (Z.of_nat
     (length (get_comments_parallel all_but_news sample_search (@rev str)
                3000 4 (py "cats") (Some 3)))
   <= Z.max 800 (get_or (Some 3%Z) 3000%Z))%Z
  /\ (search_subreddits all_but_news (Some (py "cats")) 8 = [] ->
      get_comments_parallel all_but_news sample_search (@rev str)
        3000 4 (py "cats") (Some 3%Z) = [])
  /\ ((4 <= 0)%Z ->
      get_comments_parallel all_but_news sample_search (@rev str)
        3000 4 (py "cats") (Some 3%Z) = []).
Proof.
  apply (@get_comments_parallel_bounded all_but_news sample_search (@rev str)
           3000 4 (py "cats") (Some 3%Z)).
  intros l. apply Permutation_sym, Permutation_rev.
Defined.

(** X24.  With the discussion service run by [get_comments_parallel], the
    discussion fetch of attempt [attempt] succeeds, reports at most
    [3000 + (attempt - 1) * 1000] comments, and wraps every comment in an
    item of its own with source [reddit]. *)
Theorem fetch_reddit_bounded (svc : services) (probe : str -> bool)
    (search : str -> str -> Z -> option (list submission))
    (completion : list str -> list str)
    (max_reddit_comments max_workers : Z) (query : str) (attempt : Z) :
  (forall l, Permutation (completion l) l) ->
  (1 <= attempt)%Z ->
  exists r,
    fetch_reddit
      (with_reddit_service svc probe search completion max_reddit_comments
         max_workers) query attempt = Returned r
    /\ (sr_total_comments r <= 3000 + (attempt - 1) * 1000)%Z
    /\ sr_total_comments r = Z.of_nat (length (sr_videos r))
    /\ Forall
         (fun v => video_source v = Some (py "reddit")
                   /\ length (video_comments v) = 1%nat)
         (sr_videos r).
Proof.
  intros Hperm Ha. unfold fetch_reddit, with_reddit_service.
  cbn [CommentFetcher.get_comments_parallel].
  set (comments := get_comments_parallel probe search completion
                     max_reddit_comments max_workers query
                     (Some (3000 + (attempt - 1) * 1000)%Z)).
  exists {| sr_videos := map reddit_post comments;
            sr_total_comments := Z.of_nat (length comments) |}.
  split; [reflexivity|]. cbn [sr_total_comments sr_videos].
  split.
  - pose proof (@get_comments_parallel_length probe search completion
                  max_reddit_comments max_workers query
                  (Some (3000 + (attempt - 1) * 1000)%Z) Hperm) as Hl.
    fold comments in Hl. cbn [get_or] in Hl. lia.
  - split; [rewrite length_map; reflexivity|].
    apply Forall_forall. intros v Hv. apply in_map_iff in Hv.
    destruct Hv as [rc [<- _]]. split; reflexivity.
Qed.

Lemma fetch_reddit_bounded_witness :
  exists r,
    fetch_reddit
      (with_reddit_service sample_services all_but_news sample_search
         (@rev str) 3000 4) (py "cats") 2 = Returned r
    /\ (sr_total_comments r <= 3000 + (2 - 1) * 1000)%Z
    /\ sr_total_comments r = Z.of_nat (length (sr_videos r))
    /\ Forall
         (fun v => video_source v = Some (py "reddit")
                   /\ length (video_comments v) = 1%nat)
         (sr_videos r).
Proof.
  apply (@fetch_reddit_bounded sample_services all_but_news sample_search
           (@rev str) 3000 4 (py "cats") 2).
  - intros l. apply Permutation_sym, Permutation_rev.
  - lia.
Defined.

End RedditFetch.

(** ** Suggestions *)
Module Suggestions.

Import Samples Notions PyStrFacts PyStrMore.
Import Helpers AIService SearchRoutes.

Lemma parse_lines_trimmed (lines : list str) :
  Forall (fun s => s <> [] /\ strip s = s) (parse_lines lines).
Proof.
  apply Forall_forall. intros v Hv.
  apply GenerateVariations.parse_lines_In in Hv.
  destruct Hv as [line [_ Hp]].
  apply GenerateVariations.parse_line_some in Hp.
  destruct Hp as [_ [Hv Hne]].
  split; [exact Hne|]. rewrite Hv. apply strip_idem.
Qed.

Lemma suggest_related_queries_trimmed (model : option generation)
    (query : str) (n : Z) :
  Forall (fun s => s <> [] /\ strip s = s)
    (suggest_related_queries model query n).
Proof.
  unfold suggest_related_queries.
  destruct model as [[|response_text]|]; try apply Forall_nil.
  apply Forall_slice_to, parse_lines_trimmed.
Qed.

(** On the same reply of the model, the variations are the query alone
    when nothing parses from the reply, and the suggestions otherwise. *)
Lemma variations_of_suggestions (config_num : Z) (model : option generation)
    (query : str) (n : Z) :
  generate_query_variations config_num model query (Some n)
  = match model with
    | Some (Text response_text) =>
        match parsed response_text with
        | [] => [query]
        | _ => suggest_related_queries model query n
        end
    | _ => [query]
    end.
Proof.
  unfold generate_query_variations, suggest_related_queries, parsed.
  destruct model as [[|response_text]|]; reflexivity.
Qed.

(** X25.  [POST /search/suggestions] answers 400 with [Query is required]
    for a query that is empty after trimming and with the message of
    [validate_query] for any other invalid query; otherwise it answers 200
    with the trimmed query and the suggestions, also when there is none.
    The count is the number of suggestions, and at most the number asked
    for when that is not negative; every suggestion is a non-empty text
    without whitespace at its ends; there is none without a model or when
    the generation raises.  On the same reply of the model, for every
    number asked for, [generate_query_variations] returns the query alone
    when there is no model, the generation raises or nothing parses from
    the reply, and the suggestions otherwise.  So for a number of at least
    1 it returns the suggestions, or the query alone when there is none;
    for the number 0 there is no suggestion, and it returns the empty list
    when something parses from the reply. *)
Theorem get_search_suggestions_answer (model : option generation)
    (data : suggestions_request) :
  let query := strip (get_or (sug_query data) []) in
  let n := get_or (sug_num_suggestions data) 5%Z in
  match get_search_suggestions model data with
  | SuggestionsRefused message =>
      (query = [] /\ message = py "Query is required")
      \/ (query <> [] /\ validate_query query = (false, message))
  | Suggestions original_query suggestions count =>
      original_query = query
      /\ fst (validate_query query) = true
      /\ suggestions = suggest_related_queries model query n
      /\ count = Z.of_nat (length suggestions)
      /\ ((0 <= n)%Z -> (count <= n)%Z)
      /\ Forall (fun s => s <> [] /\ strip s = s) suggestions
      /\ (model = None \/ model = Some Raises -> suggestions = [])
      /\ (forall config_num,
            generate_query_variations config_num model query (Some n)
            = match model with
              | Some (Text response_text) =>
                  match parsed response_text with
                  | [] => [query]
                  | _ => suggestions
                  end
              | _ => [query]
              end)
      /\ (forall config_num,
            (1 <= n)%Z ->
            generate_query_variations config_num model query (Some n)
            = match suggestions with
              | [] => [query]
              | _ => suggestions
              end)
      /\ (n = 0%Z ->
          suggestions = []
          /\ forall config_num response_text,
               model = Some (Text response_text) ->
               parsed response_text <> [] ->
               generate_query_variations config_num model query (Some n) = [])
  end.
Proof.
  intros query n. unfold get_search_suggestions. fold query n.
  destruct query as [|c t] eqn:Eq; cbn [is_empty].
  - left. split; reflexivity.
  - rewrite <- Eq.
    destruct (validate_query query) as [is_valid message] eqn:Ev.
    destruct is_valid; cbn [negb].
    + split; [reflexivity|]. split; [reflexivity|]. split; [reflexivity|].
      split; [reflexivity|].
      split.
      { intros Hn. unfold suggest_related_queries.
        destruct model as [[|response_text]|]; cbn [length]; try lia.
        apply slice_to_length. exact Hn. }
      split; [apply suggest_related_queries_trimmed|].
      split.
      { intros [->| ->]; reflexivity. }
      split; [intros config_num; apply variations_of_suggestions|].
      split.
      { intros config_num Hn. rewrite variations_of_suggestions.
        unfold suggest_related_queries, parsed.
        destruct model as [[|response_text]|]; try reflexivity.
        destruct (parse_lines (split_on "010" (strip response_text)))
          as [|v vs] eqn:Ep.
        - unfold slice_to. destruct (0 <=? n)%Z; rewrite firstn_nil;
            reflexivity.
        - assert (Hne : slice_to n (v :: vs) <> [])
            by (apply slice_to_nonempty; [exact Hn | discriminate]).
          destruct (slice_to n (v :: vs)) as [|w ws];
            [contradiction Hne; reflexivity | reflexivity]. }
      intros Hn.
      assert (Hnone : suggest_related_queries model query n = []).
      { rewrite Hn. unfold suggest_related_queries.
        destruct model as [[|response_text]|]; reflexivity. }
      split; [exact Hnone|].
      intros config_num response_text Hm Hp.
      rewrite variations_of_suggestions, Hm. rewrite <- Hm, Hnone.
      destruct (parsed response_text); [contradiction Hp; reflexivity|].
      reflexivity.
    + right. split; [rewrite Eq; discriminate | reflexivity].
Qed.

End Suggestions.

(** ** Reading a stored batch through the routes *)
Module StoredBatches.

Import Samples Notions PyStrFacts.
Import Database DatabaseService DatabaseRoutes CommentFetcher SearchRoutes.

Lemma found_after_append (id_text : nat -> str) (o : opening) (h : handles)
    (coll : list document) (doc : document) (batch_id : str) :
  client h = true ->
  db h = true ->
  unused batch_id coll ->
  has_batch_id batch_id doc = true ->
  get_search_result id_text false o h (coll ++ [doc]) batch_id
  = (h, Some ((py "_id", VStr (id_text (length coll))) :: doc)).
Proof.
  intros Hc Hd Hu Hb. unfold get_search_result.
  rewrite (@DatabaseState.connect_with_client o h Hc).
  cbn [negb]. rewrite Hd. cbn [negb]. unfold find_one.
  rewrite (@DatabaseState.find_from_unused batch_id coll doc 0 Hu Hb).
  reflexivity.
Qed.

(** The identifier does not hide the carried-over keys. *)
Lemma same_summary_with_id (v : value) (data doc : document) :
  same_summary data doc -> same_summary data ((py "_id", v) :: doc).
Proof.
  unfold same_summary, summary_keys. cbn [map]. intros H.
  repeat (apply Forall_cons;
          [apply Forall_inv in H; exact H | apply Forall_inv_tail in H]).
  apply Forall_nil.
Qed.

Lemma same_summary_fields (data doc : document) :
  same_summary data doc ->
  get (py "batch_id") doc = get (py "batch_id") data
  /\ get (py "query") doc = get (py "query") data
  /\ get (py "timestamp") doc = get (py "timestamp") data
  /\ get (py "total_comments") doc = get (py "total_comments") data
  /\ get (py "unique_comments") doc = get (py "unique_comments") data.
Proof.
  unfold same_summary, summary_keys. cbn [map]. intros H.
  repeat (split; [apply Forall_inv in H; exact H | apply Forall_inv_tail in H]).
  apply Forall_inv in H. exact H.
Qed.

(** What a successful simple search leaves in the collection. *)
Lemma simple_search_success (env : environment) (data : simple_request)
    (body : simple_body) :
  sim_response (simple_search env data) = SimpleSuccess body ->
  exists doc,
    sim_combined_data (simple_search env data) = Some doc
    /\ sim_collection (simple_search env data)
       = fst (Database.save_search_result (env_server env)
                (env_collection env) doc)
    /\ sbody_saved_to body
       = match snd (Database.save_search_result (env_server env)
                      (env_collection env) doc) with
         | Some id => SavedMongodb id
         | None => FilesOnly
         end.
Proof.
  unfold simple_search.
  destruct (Helpers.validate_query (strip (get_or (sreq_query data) [])))
    as [is_valid message].
  destruct is_valid; cbn [negb]; [|discriminate].
  destruct (fetch_all_comments_parallel _ _ _ _ _ _) as [result|];
    [|discriminate].
  destruct (fr_videos result) as [|v vs] eqn:Ev; [discriminate|].
  rewrite <- Ev.
  destruct (get_unique_comments_unified (fr_videos result))
    as [[unique_comments unique_count] total_replies].
  unfold save_unified_data.
  match goal with
  | |- context [Database.save_search_result ?srv ?coll ?d] =>
      set (doc := d); destruct (Database.save_search_result srv coll doc)
        as [coll' [id|]] eqn:Es
  end; cbn [sim_response sim_combined_data sim_collection];
    intros H; injection H as <-; exists doc; rewrite Es; cbn [fst snd];
    (split; [reflexivity|]); (split; reflexivity).
Qed.

(** X26.  A batch stored by [POST /search/simple] is found by
    [GET /search/status/<batch_id>]: when the answer of the simple search
    names a stored document and no earlier document has the batch
    identifier, a connected database service answers the status request
    with a document that carries the identifier as text under [_id] and
    the [total_comments] and [unique_comments] of the answer, also when
    only the metadata was stored. *)
Theorem status_after_simple_search (env : environment)
    (data : simple_request) (body : simple_body) (id : nat)
    (id_text : nat -> str) (o : opening) (h : handles) :
  sim_response (simple_search env data) = SimpleSuccess body ->
  sbody_saved_to body = SavedMongodb id ->
  unused (batch_id (env_stamp env)) (env_collection env) ->
  client h = true ->
  db h = true ->
  exists doc,
    get_search_status id_text false o h
      (sim_collection (simple_search env data)) (batch_id (env_stamp env))
    = (h, StatusCompleted (batch_id (env_stamp env)) doc)
    /\ get (py "_id") doc = VStr (id_text id)
    /\ get (py "batch_id") doc = VStr (batch_id (env_stamp env))
    /\ get (py "total_comments") doc = VInt (sbody_total_comments body)
    /\ get (py "unique_comments") doc = VInt (sbody_unique_comments body).
Proof.
  intros Hr Hs Hu Hc Hd.
  destruct (simple_search_success env data Hr) as [data_doc [Hdoc [Hcoll Hsaved]]].
  destruct (SearchEndpoints.simple_search_saved env data Hdoc)
    as [result [body' [_ [Hr' [Htc [_ [_ [Huc Hform]]]]]]]].
  rewrite Hr in Hr'. injection Hr' as <-.
  rewrite Hs in Hsaved.
  pose proof (DatabaseState.save_search_result_effect (env_server env)
                (env_collection env) data_doc) as He.
  assert (Hstored : exists stored,
            sim_collection (simple_search env data)
            = env_collection env ++ [stored]
            /\ id = length (env_collection env)
            /\ same_summary data_doc stored).
  { rewrite Hcoll.
    destruct (Database.save_search_result (env_server env)
                (env_collection env) data_doc) as [coll' [id'|]];
      [|discriminate Hsaved].
    injection Hsaved as ->. cbn [fst snd] in *.
    destruct He as [[He _]|[[Hi [_ Hc']]|[Hi [_ Hc']]]]; [discriminate He| |].
    - exists data_doc. injection Hi as ->.
      split; [exact Hc'|].
      split; [reflexivity | apply DatabaseState.same_summary_refl].
    - exists (minimal_data data_doc). injection Hi as ->.
      split; [exact Hc'|].
      split; [reflexivity | apply DatabaseState.minimal_same_summary]. }
  destruct Hstored as [stored [-> [-> Hsum]]].
  assert (Hbatch : get (py "batch_id") data_doc
                   = VStr (batch_id (env_stamp env)))
    by (rewrite Hform; reflexivity).
  assert (Htotal : get (py "total_comments") data_doc
                   = VInt (fr_total_comments result))
    by (rewrite Hform; reflexivity).
  assert (Hunique : get (py "unique_comments") data_doc
                    = VInt (total_comments (final_state (fr_videos result))))
    by (rewrite Hform; reflexivity).
  exists ((py "_id", VStr (id_text (length (env_collection env)))) :: stored).
  unfold get_search_status.
  rewrite (@found_after_append id_text o h (env_collection env) stored
             (batch_id (env_stamp env)) Hc Hd Hu
             (@DatabaseState.has_batch_id_same_summary
                (batch_id (env_stamp env)) data_doc stored Hsum Hbatch)).
  split; [reflexivity|]. split; [reflexivity|].
  destruct (same_summary_fields
              (same_summary_with_id
                 (VStr (id_text (length (env_collection env)))) Hsum))
    as [Hb [_ [_ [Ht Hq]]]].
  rewrite Hb, Ht, Hq, Hbatch, Htotal, Hunique, Htc, Huc.
  split; [reflexivity|]. split; reflexivity.
Qed.

Lemma status_after_simple_search_witness :
  exists doc,
    get_search_status id_letters false NoUri {| client := true; db := true |}
      (sim_collection (simple_search stored_environment sample_simple_request))
      (batch_id (env_stamp stored_environment))
    = ({| client := true; db := true |},
       StatusCompleted (batch_id (env_stamp stored_environment)) doc)
    /\ get (py "_id") doc = VStr (id_letters 0)
    /\ get (py "batch_id") doc = VStr (batch_id (env_stamp stored_environment))
    /\ get (py "total_comments") doc
       = VInt (sbody_total_comments sample_simple_body)
    /\ get (py "unique_comments") doc
       = VInt (sbody_unique_comments sample_simple_body).
Proof.
  apply (@status_after_simple_search stored_environment sample_simple_request
           sample_simple_body 0 id_letters NoUri
           {| client := true; db := true |}).
  - vm_compute. reflexivity.
  - reflexivity.
  - apply Forall_nil.
  - reflexivity.
  - reflexivity.
Defined.

(** X27.  The summary of a batch after the save: when the service stores a
    document under a batch identifier that no earlier document has,
    [GET /batch/<batch_id>/summary] finds it and reports the [batch_id],
    [query] and [timestamp] of the data.  When the data itself was stored,
    the summary reports its [total_comments], [unique_comments],
    [total_replies] and [grand_total], each 0 when the data has no such
    key.  When only the metadata was stored, it reports the
    [total_comments] and [unique_comments] of the data but 0 for
    [total_replies], [grand_total] and the numbers of videos and posts, no
    sources and an empty [processing_info], whatever the data held. *)
Theorem summary_of_saved_batch (o o' : opening)
    (rejects : list document -> document -> option str)
    (id_text : nat -> str) (h h' : handles) (coll coll' : list document)
    (data : document) (id : nat) (batch_id : str) :
  DatabaseService.save_search_result o rejects h coll data
  = (h', coll', Some id) ->
  get (py "batch_id") data = VStr batch_id ->
  unused batch_id coll ->
  exists summary,
    get_batch_summary id_text false o' h' coll' batch_id = (h', Some summary)
    /\ get (py "batch_id") summary = VStr batch_id
    /\ get (py "query") summary = get (py "query") data
    /\ get (py "timestamp") summary = get (py "timestamp") data
    /\ get (py "data_available") summary = VBool true
    /\ (rejects coll data = None ->
        Forall
          (fun key => get key summary = get_default key (VInt 0) data)
          [py "total_comments"; py "unique_comments"; py "total_replies";
           py "grand_total"])
    /\ (rejects coll data <> None ->
        get (py "total_comments") summary = get (py "total_comments") data
        /\ get (py "unique_comments") summary
           = get (py "unique_comments") data
        /\ get (py "total_replies") summary = VInt 0
        /\ get (py "grand_total") summary = VInt 0
        /\ get (py "total_youtube_videos") summary = VInt 0
        /\ get (py "total_reddit_posts") summary = VInt 0
        /\ get (py "sources") summary = VStrs []
        /\ get (py "processing_info") summary = VDict []).
Proof.
  intros Hs Hb Hu.
  destruct (DatabaseState.service_save_some _ _ _ _ _ Hs) as [Hc [Hd Hsave]].
  pose proof (DatabaseState.save_search_result_effect
                {| Database.connect := true; Database.rejects := rejects |}
                coll data) as He.
  rewrite Hsave in He. cbn [fst snd Database.rejects] in He.
  unfold get_batch_summary.
  destruct He as [[He _]|[[Hi [Hr Hcoll]]|[Hi [Hr Hcoll]]]]; [discriminate He| |].
  - injection Hi as ->. rewrite Hcoll.
    rewrite (@found_after_append id_text o' h' coll data batch_id Hc Hd Hu
               (@DatabaseState.has_batch_id_same_summary batch_id data data
                  (DatabaseState.same_summary_refl data) Hb)).
    eexists. split; [reflexivity|].
    split; [exact Hb|].
    split; [reflexivity|]. split; [reflexivity|]. split; [reflexivity|].
    split.
    + intros _. repeat (apply Forall_cons; [reflexivity|]). apply Forall_nil.
    + intros Hn. exfalso. apply Hn. exact Hr.
  - injection Hi as ->. rewrite Hcoll.
    rewrite (@found_after_append id_text o' h' coll (minimal_data data)
               batch_id Hc Hd Hu
               (@DatabaseState.has_batch_id_same_summary batch_id data
                  (minimal_data data)
                  (DatabaseState.minimal_same_summary data) Hb)).
    eexists. split; [reflexivity|].
    split; [exact Hb|].
    split; [reflexivity|]. split; [reflexivity|]. split; [reflexivity|].
    split.
    + intros Hn. exfalso. apply Hr. exact Hn.
    + intros _. repeat (split; [reflexivity|]). reflexivity.
Qed.

Lemma summary_of_saved_batch_witness :
  exists summary,
    get_batch_summary id_letters false NoUri {| client := true; db := true |}
      [minimal_data big_document] (py "1a2b3c4d")
    = ({| client := true; db := true |}, Some summary)
    /\ get (py "batch_id") summary = VStr (py "1a2b3c4d")
    /\ get (py "query") summary = get (py "query") big_document
    /\ get (py "timestamp") summary = get (py "timestamp") big_document
    /\ get (py "data_available") summary = VBool true
    /\ (Database.rejects small_server [] big_document = None ->
        Forall
          (fun key => get key summary = get_default key (VInt 0) big_document)
          [py "total_comments"; py "unique_comments"; py "total_replies";
           py "grand_total"])
    /\ (Database.rejects small_server [] big_document <> None ->
        get (py "total_comments") summary
        = get (py "total_comments") big_document
        /\ get (py "unique_comments") summary
           = get (py "unique_comments") big_document
        /\ get (py "total_replies") summary = VInt 0
        /\ get (py "grand_total") summary = VInt 0
        /\ get (py "total_youtube_videos") summary = VInt 0
        /\ get (py "total_reddit_posts") summary = VInt 0
        /\ get (py "sources") summary = VStrs []
        /\ get (py "processing_info") summary = VDict []).
Proof.
  apply (@summary_of_saved_batch Opens NoUri (Database.rejects small_server)
           id_letters initial {| client := true; db := true |}
           [] [minimal_data big_document] big_document 0 (py "1a2b3c4d")).
  - reflexivity.
  - reflexivity.
  - apply Forall_nil.
Defined.

End StoredBatches.

(** ** The file name of a query *)
Module QueryFilename.

Import Samples Notions PyStrFacts.
Import FileUtils YouTubeService.

Local Arguments Ascii.eqb : simpl never.

Lemma sanitize_query_stages (max_length : Z) (query : str) :
  sanitize_query_for_filename max_length query
  = lower (rstrip_by is_us (truncate max_length (kept_chars query))).
Proof. reflexivity. Qed.

Lemma filter_all (A : Type) (f : A -> bool) (l : list A) :
  Forall (fun a => f a = true) l -> filter f l = l.
Proof.
  induction 1 as [|a l Ha Hl IH]; [reflexivity|].
  cbn [filter]. rewrite Ha, IH. reflexivity.
Qed.

Lemma lower_kept (s : str) :
  Forall (fun c => keep_char c = true) s ->
  Forall (fun c => keep_char c = true /\ lower_char c = c) (lower s).
Proof.
  intros H. unfold lower. apply Forall_forall. intros c Hc.
  apply in_map_iff in Hc. destruct Hc as [d [<- Hd]].
  rewrite Forall_forall in H.
  split; [apply SanitizeFilename.keep_char_lower, H, Hd
         | apply SanitizeFilename.lower_char_idem].
Qed.

Lemma kept_chars_fixed (s : str) :
  Forall (fun c => keep_char c = true) s -> kept_chars s = s.
Proof.
  intros H. unfold kept_chars. rewrite SanitizeFilename.replace_space_map.
  assert (Hm : map space_to_us s = s).
  { induction H as [|c t Hc Ht IH]; [reflexivity|].
    cbn [map]. rewrite (SanitizeFilename.keep_char_space_to_us c Hc), IH.
    reflexivity. }
  rewrite Hm. apply filter_all. exact H.
Qed.

(** X28.  For a query of code points below U+0100 and a configured length
    that is not negative, the file name that [sanitize_query_for_filename]
    makes of the query holds only underscores, hyphens and alphanumeric
    characters that are their own lowercase, is no longer than the
    configured length and ends with no underscore; sanitizing it again
    changes nothing; and it is empty exactly when the kept characters, cut
    to the configured length, are all underscores.  Outside that range
    [str.lower] can lengthen a string (U+0130 becomes two code points, the
    second not alphanumeric), which the embedding of strings does not
    cover. *)
Theorem sanitize_query_for_filename_shape (max_length : Z) (query : str) :
  (0 <= max_length)%Z ->
  let name := sanitize_query_for_filename max_length query in
  Forall (fun c => keep_char c = true /\ lower_char c = c) name
  /\ (len name <= max_length)%Z
  /\ rstrip_by is_us name = name
  /\ sanitize_query_for_filename max_length name = name
  /\ (name = [] <->
      forallb is_us (truncate max_length (kept_chars query)) = true).
Proof.
  intros Hmax name.
  assert (Hchars : Forall (fun c => keep_char c = true /\ lower_char c = c) name).
  { unfold name. rewrite sanitize_query_stages. apply lower_kept.
    apply Forall_rstrip_by, SanitizeFilename.Forall_truncate.
    unfold kept_chars. apply Forall_filter_true. }
  assert (Hlen : (len name <= max_length)%Z).
  { unfold name. rewrite sanitize_query_stages. unfold len, lower.
    rewrite length_map.
    pose proof (rstrip_by_length is_us (truncate max_length (kept_chars query))).
    pose proof (SanitizeFilename.truncate_len (kept_chars query) Hmax) as Ht.
    unfold len in Ht. lia. }
  assert (Hend : rstrip_by is_us name = name).
  { unfold name. rewrite sanitize_query_stages.
    rewrite SanitizeFilename.rstrip_by_lower, rstrip_by_idem. reflexivity. }
  split; [exact Hchars|]. split; [exact Hlen|]. split; [exact Hend|].
  split.
  - rewrite sanitize_query_stages.
    rewrite kept_chars_fixed
      by (apply Forall_impl with (2 := Hchars); intros c [Hc _]; exact Hc).
    rewrite (SanitizeFilename.truncate_short name Hlen), Hend.
    apply SanitizeFilename.lower_fixed.
    apply Forall_impl with (2 := Hchars). intros c [_ Hc]. exact Hc.
  - unfold name. rewrite sanitize_query_stages.
    rewrite <- rstrip_by_forallb. unfold lower.
    destruct (rstrip_by is_us (truncate max_length (kept_chars query)));
      cbn [map is_empty]; split; intros H; try reflexivity; discriminate H.
Qed.

Lemma sanitize_query_for_filename_shape_witness :
  Forall (fun c => keep_char c = true /\ lower_char c = c)
    (sanitize_query_for_filename 6 (py "Big Cats!"))
  /\ (len (sanitize_query_for_filename 6 (py "Big Cats!")) <= 6)%Z
  /\ rstrip_by is_us (sanitize_query_for_filename 6 (py "Big Cats!"))
     = sanitize_query_for_filename 6 (py "Big Cats!")
  /\ sanitize_query_for_filename 6
       (sanitize_query_for_filename 6 (py "Big Cats!"))
     = sanitize_query_for_filename 6 (py "Big Cats!")
  /\ (sanitize_query_for_filename 6 (py "Big Cats!") = [] <->
      forallb is_us (truncate 6 (kept_chars (py "Big Cats!"))) = true).
Proof.
  apply (@sanitize_query_for_filename_shape 6 (py "Big Cats!")). lia.
Defined.

(** X29.  The two file-name functions agree on a query without whitespace
    at its ends whose kept characters hold no two underscores in a row,
    unless [sanitize_query_for_filename] makes the empty name of it, for
    which [sanitize_filename] gives a fallback name. *)
Theorem sanitize_functions_agree (max_length : Z) (query : str) :
  strip query = query ->
  has_uu (kept_chars query) = false ->
  (sanitize_query_for_filename max_length query <> [] ->
   sanitize_filename max_length query
   = sanitize_query_for_filename max_length query)
  /\ (sanitize_query_for_filename max_length query = [] ->
      sanitize_filename max_length query = py "unknown_file"
      \/ sanitize_filename max_length query = py "file").
Proof.
  intros Hs Hu.
  rewrite SanitizeFilename.sanitize_filename_stages, sanitize_query_stages.
  assert (Hc : collapsed query = kept_chars query).
  { unfold collapsed. rewrite Hs. fold (kept_chars query).
    apply SanitizeFilename.collapse_loop_fixed. exact Hu. }
  split.
  - intros Hne.
    destruct (forallb isspace query) eqn:Eb.
    + exfalso. apply Hne. rewrite <- strip_blank, Hs in Eb.
      destruct query; [|discriminate Eb].
      change (kept_chars []) with (@nil ascii). unfold truncate, slice_to.
      destruct (len [] >? max_length)%Z; [|reflexivity].
      destruct (0 <=? max_length)%Z; rewrite firstn_nil; reflexivity.
    + unfold finish. rewrite Hc.
      destruct (rstrip_by is_us (truncate max_length (kept_chars query)))
        as [|c t]; [contradiction Hne; reflexivity | reflexivity].
  - intros He. destruct (forallb isspace query); [left; reflexivity|].
    right. unfold finish. rewrite Hc.
    destruct (rstrip_by is_us (truncate max_length (kept_chars query)))
      as [|c t]; [reflexivity | discriminate He].
Qed.

Lemma sanitize_functions_agree_witness :
  (sanitize_query_for_filename 50 (py "Big Cats!") <> [] ->
   sanitize_filename 50 (py "Big Cats!")
   = sanitize_query_for_filename 50 (py "Big Cats!"))
  /\ (sanitize_query_for_filename 50 (py "Big Cats!") = [] ->
      sanitize_filename 50 (py "Big Cats!") = py "unknown_file"
      \/ sanitize_filename 50 (py "Big Cats!") = py "file").
Proof.
  apply (@sanitize_functions_agree 50 (py "Big Cats!")); reflexivity.
Defined.

End QueryFilename.

(** ** Cleaning up the stored batches *)
Module Cleanup.

Import Samples Notions PyStrFacts.
Import Database DatabaseService DatabaseRoutes.

Lemma filter_none_selected (selected : list value -> document -> bool)
    (coll : list document) :
  (forall doc, selected [] doc = false) ->
  filter (fun doc => negb (selected [] doc)) coll = coll.
Proof.
  intros H. induction coll as [|doc rest IH]; [reflexivity|].
  cbn [filter]. rewrite (H doc). cbn [negb]. rewrite IH. reflexivity.
Qed.

(** X30.  With a server that selects nothing for an empty list of batch
    identifiers, [POST /database/cleanup] removes nothing when
    [keep_latest] is 0 or is at least the number of records.  For
    [keep_latest] 0 and a connected service with records it still answers
    that the cleanup is completed, with 0 deleted and all records
    remaining: it does not empty the collection. *)
Theorem cleanup_database_keeps_all (sorted : list document -> list document)
    (selected : list value -> document -> bool)
    (o : opening) (h : handles) (coll : list document)
    (keep_latest : option Z) :
  (forall doc, selected [] doc = false) ->
  let keep := get_or keep_latest 100%Z in
  let total := Z.of_nat (length (sorted coll)) in
  let result := cleanup_database sorted selected o h coll keep_latest in
  (keep = 0%Z \/ (total <= keep)%Z -> snd result = coll)
  /\ (keep = 0%Z -> (0 < total)%Z -> fst (get_database o h) = true ->
      snd (fst result) = CleanupCompleted 0 total).
Proof.
  intros Hsel keep total result.
  unfold result, cleanup_database. fold keep. fold total.
  destruct (get_database o h) as [has_db h'].
  destruct has_db; cbn [negb fst snd].
  - destruct (total <=? keep)%Z eqn:Et.
    + split; [intros _; reflexivity|].
      intros Hk Hpos _. apply Z.leb_le in Et. lia.
    + apply Z.leb_gt in Et. split.
      * intros [Hk|Hk]; [|lia]. rewrite Hk. cbn [Z.opp].
        unfold slice_to. cbn [Z.leb Z.compare Z.to_nat firstn batch_ids].
        cbn [snd]. apply filter_none_selected. exact Hsel.
      * intros Hk _ _. rewrite Hk. cbn [Z.opp].
        unfold slice_to. cbn [Z.leb Z.compare Z.to_nat firstn batch_ids].
        cbn [fst snd]. rewrite (filter_none_selected selected coll Hsel).
        rewrite Nat.sub_diag. cbn [Z.of_nat]. rewrite Z.sub_0_r.
        reflexivity.
  - split; [intros _; reflexivity|]. intros _ _ H. discriminate H.
Qed.

Lemma cleanup_database_keeps_all_witness :
  (get_or (Some 0%Z) 100%Z = 0%Z
   \/ (Z.of_nat (length [big_document; minimal_data big_document])
       <= get_or (Some 0%Z) 100%Z)%Z ->
   snd (cleanup_database (fun records => records) selected_by_text Opens
          initial [big_document; minimal_data big_document] (Some 0%Z))
   = [big_document; minimal_data big_document])
  /\ (get_or (Some 0%Z) 100%Z = 0%Z ->
      (0 < Z.of_nat (length [big_document; minimal_data big_document]))%Z ->
      fst (get_database Opens initial) = true ->
      snd (fst (cleanup_database (fun records => records) selected_by_text
                  Opens initial [big_document; minimal_data big_document]
                  (Some 0%Z)))
      = CleanupCompleted 0
          (Z.of_nat (length [big_document; minimal_data big_document]))).
Proof.
  apply (@cleanup_database_keeps_all (fun records => records)
           selected_by_text Opens initial
           [big_document; minimal_data big_document] (Some 0%Z)).
  intros doc. reflexivity.
Defined.

End Cleanup.
